(** * Summarization API playground: the debounced summarization controller

    A shallow embedding of [summarization-api-playground/src/main.ts].

    The program is event-driven glue around a host capability
    ([window.ai.summarizer]).  The embedding has three layers:

    - the page: the DOM properties the script reads and writes, the
      registered event listeners, the closure variable [timeout], the
      browser's table of active timers and the trace of host calls;
    - asynchronous functions, written in a small monad [Async] whose
      [await]s on host promises are explicit constructors;
    - the event loop: one [step] per task (a user event, a lapse of time
      that runs due timers, or the host settling a promise), each run to
      completion before the next.

    Strings are JavaScript strings restricted to one code unit per
    character, so that [String.length] is the [.length] of the script. *)

From Stdlib Require Import List String Ascii Bool NArith Arith Lia.
From Stdlib Require Import DecimalString DecimalN.
Import ListNotations.

Local Open Scope string_scope.
Local Open Scope list_scope.

(** ** Host capability surface *)

(** [AICapabilityAvailability]: the three literals of the host's type. *)
Inductive AICapabilityAvailability : Set :=
| readily
| after_download
| no.

(** [canSummarize.available === 'no'] *)
Definition is_no (a : AICapabilityAvailability) : bool :=
  match a with
  | no => true
  | _ => false
  end.

(** The object [capabilities()] resolves to. *)
Record AISummarizerCapabilities : Set := { available : AICapabilityAvailability }.

(** A session is an opaque handle chosen by the host. *)
Definition AISummarizer : Set := N.

(** A download-progress listener is an opaque function object. *)
Definition DownloadProgressListener : Set := N.

(** [(m) => { m.addEventListener('downloadprogress', listener) }] *)
Inductive AICreateMonitorCallback : Set :=
| AddDownloadProgressListener (listener : DownloadProgressListener).

(** The argument of [create]: [{type, format, length, monitor}]. *)
Record AISummarizerCreateOptions : Set := {
  co_type : string;
  co_format : string;
  co_length : string;
  co_monitor : option AICreateMonitorCallback
}.

(** [window.ai] when it is defined; its [summarizer] may be undefined. *)
Record AI : Set := { summarizer : bool }.

(** Values a promise can reject with. *)
Inductive Exn : Set :=
| Error (message : string)
| TypeError (message : string)
| DOMException (name message : string).

(** The calls the script makes on the host, in the order it makes them. *)
Inductive HostCall : Set :=
| CallCapabilities
| CallCreate (options : AISummarizerCreateOptions)
| CallSummarize (session : AISummarizer) (input : string)
| CallDestroy (session : AISummarizer).

(** ** The page *)

(** DOM properties read or written by the script (lines 12-20). *)
Record DOM : Set := {
  inputTextArea_value : string;
  summaryTypeSelect_value : string;
  summaryFormatSelect_value : string;
  summaryLengthSelect_value : string;
  characterCountSpan_textContent : string;
  characterCountSpan_classList : list string;
  characterCountExceededSpan_classList : list string;
  summarizationUnsupportedDialog_display : string;
  summarizationUnavailableDialog_display : string;
  output_textContent : string
}.

Inductive Target : Set :=
| inputTextArea
| summaryTypeSelect
| summaryFormatSelect
| summaryLengthSelect.

Inductive EventType : Set :=
| input_event
| change_event.

(** The two function objects registered as listeners. *)
Inductive Handler : Set :=
| scheduleSummarization_fn
| inputListener_fn.

(** The function object handed to [setTimeout] (lines 78-88). *)
Inductive Callback : Set :=
| summarizeCallback_fn.

Record Registration : Set := {
  reg_target : Target;
  reg_type : EventType;
  reg_handler : Handler
}.

Record Timer : Set := {
  timer_id : N;
  timer_deadline : N;
  timer_callback : Callback
}.

Record Page : Set := {
  now : N;                          (* clock, in ms *)
  window_ai : option AI;
  dom : DOM;
  listeners : list Registration;
  timeout : option N;               (* [let timeout], line 73 *)
  timers : list Timer;              (* active timers, by deadline *)
  next_handle : N;                  (* next id [setTimeout] returns *)
  fired : list N;                   (* ids of the timers that have run *)
  calls : list HostCall             (* host calls made so far *)
}.

(** *** Field updates *)

Definition with_dom (f : DOM -> DOM) (p : Page) : Page :=
  {| now := now p; window_ai := window_ai p; dom := f (dom p);
     listeners := listeners p; timeout := timeout p; timers := timers p;
     next_handle := next_handle p; fired := fired p; calls := calls p |}.

Definition set_now (t : N) (p : Page) : Page :=
  {| now := t; window_ai := window_ai p; dom := dom p;
     listeners := listeners p; timeout := timeout p; timers := timers p;
     next_handle := next_handle p; fired := fired p; calls := calls p |}.

Definition set_listeners (l : list Registration) (p : Page) : Page :=
  {| now := now p; window_ai := window_ai p; dom := dom p;
     listeners := l; timeout := timeout p; timers := timers p;
     next_handle := next_handle p; fired := fired p; calls := calls p |}.

Definition set_timeout (h : option N) (p : Page) : Page :=
  {| now := now p; window_ai := window_ai p; dom := dom p;
     listeners := listeners p; timeout := h; timers := timers p;
     next_handle := next_handle p; fired := fired p; calls := calls p |}.

Definition set_timers (l : list Timer) (p : Page) : Page :=
  {| now := now p; window_ai := window_ai p; dom := dom p;
     listeners := listeners p; timeout := timeout p; timers := l;
     next_handle := next_handle p; fired := fired p; calls := calls p |}.

Definition set_next_handle (n : N) (p : Page) : Page :=
  {| now := now p; window_ai := window_ai p; dom := dom p;
     listeners := listeners p; timeout := timeout p; timers := timers p;
     next_handle := n; fired := fired p; calls := calls p |}.

Definition set_fired (l : list N) (p : Page) : Page :=
  {| now := now p; window_ai := window_ai p; dom := dom p;
     listeners := listeners p; timeout := timeout p; timers := timers p;
     next_handle := next_handle p; fired := l; calls := calls p |}.

Definition log_call (c : HostCall) (p : Page) : Page :=
  {| now := now p; window_ai := window_ai p; dom := dom p;
     listeners := listeners p; timeout := timeout p; timers := timers p;
     next_handle := next_handle p; fired := fired p; calls := calls p ++ [c] |}.

Definition set_inputTextArea_value (v : string) (d : DOM) : DOM :=
  {| inputTextArea_value := v;
     summaryTypeSelect_value := summaryTypeSelect_value d;
     summaryFormatSelect_value := summaryFormatSelect_value d;
     summaryLengthSelect_value := summaryLengthSelect_value d;
     characterCountSpan_textContent := characterCountSpan_textContent d;
     characterCountSpan_classList := characterCountSpan_classList d;
     characterCountExceededSpan_classList := characterCountExceededSpan_classList d;
     summarizationUnsupportedDialog_display := summarizationUnsupportedDialog_display d;
     summarizationUnavailableDialog_display := summarizationUnavailableDialog_display d;
     output_textContent := output_textContent d |}.

Definition set_summaryTypeSelect_value (v : string) (d : DOM) : DOM :=
  {| inputTextArea_value := inputTextArea_value d;
     summaryTypeSelect_value := v;
     summaryFormatSelect_value := summaryFormatSelect_value d;
     summaryLengthSelect_value := summaryLengthSelect_value d;
     characterCountSpan_textContent := characterCountSpan_textContent d;
     characterCountSpan_classList := characterCountSpan_classList d;
     characterCountExceededSpan_classList := characterCountExceededSpan_classList d;
     summarizationUnsupportedDialog_display := summarizationUnsupportedDialog_display d;
     summarizationUnavailableDialog_display := summarizationUnavailableDialog_display d;
     output_textContent := output_textContent d |}.

Definition set_summaryFormatSelect_value (v : string) (d : DOM) : DOM :=
  {| inputTextArea_value := inputTextArea_value d;
     summaryTypeSelect_value := summaryTypeSelect_value d;
     summaryFormatSelect_value := v;
     summaryLengthSelect_value := summaryLengthSelect_value d;
     characterCountSpan_textContent := characterCountSpan_textContent d;
     characterCountSpan_classList := characterCountSpan_classList d;
     characterCountExceededSpan_classList := characterCountExceededSpan_classList d;
     summarizationUnsupportedDialog_display := summarizationUnsupportedDialog_display d;
     summarizationUnavailableDialog_display := summarizationUnavailableDialog_display d;
     output_textContent := output_textContent d |}.

Definition set_summaryLengthSelect_value (v : string) (d : DOM) : DOM :=
  {| inputTextArea_value := inputTextArea_value d;
     summaryTypeSelect_value := summaryTypeSelect_value d;
     summaryFormatSelect_value := summaryFormatSelect_value d;
     summaryLengthSelect_value := v;
     characterCountSpan_textContent := characterCountSpan_textContent d;
     characterCountSpan_classList := characterCountSpan_classList d;
     characterCountExceededSpan_classList := characterCountExceededSpan_classList d;
     summarizationUnsupportedDialog_display := summarizationUnsupportedDialog_display d;
     summarizationUnavailableDialog_display := summarizationUnavailableDialog_display d;
     output_textContent := output_textContent d |}.

Definition set_characterCountSpan_textContent (v : string) (d : DOM) : DOM :=
  {| inputTextArea_value := inputTextArea_value d;
     summaryTypeSelect_value := summaryTypeSelect_value d;
     summaryFormatSelect_value := summaryFormatSelect_value d;
     summaryLengthSelect_value := summaryLengthSelect_value d;
     characterCountSpan_textContent := v;
     characterCountSpan_classList := characterCountSpan_classList d;
     characterCountExceededSpan_classList := characterCountExceededSpan_classList d;
     summarizationUnsupportedDialog_display := summarizationUnsupportedDialog_display d;
     summarizationUnavailableDialog_display := summarizationUnavailableDialog_display d;
     output_textContent := output_textContent d |}.

Definition upd_characterCountSpan_classList (f : list string -> list string) (d : DOM) : DOM :=
  {| inputTextArea_value := inputTextArea_value d;
     summaryTypeSelect_value := summaryTypeSelect_value d;
     summaryFormatSelect_value := summaryFormatSelect_value d;
     summaryLengthSelect_value := summaryLengthSelect_value d;
     characterCountSpan_textContent := characterCountSpan_textContent d;
     characterCountSpan_classList := f (characterCountSpan_classList d);
     characterCountExceededSpan_classList := characterCountExceededSpan_classList d;
     summarizationUnsupportedDialog_display := summarizationUnsupportedDialog_display d;
     summarizationUnavailableDialog_display := summarizationUnavailableDialog_display d;
     output_textContent := output_textContent d |}.

Definition upd_characterCountExceededSpan_classList (f : list string -> list string) (d : DOM) : DOM :=
  {| inputTextArea_value := inputTextArea_value d;
     summaryTypeSelect_value := summaryTypeSelect_value d;
     summaryFormatSelect_value := summaryFormatSelect_value d;
     summaryLengthSelect_value := summaryLengthSelect_value d;
     characterCountSpan_textContent := characterCountSpan_textContent d;
     characterCountSpan_classList := characterCountSpan_classList d;
     characterCountExceededSpan_classList := f (characterCountExceededSpan_classList d);
     summarizationUnsupportedDialog_display := summarizationUnsupportedDialog_display d;
     summarizationUnavailableDialog_display := summarizationUnavailableDialog_display d;
     output_textContent := output_textContent d |}.

Definition set_summarizationUnsupportedDialog_display (v : string) (d : DOM) : DOM :=
  {| inputTextArea_value := inputTextArea_value d;
     summaryTypeSelect_value := summaryTypeSelect_value d;
     summaryFormatSelect_value := summaryFormatSelect_value d;
     summaryLengthSelect_value := summaryLengthSelect_value d;
     characterCountSpan_textContent := characterCountSpan_textContent d;
     characterCountSpan_classList := characterCountSpan_classList d;
     characterCountExceededSpan_classList := characterCountExceededSpan_classList d;
     summarizationUnsupportedDialog_display := v;
     summarizationUnavailableDialog_display := summarizationUnavailableDialog_display d;
     output_textContent := output_textContent d |}.

Definition set_summarizationUnavailableDialog_display (v : string) (d : DOM) : DOM :=
  {| inputTextArea_value := inputTextArea_value d;
     summaryTypeSelect_value := summaryTypeSelect_value d;
     summaryFormatSelect_value := summaryFormatSelect_value d;
     summaryLengthSelect_value := summaryLengthSelect_value d;
     characterCountSpan_textContent := characterCountSpan_textContent d;
     characterCountSpan_classList := characterCountSpan_classList d;
     characterCountExceededSpan_classList := characterCountExceededSpan_classList d;
     summarizationUnsupportedDialog_display := summarizationUnsupportedDialog_display d;
     summarizationUnavailableDialog_display := v;
     output_textContent := output_textContent d |}.

Definition set_output_textContent (v : string) (d : DOM) : DOM :=
  {| inputTextArea_value := inputTextArea_value d;
     summaryTypeSelect_value := summaryTypeSelect_value d;
     summaryFormatSelect_value := summaryFormatSelect_value d;
     summaryLengthSelect_value := summaryLengthSelect_value d;
     characterCountSpan_textContent := characterCountSpan_textContent d;
     characterCountSpan_classList := characterCountSpan_classList d;
     characterCountExceededSpan_classList := characterCountExceededSpan_classList d;
     summarizationUnsupportedDialog_display := summarizationUnsupportedDialog_display d;
     summarizationUnavailableDialog_display := summarizationUnavailableDialog_display d;
     output_textContent := v |}.

(** *** [classList]: an ordered set of tokens *)

Definition classList_contains (c : string) (l : list string) : bool :=
  existsb (String.eqb c) l.

Definition classList_add (c : string) (l : list string) : list string :=
  if classList_contains c l then l else l ++ [c].

Definition classList_remove (c : string) (l : list string) : list string :=
  filter (fun x => negb (String.eqb c x)) l.

(** *** Timers: [setTimeout] and [clearTimeout] *)

(** Active timers are kept by deadline, and by creation among equal
    deadlines, which is the order the browser runs them in. *)
Fixpoint insert_timer (t : Timer) (l : list Timer) : list Timer :=
  match l with
  | [] => [t]
  | u :: r =>
      if (timer_deadline u <=? timer_deadline t)%N
      then u :: insert_timer t r
      else t :: l
  end.

Definition setTimeout (cb : Callback) (ms : N) (p : Page) : N * Page :=
  let id := next_handle p in
  (id,
   set_next_handle (id + 1)
     (set_timers
        (insert_timer
           {| timer_id := id; timer_deadline := (now p + ms)%N; timer_callback := cb |}
           (timers p))
        p)).

(** [clearTimeout(undefined)] and clearing a timer that has already run
    do nothing. *)
Definition clearTimeout (h : option N) (p : Page) : Page :=
  match h with
  | None => p
  | Some id => set_timers (filter (fun t => negb (timer_id t =? id)%N) (timers p)) p
  end.

(** ** Synchronous code of the script *)

(** Line 11. *)
Definition MAX_MODEL_CHARS : N := 4000.

(** [s.length], a number. *)
Definition js_length (s : string) : N := N.of_nat (String.length s).

(** [n.toFixed()] for a string length: its decimal digits. *)
Definition toFixed (n : N) : string :=
  NilEmpty.string_of_uint (N.to_uint n).

(** [scheduleSummarization], lines 74-89. *)
Definition scheduleSummarization (p : Page) : Page :=
  let p := clearTimeout (timeout p) p in
  let '(id, p) := setTimeout summarizeCallback_fn 1000 p in
  set_timeout (Some id) p.

(** The listener of the text area's [input] event, lines 95-105. *)
Definition inputListener (p : Page) : Page :=
  let p :=
    with_dom (fun d =>
      set_characterCountSpan_textContent
        (toFixed (js_length (inputTextArea_value d))) d) p in
  let p :=
    if (MAX_MODEL_CHARS <? js_length (inputTextArea_value (dom p)))%N
    then
      with_dom (fun d =>
        upd_characterCountExceededSpan_classList (classList_remove "hidden")
          (upd_characterCountSpan_classList (classList_add "tokens-exceeded") d)) p
    else
      with_dom (fun d =>
        upd_characterCountExceededSpan_classList (classList_add "hidden")
          (upd_characterCountSpan_classList (classList_remove "tokens-exceeded") d)) p in
  scheduleSummarization p.

Definition run_handler (h : Handler) : Page -> Page :=
  match h with
  | scheduleSummarization_fn => scheduleSummarization
  | inputListener_fn => inputListener
  end.

Definition Target_eqb (a b : Target) : bool :=
  match a, b with
  | inputTextArea, inputTextArea
  | summaryTypeSelect, summaryTypeSelect
  | summaryFormatSelect, summaryFormatSelect
  | summaryLengthSelect, summaryLengthSelect => true
  | _, _ => false
  end.

Definition EventType_eqb (a b : EventType) : bool :=
  match a, b with
  | input_event, input_event
  | change_event, change_event => true
  | _, _ => false
  end.

(** [target.addEventListener(type, handler)] *)
Definition addEventListener (t : Target) (e : EventType) (h : Handler) (p : Page) : Page :=
  set_listeners
    (listeners p ++ [{| reg_target := t; reg_type := e; reg_handler := h |}]) p.

(** Dispatching an event runs the listeners registered for it, in the
    order of their registration. *)
Definition dispatchEvent (t : Target) (e : EventType) (p : Page) : Page :=
  fold_left
    (fun p r =>
       if Target_eqb (reg_target r) t && EventType_eqb (reg_type r) e
       then run_handler (reg_handler r) p
       else p)
    (listeners p) p.

(** ** Asynchronous functions *)

(** What a host promise settles to. *)
Inductive Settled (A : Type) : Type :=
| Fulfilled (a : A)
| Rejected (e : Exn).
Arguments Fulfilled {A} a.
Arguments Rejected {A} e.

(** An asynchronous function body: synchronous actions on the page,
    separated by [await]s on the three host promises.  A continuation of
    an [await] receives what the promise settled to. *)
Inductive Async (A : Type) : Type :=
| Return (a : A)
| Throw (e : Exn)
| Sync {X : Type} (act : Page -> X * Page) (k : X -> Async A)
| Await_capabilities (k : Settled AISummarizerCapabilities -> Async A)
| Await_create (options : AISummarizerCreateOptions)
    (k : Settled AISummarizer -> Async A)
| Await_summarize (session : AISummarizer) (input : string)
    (k : Settled string -> Async A).
Arguments Return {A} a.
Arguments Throw {A} e.
Arguments Sync {A X} act k.
Arguments Await_capabilities {A} k.
Arguments Await_create {A} options k.
Arguments Await_summarize {A} session input k.

Fixpoint bind {A B : Type} (m : Async A) (f : A -> Async B) : Async B :=
  match m with
  | Return a => f a
  | Throw e => Throw e
  | Sync act k => Sync act (fun x => bind (k x) f)
  | Await_capabilities k => Await_capabilities (fun r => bind (k r) f)
  | Await_create o k => Await_create o (fun r => bind (k r) f)
  | Await_summarize s i k => Await_summarize s i (fun r => bind (k r) f)
  end.

Declare Scope async_scope.
Delimit Scope async_scope with async.
Notation "x <- m ;; k" := (bind m (fun x => k))
  (at level 61, m at next level, right associativity) : async_scope.
Notation "m ;; k" := (bind m (fun _ => k))
  (at level 61, right associativity) : async_scope.
Local Open Scope async_scope.

(** [await p]: the value [p] is fulfilled with, or a throw of the reason
    it is rejected with. *)
Definition awaited {A : Type} (r : Settled A) : Async A :=
  match r with
  | Fulfilled a => Return a
  | Rejected e => Throw e
  end.

(** [await window.ai.summarizer!.capabilities()] *)
Definition await_capabilities : Async AISummarizerCapabilities :=
  Await_capabilities awaited.

(** [await window.ai.summarizer!.create(options)] *)
Definition await_create (o : AISummarizerCreateOptions) : Async AISummarizer :=
  Await_create o awaited.

(** [await session.summarize(input)] *)
Definition await_summarize (s : AISummarizer) (i : string) : Async string :=
  Await_summarize s i awaited.

(** Reading a property, and running a synchronous statement. *)
Definition get {X : Type} (f : Page -> X) : Async X :=
  Sync (fun p => (f p, p)) Return.

Definition exec_sync (f : Page -> Page) : Async unit :=
  Sync (fun p => (tt, f p)) Return.

(** [session.destroy()] *)
Definition destroy (s : AISummarizer) : Async unit :=
  exec_sync (log_call (CallDestroy s)).

(** [createSummarizationSession], lines 34-53. *)
Definition createSummarizationSession
    (type format length : string)
    (downloadProgressListener : option DownloadProgressListener)
    : Async AISummarizer :=
  canSummarize <- await_capabilities ;;
  if is_no (available canSummarize)
  then Throw (Error "AI Summarization is not supported")
  else
    let monitor :=
      match downloadProgressListener with
      | Some l => Some (AddDownloadProgressListener l)
      | None => None
      end in
    summarizationSession <-
      await_create {| co_type := type; co_format := format;
                      co_length := length; co_monitor := monitor |} ;;
    Return summarizationSession.

(** The timer callback from its second await on, lines 85-87. *)
Definition summarizeWith (session : AISummarizer) : Async unit :=
  text <- get (fun p => inputTextArea_value (dom p)) ;;
  summary <- await_summarize session text ;;
  destroy session ;;
  exec_sync (with_dom (set_output_textContent summary)).

(** The timer callback, lines 78-88. *)
Definition summarizeCallback : Async unit :=
  exec_sync (with_dom (set_output_textContent "Generating summary...")) ;;
  type <- get (fun p => summaryTypeSelect_value (dom p)) ;;
  format <- get (fun p => summaryFormatSelect_value (dom p)) ;;
  length <- get (fun p => summaryLengthSelect_value (dom p)) ;;
  session <- createSummarizationSession type format length None ;;
  summarizeWith session.

Definition run_callback (cb : Callback) : Async unit :=
  match cb with
  | summarizeCallback_fn => summarizeCallback
  end.

(** [window.ai !== undefined && window.ai.summarizer !== undefined] *)
Definition summarizer_defined (p : Page) : bool :=
  match window_ai p with
  | Some ai => summarizer ai
  | None => false
  end.

(** [initializeApplication] once the summarizer is known to exist,
    lines 67-105. *)
Definition probeAndWire : Async unit :=
  canSummarize <- await_capabilities ;;
  if is_no (available canSummarize)
  then
    exec_sync (with_dom (set_summarizationUnsupportedDialog_display "block"))
  else
    exec_sync (set_timeout None) ;;
    exec_sync (addEventListener summaryTypeSelect change_event scheduleSummarization_fn) ;;
    exec_sync (addEventListener summaryFormatSelect change_event scheduleSummarization_fn) ;;
    exec_sync (addEventListener summaryLengthSelect change_event scheduleSummarization_fn) ;;
    exec_sync (addEventListener inputTextArea input_event inputListener_fn).

(** [initializeApplication], lines 60-106. *)
Definition initializeApplication : Async unit :=
  summarizationApiAvailable <- get summarizer_defined ;;
  if negb summarizationApiAvailable
  then
    exec_sync (with_dom (set_summarizationUnavailableDialog_display "block"))
  else probeAndWire.

(** ** The event loop *)

(** A world is the page together with the asynchronous functions
    suspended at an [await], each keyed by the promise it waits for, and
    the rejections nothing handled. *)
Record World : Type := {
  page : Page;
  pending : list (N * Async unit);
  next_promise : N;
  unhandled : list Exn
}.

Definition with_page (f : Page -> Page) (w : World) : World :=
  {| page := f (page w); pending := pending w;
     next_promise := next_promise w; unhandled := unhandled w |}.

Definition set_pending (l : list (N * Async unit)) (w : World) : World :=
  {| page := page w; pending := l;
     next_promise := next_promise w; unhandled := unhandled w |}.

(** No [try] or [catch] exists in the script: a throw inside an
    asynchronous function rejects its promise, which nothing handles. *)
Definition reject_unhandled (e : Exn) (w : World) : World :=
  {| page := page w; pending := pending w;
     next_promise := next_promise w; unhandled := unhandled w ++ [e] |}.

(** The host call has been made; the function waits for its promise. *)
Definition suspend (c : HostCall) (m : Async unit) (w : World) : World :=
  {| page := log_call c (page w);
     pending := pending w ++ [(next_promise w, m)];
     next_promise := (next_promise w + 1)%N;
     unhandled := unhandled w |}.

Definition summarizer_undefined : Exn :=
  TypeError "Cannot read properties of undefined".

(** Runs an asynchronous function until it returns, throws or awaits. *)
Fixpoint exec (m : Async unit) (w : World) : World :=
  match m with
  | Return _ => w
  | Throw e => reject_unhandled e w
  | Sync act k =>
      let '(x, p) := act (page w) in
      exec (k x) (with_page (fun _ => p) w)
  | Await_capabilities _ =>
      if summarizer_defined (page w)
      then suspend CallCapabilities m w
      else reject_unhandled summarizer_undefined w
  | Await_create o _ =>
      if summarizer_defined (page w)
      then suspend (CallCreate o) m w
      else reject_unhandled summarizer_undefined w
  | Await_summarize s i _ => suspend (CallSummarize s i) m w
  end.

(** The three selectors the user can change. *)
Inductive Select : Set :=
| type_select
| format_select
| length_select.

(** What the environment can do between two tasks: the user edits the
    text (an [input] event on the text area) or picks an option (a
    [change] event on that selector), time passes, or the host settles a
    promise. *)
Inductive Event : Type :=
| UserInput (text : string)
| UserChange (select : Select) (value : string)
| Elapse (ms : N)
| SettleCapabilities (promise : N) (r : Settled AISummarizerCapabilities)
| SettleCreate (promise : N) (r : Settled AISummarizer)
| SettleSummarize (promise : N) (r : Settled string).

Definition select_target (s : Select) : Target :=
  match s with
  | type_select => summaryTypeSelect
  | format_select => summaryFormatSelect
  | length_select => summaryLengthSelect
  end.

Definition set_select_value (s : Select) (v : string) (d : DOM) : DOM :=
  match s with
  | type_select => set_summaryTypeSelect_value v d
  | format_select => set_summaryFormatSelect_value v d
  | length_select => set_summaryLengthSelect_value v d
  end.

Definition has_timer (id : N) (p : Page) : bool :=
  existsb (fun t => (timer_id t =? id)%N) (timers p).

(** A due timer is removed from the table and its callback runs, unless
    it was cleared in the meantime. *)
Definition fire (t : Timer) (w : World) : World :=
  if has_timer (timer_id t) (page w)
  then
    exec (run_callback (timer_callback t))
      (with_page
         (fun p => set_fired (fired p ++ [timer_id t])
                     (clearTimeout (Some (timer_id t)) p)) w)
  else w.

Definition due (t : N) (x : Timer) : bool := (timer_deadline x <=? t)%N.

Definition elapse (ms : N) (w : World) : World :=
  let w := with_page (fun p => set_now (now p + ms)%N p) w in
  fold_left (fun w t => fire t w) (filter (due (now (page w))) (timers (page w))) w.

Fixpoint take_pending (id : N) (l : list (N * Async unit))
    : option (Async unit * list (N * Async unit)) :=
  match l with
  | [] => None
  | (i, m) :: r =>
      if (i =? id)%N then Some (m, r)
      else
        match take_pending id r with
        | Some (m', r') => Some (m', (i, m) :: r')
        | None => None
        end
  end.

(** One task of the event loop, run to completion. *)
Definition step (ev : Event) (w : World) : World :=
  match ev with
  | UserInput text =>
      with_page
        (fun p => dispatchEvent inputTextArea input_event
                    (with_dom (set_inputTextArea_value text) p)) w
  | UserChange select value =>
      with_page
        (fun p => dispatchEvent (select_target select) change_event
                    (with_dom (set_select_value select value) p)) w
  | Elapse ms => elapse ms w
  | SettleCapabilities id r =>
      match take_pending id (pending w) with
      | Some (Await_capabilities k, rest) => exec (k r) (set_pending rest w)
      | _ => w
      end
  | SettleCreate id r =>
      match take_pending id (pending w) with
      | Some (Await_create _ k, rest) => exec (k r) (set_pending rest w)
      | _ => w
      end
  | SettleSummarize id r =>
      match take_pending id (pending w) with
      | Some (Await_summarize _ _ k, rest) => exec (k r) (set_pending rest w)
      | _ => w
      end
  end.

Definition run (evs : list Event) (w : World) : World :=
  fold_left (fun w ev => step ev w) evs w.

(** The page as the script finds it when it is loaded at time [t0]. *)
Definition initial_page (t0 : N) (ai : option AI) (d : DOM) : Page :=
  {| now := t0; window_ai := ai; dom := d; listeners := []; timeout := None;
     timers := []; next_handle := 1; fired := []; calls := [] |}.

(** Loading the script: line 108 calls [initializeApplication]. *)
Definition boot (t0 : N) (ai : option AI) (d : DOM) : World :=
  exec initializeApplication
    {| page := initial_page t0 ai d; pending := []; next_promise := 0;
       unhandled := [] |}.

(** ** Program points and reachable worlds *)

(** The three places where the timer callback can be suspended: at the
    availability re-check of line 39, at [create] of line 51, and at
    [summarize] of line 85.  Each is the remainder of
    [summarizeCallback] from that await on. *)
Definition at_recheck (type format length : string) : Async unit :=
  session <- createSummarizationSession type format length None ;;
  summarizeWith session.

Definition at_create (type format length : string) : Async unit :=
  session <-
    (summarizationSession <-
       await_create {| co_type := type; co_format := format;
                       co_length := length; co_monitor := None |} ;;
     Return summarizationSession) ;;
  summarizeWith session.

Definition at_summarize (session : AISummarizer) (text : string) : Async unit :=
  summary <- await_summarize session text ;;
  destroy session ;;
  exec_sync (with_dom (set_output_textContent summary)).

Inductive in_flight : Async unit -> Prop :=
| in_flight_recheck t f l : in_flight (at_recheck t f l)
| in_flight_create t f l : in_flight (at_create t f l)
| in_flight_summarize s text : in_flight (at_summarize s text).

(** The registrations of lines 91-95, in order. *)
Definition wired_listeners : list Registration :=
  [ {| reg_target := summaryTypeSelect; reg_type := change_event;
       reg_handler := scheduleSummarization_fn |};
    {| reg_target := summaryFormatSelect; reg_type := change_event;
       reg_handler := scheduleSummarization_fn |};
    {| reg_target := summaryLengthSelect; reg_type := change_event;
       reg_handler := scheduleSummarization_fn |};
    {| reg_target := inputTextArea; reg_type := input_event;
       reg_handler := inputListener_fn |} ].

Definition reachable (w : World) : Prop :=
  exists t0 ai d evs, w = run evs (boot t0 ai d).

(** Initialization went through: the listeners are attached. *)
Definition ready (w : World) : Prop :=
  listeners (page w) = wired_listeners.

(** The user events that schedule a summarization. *)
Inductive Qualifying : Set :=
| TextInput (text : string)
| OptionChange (select : Select) (value : string).

Definition qualifying_event (q : Qualifying) : Event :=
  match q with
  | TextInput text => UserInput text
  | OptionChange s v => UserChange s v
  end.

(** A burst: a first qualifying event, then further ones, each after a
    gap given in ms. *)
Definition burst (first : Qualifying) (rest : list (N * Qualifying)) : list Event :=
  qualifying_event first
    :: flat_map (fun gq => [Elapse (fst gq); qualifying_event (snd gq)]) rest.

(** How often [capabilities()] has been called. *)
Definition capability_queries (l : list HostCall) : nat :=
  List.length (filter (fun c => match c with CallCapabilities => true | _ => false end) l).

(** ** Shapes of pages and worlds *)

(** The timer table holds at most the timer whose handle [timeout]
    stores, and every handle stored has been handed out. *)
Definition timers_ok (p : Page) : Prop :=
  (timers p = [] \/
   exists id dl,
     timers p = [{| timer_id := id; timer_deadline := dl;
                    timer_callback := summarizeCallback_fn |}]
     /\ timeout p = Some id)
  /\ (forall id, timeout p = Some id -> (id < next_handle p)%N).

(** Time passes and no timer is due. *)
Definition tick (ms : N) (w : World) : World :=
  with_page (fun p => set_now (now p + ms)%N p) w.

(** The error of line 41. *)
Definition not_supported : Exn := Error "AI Summarization is not supported".

(** What the [input] listener does to the document, lines 96-103. *)
Definition count_feedback (d : DOM) : DOM :=
  let d := set_characterCountSpan_textContent
             (toFixed (js_length (inputTextArea_value d))) d in
  if (MAX_MODEL_CHARS <? js_length (inputTextArea_value d))%N
  then upd_characterCountExceededSpan_classList (classList_remove "hidden")
         (upd_characterCountSpan_classList (classList_add "tokens-exceeded") d)
  else upd_characterCountExceededSpan_classList (classList_add "hidden")
         (upd_characterCountSpan_classList (classList_remove "tokens-exceeded") d).

(** The document after a qualifying event has been handled. *)
Definition qualifying_dom (q : Qualifying) (d : DOM) : DOM :=
  match q with
  | TextInput text => count_feedback (set_inputTextArea_value text d)
  | OptionChange s v => set_select_value s v d
  end.

(** The page once [scheduleSummarization] has run on it. *)
Definition rescheduled (p : Page) : Page :=
  set_timeout (Some (next_handle p))
    (set_next_handle (next_handle p + 1)
       (set_timers
          [{| timer_id := next_handle p; timer_deadline := (now p + 1000)%N;
              timer_callback := summarizeCallback_fn |}] p)).

(** ** The invariant of reachable worlds *)

(** Initialization stopped at a dialog (or at a rejected probe): nothing
    is attached, scheduled or suspended. *)
Definition halted (w : World) : Prop :=
  pending w = [] /\ listeners (page w) = [] /\ timers (page w) = []
  /\ fired (page w) = [].

(** [initializeApplication] waits for the probe of line 67. *)
Definition probing (w : World) : Prop :=
  (exists id, pending w = [(id, probeAndWire)])
  /\ listeners (page w) = [] /\ timers (page w) = [] /\ fired (page w) = []
  /\ summarizer_defined (page w) = true.

(** A suspended callback is at one of its three awaits, and waits for a
    promise that has been handed out. *)
Definition tracked (np : N) (im : N * Async unit) : Prop :=
  in_flight (snd im) /\ (fst im < np)%N.

(** The listeners are attached. *)
Definition wired (w : World) : Prop :=
  listeners (page w) = wired_listeners
  /\ summarizer_defined (page w) = true
  /\ timers_ok (page w)
  /\ Forall (tracked (next_promise w)) (pending w).

(** Every reachable world is in one of the three phases, and has made
    one availability query for the page load and one per timer run. *)
Definition Inv (w : World) : Prop :=
  (halted w \/ probing w \/ wired w)
  /\ capability_queries (calls (page w)) =
       ((if summarizer_defined (page w) then 1 else 0) + List.length (fired (page w)))%nat.

(** Everything the script owns is the same in both worlds: only the
    clock and what the user typed or selected may differ. *)
Definition frozen (w w' : World) : Prop :=
  pending w' = pending w
  /\ unhandled w' = unhandled w
  /\ listeners (page w') = listeners (page w)
  /\ timers (page w') = timers (page w)
  /\ timeout (page w') = timeout (page w)
  /\ fired (page w') = fired (page w)
  /\ calls (page w') = calls (page w)
  /\ window_ai (page w') = window_ai (page w)
  /\ characterCountSpan_textContent (dom (page w')) =
       characterCountSpan_textContent (dom (page w))
  /\ characterCountSpan_classList (dom (page w')) =
       characterCountSpan_classList (dom (page w))
  /\ characterCountExceededSpan_classList (dom (page w')) =
       characterCountExceededSpan_classList (dom (page w))
  /\ summarizationUnsupportedDialog_display (dom (page w')) =
       summarizationUnsupportedDialog_display (dom (page w))
  /\ summarizationUnavailableDialog_display (dom (page w')) =
       summarizationUnavailableDialog_display (dom (page w))
  /\ output_textContent (dom (page w')) = output_textContent (dom (page w)).

(** How a step changes the two traces of a wired world: a timer ran
    (one more firing, one more availability query), or no timer ran and
    no availability was queried. *)
Definition traces_step (w w' : World) : Prop :=
  (exists id,
     fired (page w') = fired (page w) ++ [id]
     /\ calls (page w') = calls (page w) ++ [CallCapabilities])
  \/ (fired (page w') = fired (page w)
      /\ capability_queries (calls (page w')) = capability_queries (calls (page w))).

(** Closes [traces_step] when neither trace has changed. *)
Ltac same_traces := right; split; reflexivity.

(** Reduces the projections of updated pages and worlds, and nothing else. *)
Ltac world_simpl :=
  cbn [page pending next_promise unhandled now window_ai dom listeners
       timeout timers next_handle fired calls suspend set_pending with_page
       reject_unhandled log_call tick set_fired set_timers set_now
       set_timeout set_next_handle set_listeners with_dom rescheduled
       addEventListener].

(** ** Sample worlds *)

(** A document with the options of the specification's scenario. *)
Definition sample_dom : DOM :=
  {| inputTextArea_value := "";
     summaryTypeSelect_value := "key-points";
     summaryFormatSelect_value := "plain-text";
     summaryLengthSelect_value := "short";
     characterCountSpan_textContent := "0";
     characterCountSpan_classList := [];
     characterCountExceededSpan_classList := ["hidden"];
     summarizationUnsupportedDialog_display := "none";
     summarizationUnavailableDialog_display := "none";
     output_textContent := "" |}.

(** [window.ai.summarizer] is defined. *)
Definition with_summarizer : option AI := Some {| summarizer := true |}.

(** [capabilities()] resolves to [{available: a}]. *)
Definition answer (a : AICapabilityAvailability) : Settled AISummarizerCapabilities :=
  Fulfilled {| available := a |}.

(** The page is loaded and the probe has answered [readily]. *)
Definition sample_ready : World :=
  run [SettleCapabilities 0 (answer readily)] (boot 0 with_summarizer sample_dom).

(** The user has typed, the debounce timer is pending. *)
Definition sample_scheduled : World :=
  run [UserInput "Hello world"] sample_ready.

(** ** Statements: initialization *)

(** [window.ai] is undefined, or its [summarizer] is. *)
Definition capability_undefined (ai : option AI) : Prop :=
  ai = None \/ ai = Some {| summarizer := false |}.

(** The event is the user's or the clock's, not the host's. *)
Definition user_or_time (ev : Event) : bool :=
  match ev with
  | UserInput _ | UserChange _ _ | Elapse _ => true
  | _ => false
  end.

(** The world in which the probe of line 67 has just answered [no],
    whatever the user did while it was outstanding. *)
Definition unsupported_world (t0 : N) (d : DOM) (before : list Event) : World :=
  run (before ++ [SettleCapabilities 0 (answer no)]) (boot t0 with_summarizer d).

(** ** Statements: character count *)

(** The number a string of decimal digits denotes. *)
Definition read_decimal (s : string) : option N :=
  option_map N.of_uint (NilEmpty.uint_of_string s).

(** A text of [n] characters. *)
Definition text_of_length (n : nat) : string :=
  string_of_list_ascii (repeat "a"%char n).

(** ** Statements: an asynchronous function considered alone *)

(** What the host's promises settle to, for a call considered alone. *)
Record HostScript : Type := {
  script_capabilities : Settled AISummarizerCapabilities;
  script_create : AISummarizerCreateOptions -> Settled AISummarizer;
  script_summarize : AISummarizer -> string -> Settled string
}.

(** The promise an asynchronous function returns settles to this, and
    the page is left so, when each host promise it awaits settles as the
    script says. *)
Fixpoint settles {A : Type} (h : HostScript) (m : Async A) (p : Page) : Settled A * Page :=
  match m with
  | Return a => (Fulfilled a, p)
  | Throw e => (Rejected e, p)
  | Sync act k => let '(x, p') := act p in settles h (k x) p'
  | Await_capabilities k =>
      if summarizer_defined p
      then settles h (k (script_capabilities h)) (log_call CallCapabilities p)
      else (Rejected summarizer_undefined, p)
  | Await_create o k =>
      if summarizer_defined p
      then settles h (k (script_create h o)) (log_call (CallCreate o) p)
      else (Rejected summarizer_undefined, p)
  | Await_summarize s i k =>
      settles h (k (script_summarize h s i)) (log_call (CallSummarize s i) p)
  end.

(** [monitor], lines 44-49. *)
Definition monitor_of (l : option DownloadProgressListener) : option AICreateMonitorCallback :=
  match l with
  | Some l => Some (AddDownloadProgressListener l)
  | None => None
  end.

(** A host whose model is there and which answers every call. *)
Definition sample_host : HostScript :=
  {| script_capabilities := answer readily;
     script_create := fun _ => Fulfilled 7%N;
     script_summarize := fun _ _ => Fulfilled "A summary." |}.

(** ** Statements: scenarios and bursts *)

(** The run of the scenario: the page loads at [t0] with document [d],
    the probe answers [readily], the user types, [quiet] ms pass, and the
    host answers the three calls of the callback. *)
Definition hello_world_run (t0 : N) (d : DOM) (quiet : N)
    (session : AISummarizer) (summary : string) : World :=
  run [ SettleCapabilities 0 (answer readily);
        UserInput "Hello world";
        Elapse quiet;
        SettleCapabilities 1 (answer readily);
        SettleCreate 2 (Fulfilled session);
        SettleSummarize 3 (Fulfilled summary) ]
      (boot t0 with_summarizer d).

(** The last event of a burst. *)
Fixpoint last_qualifying (first : Qualifying) (rest : list (N * Qualifying)) : Qualifying :=
  match rest with
  | [] => first
  | (_, q) :: r => last_qualifying q r
  end.

(** No callback has run, started or finished between the two worlds. *)
Definition same_async (w w' : World) : Prop :=
  fired (page w') = fired (page w)
  /\ calls (page w') = calls (page w)
  /\ pending w' = pending w
  /\ next_promise w' = next_promise w
  /\ unhandled w' = unhandled w
  /\ output_textContent (dom (page w')) = output_textContent (dom (page w)).

(** The value a selector shows. *)
Definition select_value (s : Select) (d : DOM) : string :=
  match s with
  | type_select => summaryTypeSelect_value d
  | format_select => summaryFormatSelect_value d
  | length_select => summaryLengthSelect_value d
  end.

(** What a qualifying event leaves in the control it concerns. *)
Definition shows (q : Qualifying) (d : DOM) : Prop :=
  match q with
  | TextInput text => inputTextArea_value d = text
  | OptionChange s v => select_value s d = v
  end.

(** ** Statements: runs in which summarizations overlap, or do not *)

(** The host is slow: the user types again and a second timer runs while
    the first summarization still waits for its summary. *)
Definition overlapping_run : World :=
  run [ UserInput "a"; Elapse 1000;
        SettleCapabilities 1 (answer readily);
        SettleCreate 2 (Fulfilled 7%N);
        UserInput "ab"; Elapse 1000;
        SettleCapabilities 4 (answer readily) ] sample_ready.

(** A lapse of [ms] runs a timer. *)
Definition will_fire (ms : N) (w : World) : bool :=
  existsb (due (now (page w) + ms)%N) (timers (page w)).

(** No asynchronous function is suspended. *)
Definition callback_free (w : World) : bool :=
  match pending w with
  | [] => true
  | _ => false
  end.

(** The event is admissible when a timer runs only while no callback is
    suspended, and [summarize] is not rejected. *)
Definition admissible (ev : Event) (w : World) : bool :=
  match ev with
  | Elapse ms => negb (will_fire ms w) || callback_free w
  | SettleSummarize _ (Rejected _) => false
  | _ => true
  end.

(** Every event of the run is admissible where it happens. *)
Fixpoint orderly (evs : list Event) (w : World) : bool :=
  match evs with
  | [] => true
  | ev :: r => admissible ev w && orderly r (step ev w)
  end.

(** ** The steps of reachable worlds, in closed form *)

(** Lines 73-95: the scheduling closure is set up and the four listeners
    are attached. *)
Definition wire (p : Page) : Page :=
  addEventListener inputTextArea input_event inputListener_fn
    (addEventListener summaryLengthSelect change_event scheduleSummarization_fn
       (addEventListener summaryFormatSelect change_event scheduleSummarization_fn
          (addEventListener summaryTypeSelect change_event scheduleSummarization_fn
             (set_timeout None p)))).

(** The event is the host settling a promise. *)
Definition is_settle (ev : Event) : bool := negb (user_or_time ev).

(** The page after the timer [id] has been taken off the table at the
    end of a lapse of [ms] and its callback has displayed the placeholder. *)
Definition callback_started (ms id : N) (p : Page) : Page :=
  with_dom (set_output_textContent "Generating summary...")
    (set_fired (fired p ++ [id]) (set_timers [] (set_now (now p + ms)%N p))).

(** The callback suspended at the re-check, with the options it has read. *)
Definition recheck_of (p : Page) : Async unit :=
  at_recheck (summaryTypeSelect_value (dom p)) (summaryFormatSelect_value (dom p))
    (summaryLengthSelect_value (dom p)).

(** [{type, format, length}] without a monitor, as line 80 has them. *)
Definition options_of (t f l : string) : AISummarizerCreateOptions :=
  {| co_type := t; co_format := f; co_length := l; co_monitor := None |}.

(** Every step a reachable world can take, with the world it leads to:
    what the code of the script does in each situation it can be in. *)
Inductive transition : Event -> World -> World -> Prop :=
| tr_unwired_input text w :
    listeners (page w) = [] ->
    transition (UserInput text) w
      (with_page (with_dom (set_inputTextArea_value text)) w)
| tr_unwired_change s v w :
    listeners (page w) = [] ->
    transition (UserChange s v) w
      (with_page (with_dom (set_select_value s v)) w)
| tr_qualifying q w :
    wired w ->
    transition (qualifying_event q) w
      (with_page (fun p => rescheduled (with_dom (qualifying_dom q) p)) w)
| tr_tick ms w :
    (forall t, In t (timers (page w)) -> (now (page w) + ms < timer_deadline t)%N) ->
    transition (Elapse ms) w (tick ms w)
| tr_fire ms id dl w :
    wired w ->
    timers (page w) =
      [{| timer_id := id; timer_deadline := dl; timer_callback := summarizeCallback_fn |}] ->
    (dl <= now (page w) + ms)%N ->
    transition (Elapse ms) w
      (suspend CallCapabilities (recheck_of (page w))
         (with_page (callback_started ms id) w))
| tr_stay ev w :
    is_settle ev = true ->
    transition ev w w
| tr_probe_no id c w :
    pending w = [(id, probeAndWire)] -> listeners (page w) = [] ->
    is_no (available c) = true ->
    transition (SettleCapabilities id (Fulfilled c)) w
      (with_page (with_dom (set_summarizationUnsupportedDialog_display "block"))
         (set_pending [] w))
| tr_probe_ok id c w :
    pending w = [(id, probeAndWire)] -> listeners (page w) = [] ->
    is_no (available c) = false ->
    transition (SettleCapabilities id (Fulfilled c)) w
      (with_page wire (set_pending [] w))
| tr_probe_rejected id e w :
    pending w = [(id, probeAndWire)] -> listeners (page w) = [] ->
    transition (SettleCapabilities id (Rejected e)) w
      (reject_unhandled e (set_pending [] w))
| tr_recheck_no id t f l rest c w :
    wired w -> take_pending id (pending w) = Some (at_recheck t f l, rest) ->
    is_no (available c) = true ->
    transition (SettleCapabilities id (Fulfilled c)) w
      (reject_unhandled not_supported (set_pending rest w))
| tr_recheck_ok id t f l rest c w :
    wired w -> take_pending id (pending w) = Some (at_recheck t f l, rest) ->
    is_no (available c) = false ->
    transition (SettleCapabilities id (Fulfilled c)) w
      (suspend (CallCreate (options_of t f l)) (at_create t f l) (set_pending rest w))
| tr_recheck_rejected id t f l rest e w :
    wired w -> take_pending id (pending w) = Some (at_recheck t f l, rest) ->
    transition (SettleCapabilities id (Rejected e)) w
      (reject_unhandled e (set_pending rest w))
| tr_create_ok id t f l rest s w :
    wired w -> take_pending id (pending w) = Some (at_create t f l, rest) ->
    transition (SettleCreate id (Fulfilled s)) w
      (suspend (CallSummarize s (inputTextArea_value (dom (page w))))
         (at_summarize s (inputTextArea_value (dom (page w))))
         (set_pending rest w))
| tr_create_rejected id t f l rest e w :
    wired w -> take_pending id (pending w) = Some (at_create t f l, rest) ->
    transition (SettleCreate id (Rejected e)) w
      (reject_unhandled e (set_pending rest w))
| tr_summarize_ok id s x rest summary w :
    wired w -> take_pending id (pending w) = Some (at_summarize s x, rest) ->
    transition (SettleSummarize id (Fulfilled summary)) w
      (with_page
         (fun p => with_dom (set_output_textContent summary)
                     (log_call (CallDestroy s) p))
         (set_pending rest w))
| tr_summarize_rejected id s x rest e w :
    wired w -> take_pending id (pending w) = Some (at_summarize s x, rest) ->
    transition (SettleSummarize id (Rejected e)) w
      (reject_unhandled e (set_pending rest w)).

(** ** Statements: the trace of host calls *)

Definition is_create (c : HostCall) : bool :=
  match c with CallCreate _ => true | _ => false end.

Definition is_summarize (c : HostCall) : bool :=
  match c with CallSummarize _ _ => true | _ => false end.

Definition is_destroy (c : HostCall) : bool :=
  match c with CallDestroy _ => true | _ => false end.

(** How many calls of a kind the trace holds. *)
Definition count_calls (f : HostCall -> bool) (l : list HostCall) : nat :=
  List.length (filter f l).

(** The promise a suspended function waits for, by the call that made it. *)
Definition awaits_capabilities (m : Async unit) : bool :=
  match m with Await_capabilities _ => true | _ => false end.

Definition awaits_create (m : Async unit) : bool :=
  match m with Await_create _ _ => true | _ => false end.

Definition awaits_summarize (m : Async unit) : bool :=
  match m with Await_summarize _ _ _ => true | _ => false end.

(** How many suspended functions wait for a promise of a kind. *)
Definition awaiting (f : Async unit -> bool) (l : list (N * Async unit)) : nat :=
  List.length (filter (fun im => f (snd im)) l).

(** Every call is accounted for by the step before it: a [create] by a
    timer that ran, a [summarize] by a [create], a [destroy] by a
    [summarize]; a callback still suspended has not yet made the next
    call. *)
Definition accounted (w : World) : Prop :=
  (listeners (page w) = [] /\ fired (page w) = []
   /\ count_calls is_create (calls (page w)) = 0%nat
   /\ count_calls is_summarize (calls (page w)) = 0%nat
   /\ count_calls is_destroy (calls (page w)) = 0%nat)
  \/ (listeners (page w) = wired_listeners
      /\ (count_calls is_create (calls (page w))
          + awaiting awaits_capabilities (pending w)
          <= List.length (fired (page w)))%nat
      /\ (count_calls is_summarize (calls (page w))
          + awaiting awaits_create (pending w)
          <= count_calls is_create (calls (page w)))%nat
      /\ (count_calls is_destroy (calls (page w))
          + awaiting awaits_summarize (pending w)
          <= count_calls is_summarize (calls (page w)))%nat).

(** The call registers no download-progress monitor. *)
Definition unmonitored (c : HostCall) : Prop :=
  match c with
  | CallCreate o => co_monitor o = None
  | _ => True
  end.

(** The reason the host rejects a promise with, if the event is that. *)
Definition rejection_of (ev : Event) : option Exn :=
  match ev with
  | SettleCapabilities _ (Rejected e)
  | SettleCreate _ (Rejected e)
  | SettleSummarize _ (Rejected e) => Some e
  | _ => None
  end.

(** The event makes the script end in the rejection [e]: the host
    rejects a promise with [e], or answers [no] and [e] is the error of
    line 41. *)
Definition causes (ev : Event) (e : Exn) : Prop :=
  rejection_of ev = Some e
  \/ (e = not_supported
      /\ exists id c, ev = SettleCapabilities id (Fulfilled c) /\ available c = no).

(** The two dialogs are displayed as in the document [d]. *)
Definition dialogs_as (d : DOM) (w : World) : Prop :=
  summarizationUnsupportedDialog_display (dom (page w)) =
    summarizationUnsupportedDialog_display d
  /\ summarizationUnavailableDialog_display (dom (page w)) =
       summarizationUnavailableDialog_display d.

(** Initialization has stopped, or the dialogs are as they were. *)
Definition dialogs_kept (d : DOM) (w : World) : Prop :=
  (pending w = [] /\ listeners (page w) = []) \/ dialogs_as d w.

(** ** Statements: the sessions alive in a run *)

(** The events of [overlapping_run], from [sample_ready]. *)
Definition overlapping_events : list Event :=
  [ UserInput "a"; Elapse 1000;
    SettleCapabilities 1 (answer readily);
    SettleCreate 2 (Fulfilled 7%N);
    UserInput "ab"; Elapse 1000;
    SettleCapabilities 4 (answer readily) ].

(** The sessions of a run: whether [create] has been called and its
    promise is still outstanding, and the sessions the host has handed
    out that have not been destroyed since. *)
Record Sessions : Set := {
  being_created : bool;
  alive : list AISummarizer
}.

Definition no_sessions : Sessions := {| being_created := false; alive := [] |}.

(** The promise [id] is the one of a [create] call a callback waits for. *)
Definition resumes_create (id : N) (w : World) : bool :=
  match take_pending id (pending w) with
  | Some (m, _) => awaits_create m
  | None => false
  end.

(** The host settles the [create] promise: a session comes to exist, or
    none does.  [None] when it comes to exist while another is alive. *)
Definition handed_out (r : Settled AISummarizer) (a : Sessions) : option Sessions :=
  match r with
  | Fulfilled s =>
      match alive a with
      | [] => Some {| being_created := false; alive := [s] |}
      | _ => None
      end
  | Rejected _ => Some {| being_created := false; alive := alive a |}
  end.

(** The script calls the host.  [None] when [create] is called while a
    session is alive or is being created, or [summarize] on a session that
    is not alive. *)
Definition called (c : HostCall) (a : Sessions) : option Sessions :=
  match c with
  | CallCapabilities => Some a
  | CallCreate _ =>
      if being_created a then None
      else
        match alive a with
        | [] => Some {| being_created := true; alive := [] |}
        | _ => None
        end
  | CallSummarize s _ =>
      if existsb (N.eqb s) (alive a) then Some a else None
  | CallDestroy s =>
      Some {| being_created := being_created a;
              alive := filter (fun x => negb (x =? s)%N) (alive a) |}
  end.

(** The calls made between two worlds of a run. *)
Definition new_calls (w w' : World) : list HostCall :=
  skipn (List.length (calls (page w))) (calls (page w')).

(** The sessions after one event: first what the host hands out, then
    the calls the script makes in that step. *)
Definition sessions_step (ev : Event) (w : World) (a : option Sessions) : option Sessions :=
  match a with
  | None => None
  | Some a =>
      fold_left
        (fun acc c => match acc with Some a => called c a | None => None end)
        (new_calls w (step ev w))
        (match ev with
         | SettleCreate id r => if resumes_create id w then handed_out r a else Some a
         | _ => Some a
         end)
  end.

(** The sessions after a run from [w]. *)
Fixpoint sessions_run (evs : list Event) (w : World) (a : option Sessions)
    : option Sessions :=
  match evs with
  | [] => a
  | ev :: r => sessions_run r (step ev w) (sessions_step ev w a)
  end.

(** Throughout the run, every session had been destroyed when the next
    one was asked for and when the next one came to exist. *)
Definition one_session_at_a_time (evs : list Event) (w : World) : bool :=
  match sessions_run evs w (Some no_sessions) with
  | Some _ => true
  | None => false
  end.

(** At most one callback is suspended, and the sessions are those it
    holds: none before [create], one being created while it waits for
    [create], the one it summarizes with while it waits for [summarize]. *)
Definition in_step (w : World) (a : option Sessions) : Prop :=
  (pending w = [] /\ a = Some no_sessions)
  \/ (exists id m,
        pending w = [(id, m)]
        /\ ((awaits_capabilities m = true /\ a = Some no_sessions)
            \/ (awaits_create m = true
                /\ a = Some {| being_created := true; alive := [] |})
            \/ (exists s x, m = at_summarize s x
                            /\ a = Some {| being_created := false; alive := [s] |}))).

(** Reduces the projections of the worlds the transitions lead to. *)
Ltac step_simpl := unfold callback_started, wire; world_simpl.

(** ** Statements: the answer to the probe *)

(** The world in which the probe of line 67 has just been settled with
    [r], whatever the user did while it was outstanding. *)
Definition probed_world (t0 : N) (d : DOM) (before : list Event)
    (r : Settled AISummarizerCapabilities) : World :=
  run (before ++ [SettleCapabilities 0 r]) (boot t0 with_summarizer d).

(** What the script displays is as in the document [d]: the counter and
    its marks, the two dialogs and the output. *)
Definition displays_as (d : DOM) (w : World) : Prop :=
  characterCountSpan_textContent (dom (page w)) = characterCountSpan_textContent d
  /\ characterCountSpan_classList (dom (page w)) = characterCountSpan_classList d
  /\ characterCountExceededSpan_classList (dom (page w)) =
       characterCountExceededSpan_classList d
  /\ summarizationUnsupportedDialog_display (dom (page w)) =
       summarizationUnsupportedDialog_display d
  /\ summarizationUnavailableDialog_display (dom (page w)) =
       summarizationUnavailableDialog_display d
  /\ output_textContent (dom (page w)) = output_textContent d.

(** ** Statements: one summarization, step by step *)

(** The events of a list of qualifying events, with no time between. *)
Definition typing (qs : list Qualifying) : list Event := map qualifying_event qs.

(** A timer of [w] runs after [ms]; the user goes on typing and choosing
    ([qs1]); the re-check resolves to [c]; the user goes on ([qs2]): the
    world in which [create] is about to be settled. *)
Definition creating_world (w : World) (ms : N) (qs1 : list Qualifying)
    (c : AISummarizerCapabilities) (qs2 : list Qualifying) : World :=
  run (typing qs2)
    (step (SettleCapabilities (next_promise w) (Fulfilled c))
       (run (typing qs1) (step (Elapse ms) w))).

(** ... and [create] resolves to the session [s]: the world in which
    [summarize] is about to be settled. *)
Definition summarizing_world (w : World) (ms : N) (qs1 : list Qualifying)
    (c : AISummarizerCapabilities) (qs2 : list Qualifying) (s : AISummarizer) : World :=
  step (SettleCreate (next_promise w + 1) (Fulfilled s)) (creating_world w ms qs1 c qs2).

(** ** Statements: two summarizations at once *)

(** Both hosts' summaries have arrived, first the one of promise [i],
    then the one of promise [j]. *)
Definition both_settled (w : World) (i : N) (a : string) (j : N) (b : string) : World :=
  run [SettleSummarize i (Fulfilled a); SettleSummarize j (Fulfilled b)] w.

(** A slow host: two callbacks wait for their summaries at once. *)
Definition two_summarizing : World :=
  run [SettleCreate 5 (Fulfilled 8%N)] overlapping_run.

(** ** Statements: what a run can lead to *)

(** How many events of the run are the user's typing or choosing. *)
Definition user_events (evs : list Event) : nat :=
  List.length
    (filter (fun ev => match ev with UserInput _ | UserChange _ _ => true | _ => false end)
       evs).

(** The host fulfils a [summarize] promise with [summary] in the run. *)
Definition summary_of (evs : list Event) (summary : string) : Prop :=
  exists id, In (SettleSummarize id (Fulfilled summary)) evs.

(** Closes a goal in which a wired page is assumed to have no listener. *)
Ltac wired_not_unwired :=
  match goal with
  | W : wired ?w, L : listeners (page ?w) = [] |- _ =>
      destruct W as (W & _); rewrite W in L; discriminate L
  end.

(** * Proofs *)

(** ** Closed forms of the steps *)

Lemma scheduleSummarization_closed (p : Page) :
  timers_ok p ->
  scheduleSummarization p =
    set_timeout (Some (next_handle p))
      (set_next_handle (next_handle p + 1)
         (set_timers
            [{| timer_id := next_handle p; timer_deadline := (now p + 1000)%N;
                timer_callback := summarizeCallback_fn |}] p)).
Proof.
  intros [[E | (id & dl & E & T)] _]; unfold scheduleSummarization.
  - destruct (timeout p); cbn; rewrite E; reflexivity.
  - rewrite T. cbn. rewrite E. cbn. rewrite N.eqb_refl. reflexivity.
Qed.

Lemma dispatch_input_wired (p : Page) :
  listeners p = wired_listeners ->
  dispatchEvent inputTextArea input_event p = inputListener p.
Proof. intros E. unfold dispatchEvent. rewrite E. reflexivity. Qed.

Lemma dispatch_change_wired (s : Select) (p : Page) :
  listeners p = wired_listeners ->
  dispatchEvent (select_target s) change_event p = scheduleSummarization p.
Proof. intros E. unfold dispatchEvent. rewrite E. destruct s; reflexivity. Qed.

Lemma dispatch_unwired (t : Target) (e : EventType) (p : Page) :
  listeners p = [] -> dispatchEvent t e p = p.
Proof. intros E. unfold dispatchEvent. rewrite E. reflexivity. Qed.

Lemma elapse_no_timer (ms : N) (w : World) :
  timers (page w) = [] -> elapse ms w = tick ms w.
Proof. intros E. unfold elapse. cbn. rewrite E. reflexivity. Qed.

Lemma elapse_early (ms : N) (w : World) (t : Timer) :
  timers (page w) = [t] ->
  (now (page w) + ms < timer_deadline t)%N ->
  elapse ms w = tick ms w.
Proof.
  intros E H. unfold elapse. cbn. rewrite E. cbn. unfold due.
  destruct (N.leb_spec (timer_deadline t) (now (page w) + ms)); [lia | reflexivity].
Qed.

Lemma exec_summarizeCallback (w : World) :
  summarizer_defined (page w) = true ->
  exec summarizeCallback w =
    suspend CallCapabilities
      (at_recheck (summaryTypeSelect_value (dom (page w)))
                  (summaryFormatSelect_value (dom (page w)))
                  (summaryLengthSelect_value (dom (page w))))
      (with_page (with_dom (set_output_textContent "Generating summary...")) w).
Proof.
  intros H. unfold summarizeCallback. cbn.
  unfold summarizer_defined in *. cbn. rewrite H. reflexivity.
Qed.

Lemma elapse_due (ms : N) (w : World) (id dl : N) :
  timers (page w) =
    [{| timer_id := id; timer_deadline := dl; timer_callback := summarizeCallback_fn |}] ->
  (dl <= now (page w) + ms)%N ->
  summarizer_defined (page w) = true ->
  elapse ms w =
    suspend CallCapabilities
      (at_recheck (summaryTypeSelect_value (dom (page w)))
                  (summaryFormatSelect_value (dom (page w)))
                  (summaryLengthSelect_value (dom (page w))))
      (with_page
         (fun p => with_dom (set_output_textContent "Generating summary...")
                     (set_fired (fired p ++ [id])
                        (set_timers [] (set_now (now p + ms)%N p)))) w).
Proof.
  intros E H S. unfold elapse, tick.
  cbn [page with_page timers set_now now]. rewrite E.
  cbn [filter]. unfold due. cbn [timer_deadline].
  destruct (N.leb_spec dl (now (page w) + ms)); [| lia].
  cbn [fold_left]. unfold fire, has_timer.
  cbn [page with_page timers set_now timer_id existsb timer_callback run_callback].
  rewrite E. cbn [existsb timer_id]. rewrite N.eqb_refl. cbn [orb].
  rewrite exec_summarizeCallback by (cbn; exact S).
  unfold suspend, with_page, clearTimeout. cbn. rewrite E. cbn.
  rewrite N.eqb_refl. reflexivity.
Qed.

Lemma take_pending_Forall (P : N * Async unit -> Prop) (id : N)
    (l : list (N * Async unit)) (m : Async unit) (rest : list (N * Async unit)) :
  take_pending id l = Some (m, rest) ->
  Forall P l -> P (id, m) /\ Forall P rest.
Proof.
  revert rest. induction l as [| [i x] l IH]; intros rest T F; [discriminate |].
  cbn in T. inversion F as [| ? ? Px Fl]; subst.
  destruct (N.eqb_spec i id) as [-> | Hne].
  - inversion T; subst. split; assumption.
  - destruct (take_pending id l) as [[m' r'] |]; [| discriminate].
    inversion T; subst. destruct (IH r' eq_refl Fl) as [Pm Fr].
    split; [assumption | constructor; assumption].
Qed.

Lemma settle_recheck (w : World) (id : N) (t f l : string)
    (rest : list (N * Async unit)) (r : Settled AISummarizerCapabilities) :
  take_pending id (pending w) = Some (at_recheck t f l, rest) ->
  summarizer_defined (page w) = true ->
  step (SettleCapabilities id r) w =
    match r with
    | Fulfilled c =>
        if is_no (available c)
        then reject_unhandled not_supported (set_pending rest w)
        else suspend
               (CallCreate {| co_type := t; co_format := f; co_length := l;
                              co_monitor := None |})
               (at_create t f l) (set_pending rest w)
    | Rejected e => reject_unhandled e (set_pending rest w)
    end.
Proof.
  intros T S. cbn. rewrite T. cbn.
  destruct r as [c | e]; cbn; [| reflexivity].
  destruct (is_no (available c)); cbn; [reflexivity |].
  unfold summarizer_defined in *. cbn. rewrite S. reflexivity.
Qed.

Lemma settle_create (w : World) (id : N) (t f l : string)
    (rest : list (N * Async unit)) (r : Settled AISummarizer) :
  take_pending id (pending w) = Some (at_create t f l, rest) ->
  step (SettleCreate id r) w =
    match r with
    | Fulfilled s =>
        suspend (CallSummarize s (inputTextArea_value (dom (page w))))
          (at_summarize s (inputTextArea_value (dom (page w))))
          (set_pending rest w)
    | Rejected e => reject_unhandled e (set_pending rest w)
    end.
Proof.
  intros T. cbn. rewrite T. cbn.
  destruct r as [s | e]; reflexivity.
Qed.

Lemma settle_summarize (w : World) (id : N) (s : AISummarizer) (text : string)
    (rest : list (N * Async unit)) (r : Settled string) :
  take_pending id (pending w) = Some (at_summarize s text, rest) ->
  step (SettleSummarize id r) w =
    match r with
    | Fulfilled summary =>
        with_page
          (fun p => with_dom (set_output_textContent summary)
                      (log_call (CallDestroy s) p))
          (set_pending rest w)
    | Rejected e => reject_unhandled e (set_pending rest w)
    end.
Proof.
  intros T. cbn. rewrite T. cbn.
  destruct r as [summary | e]; reflexivity.
Qed.

(** A promise settles only the function that awaits it: settling with
    an answer of another kind, or an unknown promise, changes nothing. *)
Lemma settle_mismatch (w : World) (ev : Event) :
  match ev with
  | SettleCapabilities id _ =>
      forall m rest, take_pending id (pending w) = Some (m, rest) ->
        (exists t f l, m = at_create t f l) \/ (exists s x, m = at_summarize s x)
  | SettleCreate id _ =>
      forall m rest, take_pending id (pending w) = Some (m, rest) ->
        m = probeAndWire \/ (exists t f l, m = at_recheck t f l)
        \/ (exists s x, m = at_summarize s x)
  | SettleSummarize id _ =>
      forall m rest, take_pending id (pending w) = Some (m, rest) ->
        m = probeAndWire \/ (exists t f l, m = at_recheck t f l)
        \/ (exists t f l, m = at_create t f l)
  | _ => False
  end ->
  step ev w = w.
Proof.
  destruct ev as [| | | id r | id r | id r]; try contradiction; intros H; cbn;
    destruct (take_pending id (pending w)) as [[m rest] |]; try reflexivity;
    specialize (H m rest eq_refl);
    repeat match goal with
           | H : _ \/ _ |- _ => destruct H
           | H : exists _, _ |- _ => destruct H
           end; subst; reflexivity.
Qed.

Lemma inputListener_closed (p : Page) :
  inputListener p = scheduleSummarization (with_dom count_feedback p).
Proof.
  unfold inputListener, count_feedback, with_dom. cbn.
  destruct (MAX_MODEL_CHARS <? js_length (inputTextArea_value (dom p)))%N;
    reflexivity.
Qed.

Lemma qualifying_step (q : Qualifying) (w : World) :
  listeners (page w) = wired_listeners ->
  timers_ok (page w) ->
  step (qualifying_event q) w =
    with_page (fun p => rescheduled (with_dom (qualifying_dom q) p)) w.
Proof.
  intros L T. destruct q as [text | s v]; cbn [qualifying_event step].
  - unfold with_page. f_equal.
    rewrite dispatch_input_wired by exact L.
    rewrite inputListener_closed.
    rewrite scheduleSummarization_closed by exact T. reflexivity.
  - unfold with_page. f_equal.
    rewrite dispatch_change_wired by exact L.
    rewrite scheduleSummarization_closed by exact T. reflexivity.
Qed.

(** ** The invariant holds at load and is preserved *)

Lemma capability_queries_app (l : list HostCall) (c : HostCall) :
  capability_queries (l ++ [c]) =
    (capability_queries l + match c with CallCapabilities => 1 | _ => 0 end)%nat.
Proof.
  unfold capability_queries. rewrite filter_app, length_app.
  destruct c; reflexivity.
Qed.

Lemma Inv_boot (t0 : N) (ai : option AI) (d : DOM) : Inv (boot t0 ai d).
Proof.
  unfold boot, initializeApplication. cbn.
  destruct ai as [[[|]] |]; cbn.
  - split; [right; left | reflexivity].
    repeat split; try reflexivity. exists 0%N. reflexivity.
  - split; [left | reflexivity]. repeat split; reflexivity.
  - split; [left | reflexivity]. repeat split; reflexivity.
Qed.

(** In a halted or probing world a user event or a lapse of time reaches
    no code of the script. *)
Lemma step_unwired_user (ev : Event) (w : World) :
  listeners (page w) = [] -> timers (page w) = [] ->
  match ev with
  | UserInput text => step ev w = with_page (with_dom (set_inputTextArea_value text)) w
  | UserChange s v => step ev w = with_page (with_dom (set_select_value s v)) w
  | Elapse ms => step ev w = tick ms w
  | _ => True
  end.
Proof.
  intros L T. destruct ev; cbn [step]; trivial.
  - unfold with_page. f_equal. apply dispatch_unwired. exact L.
  - unfold with_page. f_equal. apply dispatch_unwired. exact L.
  - apply elapse_no_timer. exact T.
Qed.

Lemma frozen_refl (w : World) : frozen w w.
Proof. repeat split. Qed.

Lemma frozen_trans (a b c : World) : frozen a b -> frozen b c -> frozen a c.
Proof.
  unfold frozen. intros H1 H2.
  repeat match goal with H : _ /\ _ |- _ => destruct H end.
  repeat split; etransitivity; eassumption.
Qed.

Lemma halted_step (ev : Event) (w : World) :
  halted w -> halted (step ev w) /\ frozen w (step ev w).
Proof.
  intros (P & L & T & F).
  pose proof (step_unwired_user ev w L T) as U.
  destruct ev as [text | s v | ms | id r | id r | id r].
  - rewrite U. split; [repeat split; assumption | repeat split].
  - rewrite U. split; [repeat split; try assumption | repeat split];
      destruct s; assumption || reflexivity.
  - rewrite U. split; [repeat split; assumption | repeat split].
  - cbn. rewrite P. cbn. split; [repeat split; assumption | apply frozen_refl].
  - cbn. rewrite P. cbn. split; [repeat split; assumption | apply frozen_refl].
  - cbn. rewrite P. cbn. split; [repeat split; assumption | apply frozen_refl].
Qed.

Lemma halted_run (evs : list Event) (w : World) :
  halted w -> halted (run evs w) /\ frozen w (run evs w).
Proof.
  revert w. induction evs as [| ev evs IH]; intros w H; cbn.
  - split; [exact H | apply frozen_refl].
  - destruct (halted_step ev w H) as [H1 F1].
    destruct (IH _ H1) as [H2 F2].
    split; [exact H2 | exact (frozen_trans _ _ _ F1 F2)].
Qed.

Lemma frozen_counts (w w' : World) :
  frozen w w' ->
  capability_queries (calls (page w)) =
    ((if summarizer_defined (page w) then 1 else 0) + List.length (fired (page w)))%nat ->
  capability_queries (calls (page w')) =
    ((if summarizer_defined (page w') then 1 else 0) + List.length (fired (page w')))%nat.
Proof.
  unfold frozen, summarizer_defined. intros F H.
  repeat match goal with H : _ /\ _ |- _ => destruct H end.
  repeat match goal with H : _ (page w') = _ |- _ => rewrite H end.
  exact H.
Qed.

Lemma wired_intro (w : World) :
  listeners (page w) = wired_listeners ->
  summarizer_defined (page w) = true ->
  timers_ok (page w) ->
  Forall (tracked (next_promise w)) (pending w) ->
  wired w.
Proof. intros; repeat (split; [assumption |]); assumption. Qed.

Lemma tracked_suspended (np : N) (l : list (N * Async unit)) (m : Async unit) :
  Forall (tracked np) l -> in_flight m ->
  Forall (tracked (np + 1)) (l ++ [(np, m)]).
Proof.
  intros F M. apply Forall_app. split.
  - revert F. apply Forall_impl. intros im [I L]. split; [exact I | lia].
  - constructor; [| constructor]. split; [exact M | cbn; lia].
Qed.

Lemma halted_intro (w : World) :
  pending w = [] -> listeners (page w) = [] -> timers (page w) = [] ->
  fired (page w) = [] -> halted w.
Proof. intros; repeat (split; [assumption |]); assumption. Qed.

Lemma probing_intro (w : World) (id : N) :
  pending w = [(id, probeAndWire)] -> listeners (page w) = [] ->
  timers (page w) = [] -> fired (page w) = [] ->
  summarizer_defined (page w) = true -> probing w.
Proof.
  intros P L T F S. split; [exists id; exact P |].
  repeat (split; [assumption |]); assumption.
Qed.

Lemma probing_step (ev : Event) (w : World) :
  probing w ->
  (probing (step ev w) /\ frozen w (step ev w))
  \/ (halted (step ev w) /\ calls (page (step ev w)) = calls (page w)
      /\ window_ai (page (step ev w)) = window_ai (page w))
  \/ (wired (step ev w) /\ pending (step ev w) = []
      /\ timers (page (step ev w)) = []
      /\ fired (page (step ev w)) = []
      /\ calls (page (step ev w)) = calls (page w)
      /\ window_ai (page (step ev w)) = window_ai (page w)).
Proof.
  intros ([id P] & L & T & F & S).
  pose proof (step_unwired_user ev w L T) as U.
  destruct ev as [text | s v | ms | id' r | id' r | id' r].
  - left. rewrite U. split; [| repeat split].
    apply (probing_intro _ id); assumption.
  - left. rewrite U. split; [| repeat split; destruct s; reflexivity].
    apply (probing_intro _ id); assumption.
  - left. rewrite U. split; [| repeat split].
    apply (probing_intro _ id); assumption.
  - cbn. rewrite P. cbn. destruct (id =? id')%N.
    + destruct r as [c | e]; cbn.
      * destruct (is_no (available c)); cbn.
        -- right; left. split; [apply halted_intro; cbn; assumption || reflexivity |].
           split; reflexivity.
        -- right; right. split.
           ++ apply wired_intro; cbn.
              ** rewrite L. reflexivity.
              ** exact S.
              ** split; [left; exact T | discriminate].
              ** constructor.
           ++ repeat (split; [assumption || reflexivity |]). reflexivity.
      * right; left. split; [apply halted_intro; cbn; assumption || reflexivity |].
        split; reflexivity.
    + left. split; [| apply frozen_refl].
      apply (probing_intro _ id); assumption.
  - cbn. rewrite P. cbn. destruct (id =? id')%N; cbn;
      (left; split; [| apply frozen_refl]);
      apply (probing_intro _ id); assumption.
  - cbn. rewrite P. cbn. destruct (id =? id')%N; cbn;
      (left; split; [| apply frozen_refl]);
      apply (probing_intro _ id); assumption.
Qed.

Lemma wired_step (ev : Event) (w : World) :
  wired w -> wired (step ev w) /\ traces_step w (step ev w).
Proof.
  intros (L & S & T & P).
  assert (W : wired w) by (apply wired_intro; assumption).
  destruct ev as [text | s v | ms | id r | id r | id r].
  - change (UserInput text) with (qualifying_event (TextInput text)).
    rewrite qualifying_step by assumption.
    split; [| same_traces].
    apply wired_intro; cbn; try assumption.
    split; [right; eexists _, _; split; reflexivity |].
    cbn. intros id E. inversion E; subst. lia.
  - change (UserChange s v) with (qualifying_event (OptionChange s v)).
    rewrite qualifying_step by assumption.
    split; [| same_traces].
    apply wired_intro; cbn; try assumption.
    split; [right; eexists _, _; split; reflexivity |].
    cbn. intros id E. inversion E; subst. lia.
  - cbn [step]. destruct T as [[E | (id & dl & E & TO)] Fresh].
    + rewrite elapse_no_timer by exact E.
      split; [| same_traces].
      apply wired_intro; cbn; try assumption.
      split; [left; exact E | exact Fresh].
    + destruct (N.le_gt_cases dl (now (page w) + ms)) as [Due | Early].
      * rewrite (elapse_due ms w id dl E Due S).
        split; [| left; exists id; split; reflexivity].
        apply wired_intro; cbn; try assumption.
        -- split; [left; reflexivity | exact Fresh].
        -- apply tracked_suspended; [exact P | apply in_flight_recheck].
      * rewrite (elapse_early ms w _ E) by exact Early.
        split; [| same_traces].
        apply wired_intro; cbn; try assumption.
        split; [right; exists id, dl; split; assumption | exact Fresh].
  - destruct (take_pending id (pending w)) as [[m rest] |] eqn:TP.
    2:{ cbn. rewrite TP. split; [exact W | same_traces]. }
    destruct (take_pending_Forall _ _ _ _ _ TP P) as [[Hm _] Hrest]. cbn in Hm.
    destruct Hm as [t f l | t f l | s x].
    + rewrite (settle_recheck w id t f l rest r TP S).
      destruct r as [c | e]; [destruct (is_no (available c)) |].
      * split; [apply wired_intro; assumption | same_traces].
      * split.
        -- apply wired_intro; cbn; try assumption.
           apply tracked_suspended; [exact Hrest | apply in_flight_create].
        -- right. world_simpl. split; [reflexivity |].
           rewrite capability_queries_app. lia.
      * split; [apply wired_intro; assumption | same_traces].
    + cbn. rewrite TP. cbn. split; [exact W | same_traces].
    + cbn. rewrite TP. cbn. split; [exact W | same_traces].
  - destruct (take_pending id (pending w)) as [[m rest] |] eqn:TP.
    2:{ cbn. rewrite TP. split; [exact W | same_traces]. }
    destruct (take_pending_Forall _ _ _ _ _ TP P) as [[Hm _] Hrest]. cbn in Hm.
    destruct Hm as [t f l | t f l | s x].
    + cbn. rewrite TP. cbn. split; [exact W | same_traces].
    + rewrite (settle_create w id t f l rest r TP).
      destruct r as [s | e].
      * split.
        -- apply wired_intro; cbn; try assumption.
           apply tracked_suspended; [exact Hrest | apply in_flight_summarize].
        -- right. world_simpl. split; [reflexivity |].
           rewrite capability_queries_app. lia.
      * split; [apply wired_intro; assumption | same_traces].
    + cbn. rewrite TP. cbn. split; [exact W | same_traces].
  - destruct (take_pending id (pending w)) as [[m rest] |] eqn:TP.
    2:{ cbn. rewrite TP. split; [exact W | same_traces]. }
    destruct (take_pending_Forall _ _ _ _ _ TP P) as [[Hm _] Hrest]. cbn in Hm.
    destruct Hm as [t f l | t f l | s x].
    + cbn. rewrite TP. cbn. split; [exact W | same_traces].
    + cbn. rewrite TP. cbn. split; [exact W | same_traces].
    + rewrite (settle_summarize w id s x rest r TP).
      destruct r as [summary | e].
      * split; [apply wired_intro; assumption |].
        right. world_simpl. split; [reflexivity |].
        rewrite capability_queries_app. lia.
      * split; [apply wired_intro; assumption | same_traces].
Qed.

Lemma Inv_step (ev : Event) (w : World) : Inv w -> Inv (step ev w).
Proof.
  intros [[H | [H | H]] C].
  - destruct (halted_step ev w H) as [H' F].
    split; [left; exact H' | exact (frozen_counts _ _ F C)].
  - pose proof H as (_ & _ & _ & Fd & S).
    rewrite S, Fd in C. cbn in C.
    destruct (probing_step ev w H) as [[H' F] | [(H' & Cs & A) | (H' & _ & _ & F' & Cs & A)]].
    + split; [right; left; exact H' |].
      apply (frozen_counts _ _ F). rewrite S, Fd. exact C.
    + split; [left; exact H' |].
      destruct H' as (_ & _ & _ & F').
      unfold summarizer_defined in *. rewrite Cs, A, S, F'. exact C.
    + split; [right; right; exact H' |].
      unfold summarizer_defined in *. rewrite Cs, A, S, F'. exact C.
  - destruct (wired_step ev w H) as [H' Tr].
    split; [right; right; exact H' |].
    destruct H as (_ & S & _). destruct H' as (_ & S' & _).
    rewrite S in C. rewrite S'.
    destruct Tr as [(id & Fd & Cs) | (Fd & Cs)].
    + rewrite Fd, Cs, capability_queries_app, length_app, C. cbn. lia.
    + rewrite Fd, Cs. exact C.
Qed.

Lemma Inv_run (evs : list Event) (w : World) : Inv w -> Inv (run evs w).
Proof.
  revert w. induction evs as [| ev evs IH]; intros w H; cbn; [exact H |].
  apply IH, Inv_step, H.
Qed.

Lemma reachable_Inv (w : World) : reachable w -> Inv w.
Proof.
  intros (t0 & ai & d & evs & ->). apply Inv_run, Inv_boot.
Qed.

Lemma run_app (a b : list Event) (w : World) :
  run (a ++ b) w = run b (run a w).
Proof. apply fold_left_app. Qed.

(** A reachable world whose listeners are attached is wired. *)
Lemma ready_wired (w : World) : reachable w -> ready w -> wired w.
Proof.
  intros R L. destruct (reachable_Inv w R) as [[H | [H | H]] _].
  - destruct H as (_ & L' & _). unfold ready in L. rewrite L' in L. discriminate.
  - destruct H as (_ & L' & _). unfold ready in L. rewrite L' in L. discriminate.
  - exact H.
Qed.

(** ** The sample worlds are reachable *)

Lemma sample_ready_reachable : reachable sample_ready.
Proof.
  exists 0%N, with_summarizer, sample_dom, [SettleCapabilities 0 (answer readily)].
  reflexivity.
Defined.

Lemma sample_scheduled_reachable : reachable sample_scheduled.
Proof.
  exists 0%N, with_summarizer, sample_dom,
    [SettleCapabilities 0 (answer readily); UserInput "Hello world"].
  reflexivity.
Defined.

(** ** C8: one debounce timer *)

(** C8. In every reachable world at most one debounce timer is pending,
    and it is the one whose handle [timeout] stores.  Once the listeners
    are attached, a call of [scheduleSummarization] leaves exactly the
    timer it has just created, due 1000 ms later, with its handle stored
    in [timeout]; the handle stored before is no longer active. *)
Theorem at_most_one_pending_timer (w : World) :
  reachable w ->
  (List.length (timers (page w)) <= 1)%nat
  /\ (forall t, In t (timers (page w)) -> timeout (page w) = Some (timer_id t))
  /\ (ready w ->
      timers (scheduleSummarization (page w)) =
        [{| timer_id := next_handle (page w);
            timer_deadline := (now (page w) + 1000)%N;
            timer_callback := summarizeCallback_fn |}]
      /\ timeout (scheduleSummarization (page w)) = Some (next_handle (page w))
      /\ forall old, timeout (page w) = Some old ->
           has_timer old (scheduleSummarization (page w)) = false).
Proof.
  intros R. destruct (reachable_Inv w R) as [[H | [H | H]] _].
  - destruct H as (_ & L & T & _). rewrite T.
    split; [cbn; lia |]. split; [intros t []|].
    unfold ready. rewrite L. discriminate.
  - destruct H as (_ & L & T & _). rewrite T.
    split; [cbn; lia |]. split; [intros t []|].
    unfold ready. rewrite L. discriminate.
  - destruct H as (_ & _ & T & _). pose proof T as [[E | (id & dl & E & TO)] Fresh].
    + rewrite E. split; [cbn; lia |]. split; [intros t [] |].
      intros _. rewrite scheduleSummarization_closed by exact T. cbn.
      repeat split. intros old O. unfold has_timer. cbn.
      apply Fresh in O. destruct (N.eqb_spec (next_handle (page w)) old); [lia |].
      reflexivity.
    + rewrite E. split; [cbn; lia |]. split.
      * intros t [<- | []]. exact TO.
      * intros _. rewrite scheduleSummarization_closed by exact T. cbn.
        repeat split. intros old O. unfold has_timer. cbn.
        apply Fresh in O. destruct (N.eqb_spec (next_handle (page w)) old); [lia |].
        reflexivity.
Qed.

Lemma at_most_one_pending_timer_witness :
  (List.length (timers (page sample_scheduled)) <= 1)%nat
  /\ (forall t, In t (timers (page sample_scheduled)) ->
        timeout (page sample_scheduled) = Some (timer_id t))
  /\ (ready sample_scheduled ->
      timers (scheduleSummarization (page sample_scheduled)) =
        [{| timer_id := next_handle (page sample_scheduled);
            timer_deadline := (now (page sample_scheduled) + 1000)%N;
            timer_callback := summarizeCallback_fn |}]
      /\ timeout (scheduleSummarization (page sample_scheduled)) =
           Some (next_handle (page sample_scheduled))
      /\ forall old, timeout (page sample_scheduled) = Some old ->
           has_timer old (scheduleSummarization (page sample_scheduled)) = false).
Proof.
  apply (at_most_one_pending_timer sample_scheduled).
  apply sample_scheduled_reachable.
Defined.

(** ** C5: the capability object is undefined *)

(** C5. When the capability object is undefined, initialization shows
    the "unavailable" dialog, changes nothing else in the document, calls
    the host not at all and attaches no listener; and whatever happens
    afterwards, no host call is made, no listener is attached, no timer
    runs and the dialog stays shown. *)
Theorem undefined_capability_halts (t0 : N) (ai : option AI) (d : DOM) (evs : list Event) :
  capability_undefined ai ->
  dom (page (boot t0 ai d)) = set_summarizationUnavailableDialog_display "block" d
  /\ calls (page (boot t0 ai d)) = []
  /\ listeners (page (boot t0 ai d)) = []
  /\ pending (boot t0 ai d) = []
  /\ calls (page (run evs (boot t0 ai d))) = []
  /\ listeners (page (run evs (boot t0 ai d))) = []
  /\ timers (page (run evs (boot t0 ai d))) = []
  /\ fired (page (run evs (boot t0 ai d))) = []
  /\ pending (run evs (boot t0 ai d)) = []
  /\ summarizationUnavailableDialog_display (dom (page (run evs (boot t0 ai d)))) = "block".
Proof.
  intros U.
  assert (B : boot t0 ai d =
              {| page := with_dom (set_summarizationUnavailableDialog_display "block")
                           (initial_page t0 ai d);
                 pending := []; next_promise := 0; unhandled := [] |})
    by (destruct U as [-> | ->]; reflexivity).
  assert (H : halted (boot t0 ai d)) by (rewrite B; repeat split).
  destruct (halted_run evs _ H) as [(P & L & T & F) Fz].
  unfold frozen in Fz.
  repeat match goal with H : _ /\ _ |- _ => destruct H end.
  repeat match goal with
         | H : _ (run evs (boot t0 ai d)) = _ |- _ => rewrite H
         | H : _ (page (run evs (boot t0 ai d))) = _ |- _ => rewrite H
         | H : _ (dom (page (run evs (boot t0 ai d)))) = _ |- _ => rewrite H
         end.
  rewrite B. cbn. repeat split; reflexivity.
Qed.

Lemma undefined_capability_halts_witness :
  dom (page (boot 0 None sample_dom)) =
    set_summarizationUnavailableDialog_display "block" sample_dom
  /\ calls (page (boot 0 None sample_dom)) = []
  /\ listeners (page (boot 0 None sample_dom)) = []
  /\ pending (boot 0 None sample_dom) = []
  /\ calls (page (run [UserInput "text"; Elapse 1000] (boot 0 None sample_dom))) = []
  /\ listeners (page (run [UserInput "text"; Elapse 1000] (boot 0 None sample_dom))) = []
  /\ timers (page (run [UserInput "text"; Elapse 1000] (boot 0 None sample_dom))) = []
  /\ fired (page (run [UserInput "text"; Elapse 1000] (boot 0 None sample_dom))) = []
  /\ pending (run [UserInput "text"; Elapse 1000] (boot 0 None sample_dom)) = []
  /\ summarizationUnavailableDialog_display
       (dom (page (run [UserInput "text"; Elapse 1000] (boot 0 None sample_dom)))) = "block".
Proof.
  apply (undefined_capability_halts 0 None sample_dom [UserInput "text"; Elapse 1000]).
  left. reflexivity.
Defined.

(** ** C6: the capability reports [no] *)

Lemma probing_user_run (evs : list Event) (w : World) :
  forallb user_or_time evs = true -> probing w ->
  probing (run evs w) /\ frozen w (run evs w).
Proof.
  revert w. induction evs as [| ev evs IH]; intros w U H; cbn.
  - split; [exact H | apply frozen_refl].
  - cbn in U. apply andb_prop in U as [Uev U].
    assert (S : probing (step ev w) /\ frozen w (step ev w)).
    { destruct H as ([id P] & L & T & F & S).
      pose proof (step_unwired_user ev w L T) as Cl.
      destruct ev as [text | s v | ms | | |]; try discriminate; rewrite Cl;
        (split; [apply (probing_intro _ id); assumption |]);
        [repeat split | repeat split; destruct s; reflexivity | repeat split]. }
    destruct S as [H1 F1]. destruct (IH _ U H1) as [H2 F2].
    split; [exact H2 | exact (frozen_trans _ _ _ F1 F2)].
Qed.

(** C6. When the capability is present and the probe answers [no],
    initialization shows the "unsupported" dialog and attaches no
    listener.  Afterwards, whatever the user or the host does, no listener
    is attached, no timer is scheduled or runs, and the host is never
    called again: the single availability query of the probe remains the
    only host call, so no session is created and nothing is summarized. *)
Theorem unsupported_never_summarizes
    (t0 : N) (d : DOM) (before after : list Event) :
  forallb user_or_time before = true ->
  summarizationUnsupportedDialog_display
    (dom (page (unsupported_world t0 d before))) = "block"
  /\ listeners (page (unsupported_world t0 d before)) = []
  /\ listeners (page (run after (unsupported_world t0 d before))) = []
  /\ timers (page (run after (unsupported_world t0 d before))) = []
  /\ fired (page (run after (unsupported_world t0 d before))) = []
  /\ pending (run after (unsupported_world t0 d before)) = []
  /\ calls (page (run after (unsupported_world t0 d before))) = [CallCapabilities]
  /\ summarizationUnsupportedDialog_display
       (dom (page (run after (unsupported_world t0 d before)))) = "block".
Proof.
  intros U. unfold unsupported_world. rewrite run_app.
  assert (P0 : probing (boot t0 with_summarizer d))
    by (apply (probing_intro _ 0%N); reflexivity).
  destruct (probing_user_run before _ U P0) as [P1 F1].
  set (w1 := run before (boot t0 with_summarizer d)) in *.
  assert (E : pending w1 = [(0%N, probeAndWire)]).
  { destruct F1 as (E & _). rewrite E. reflexivity. }
  assert (C : calls (page w1) = [CallCapabilities]).
  { destruct F1 as (_ & _ & _ & _ & _ & _ & C & _). rewrite C. reflexivity. }
  set (w2 := run [SettleCapabilities 0 (answer no)] w1).
  assert (W2 : w2 = with_page
                      (with_dom (set_summarizationUnsupportedDialog_display "block"))
                      (set_pending [] w1)).
  { unfold w2. cbn. rewrite E. reflexivity. }
  destruct P1 as (_ & L & T & F & _).
  assert (H2 : halted w2) by (rewrite W2; apply halted_intro; assumption || reflexivity).
  destruct (halted_run after _ H2) as [(P3 & L3 & T3 & F3) Fz].
  destruct Fz as (_ & _ & _ & _ & _ & _ & C3 & _ & _ & _ & _ & D3 & _).
  rewrite C3, D3.
  repeat (split; [assumption || (rewrite W2; cbn; assumption || reflexivity) |]).
  rewrite W2. reflexivity.
Qed.

Lemma unsupported_never_summarizes_witness :
  summarizationUnsupportedDialog_display
    (dom (page (unsupported_world 0 sample_dom [UserInput "early"]))) = "block"
  /\ listeners (page (unsupported_world 0 sample_dom [UserInput "early"])) = []
  /\ listeners (page (run [UserInput "later"; Elapse 5000]
                        (unsupported_world 0 sample_dom [UserInput "early"]))) = []
  /\ timers (page (run [UserInput "later"; Elapse 5000]
                     (unsupported_world 0 sample_dom [UserInput "early"]))) = []
  /\ fired (page (run [UserInput "later"; Elapse 5000]
                    (unsupported_world 0 sample_dom [UserInput "early"]))) = []
  /\ pending (run [UserInput "later"; Elapse 5000]
                (unsupported_world 0 sample_dom [UserInput "early"])) = []
  /\ calls (page (run [UserInput "later"; Elapse 5000]
                    (unsupported_world 0 sample_dom [UserInput "early"])))
     = [CallCapabilities]
  /\ summarizationUnsupportedDialog_display
       (dom (page (run [UserInput "later"; Elapse 5000]
                     (unsupported_world 0 sample_dom [UserInput "early"])))) = "block".
Proof.
  apply (unsupported_never_summarizes 0 sample_dom [UserInput "early"]
           [UserInput "later"; Elapse 5000]).
  reflexivity.
Defined.

(** ** C9: availability queries *)

Lemma summarizer_defined_step (ev : Event) (w : World) :
  Inv w -> summarizer_defined (page (step ev w)) = summarizer_defined (page w).
Proof.
  intros [[H | [H | H]] _].
  - destruct (halted_step ev w H) as [_ F].
    destruct F as (_ & _ & _ & _ & _ & _ & _ & A & _).
    unfold summarizer_defined. rewrite A. reflexivity.
  - destruct (probing_step ev w H)
      as [[_ F] | [(_ & _ & A) | (_ & _ & _ & _ & _ & A)]];
      unfold summarizer_defined; try (rewrite A; reflexivity).
    destruct F as (_ & _ & _ & _ & _ & _ & _ & A & _). rewrite A. reflexivity.
  - destruct (wired_step ev w H) as [(_ & S' & _) _].
    destruct H as (_ & S & _). rewrite S, S'. reflexivity.
Qed.

Lemma summarizer_defined_run (evs : list Event) (w : World) :
  Inv w -> summarizer_defined (page (run evs w)) = summarizer_defined (page w).
Proof.
  revert w. induction evs as [| ev evs IH]; intros w H; cbn; [reflexivity |].
  rewrite IH by (apply Inv_step, H). apply summarizer_defined_step, H.
Qed.

(** C9, as the code has it.  Availability is queried once when the page
    loads (if the capability object is defined) and once more by every
    timer callback that runs, through the re-check at the head of
    [createSummarizationSession]; it is queried at no other time. *)
Theorem availability_queried_at_load_and_per_firing
    (t0 : N) (ai : option AI) (d : DOM) (evs : list Event) :
  capability_queries (calls (page (run evs (boot t0 ai d)))) =
    ((if summarizer_defined (initial_page t0 ai d) then 1 else 0)
     + List.length (fired (page (run evs (boot t0 ai d)))))%nat.
Proof.
  pose proof (Inv_run evs _ (Inv_boot t0 ai d)) as [_ C].
  rewrite C. f_equal.
  rewrite summarizer_defined_run by apply Inv_boot.
  destruct ai as [[[|]] |]; reflexivity.
Qed.

(** C9 as stated fails: after initialization has completed with one
    query, one debounce firing queries availability a second time. *)
Lemma availability_queried_again :
  capability_queries (calls (page sample_ready)) = 1%nat
  /\ capability_queries
       (calls (page (run [UserInput "Hello world"; Elapse 1000] sample_ready))) = 2%nat.
Proof. split; reflexivity. Qed.

(** ** C3: character-count feedback *)

Lemma read_decimal_toFixed (n : N) : read_decimal (toFixed n) = Some n.
Proof.
  unfold read_decimal, toFixed. rewrite NilEmpty.usu. cbn.
  rewrite DecimalN.Unsigned.of_to. reflexivity.
Qed.

Lemma classList_add_In (c : string) (l : list string) : In c (classList_add c l).
Proof.
  unfold classList_add, classList_contains.
  destruct (existsb (String.eqb c) l) eqn:E.
  - apply existsb_exists in E as (x & Hx & Ex).
    apply String.eqb_eq in Ex. subst. exact Hx.
  - apply in_or_app. right. left. reflexivity.
Qed.

Lemma classList_remove_not_In (c : string) (l : list string) :
  ~ In c (classList_remove c l).
Proof.
  unfold classList_remove. intros H. apply filter_In in H as [_ H].
  rewrite String.eqb_refl in H. discriminate.
Qed.

(** The boundary: 4000 characters are within the limit, 4001 are not. *)
Example indicator_at_4000 :
  let d := dom (page (step (UserInput (text_of_length 4000)) sample_ready)) in
  characterCountSpan_textContent d = "4000"
  /\ classList_contains "hidden" (characterCountExceededSpan_classList d) = true
  /\ classList_contains "tokens-exceeded" (characterCountSpan_classList d) = false.
Proof. vm_compute. repeat split. Qed.

Example indicator_at_4001 :
  let d := dom (page (step (UserInput (text_of_length 4001)) sample_ready)) in
  characterCountSpan_textContent d = "4001"
  /\ classList_contains "hidden" (characterCountExceededSpan_classList d) = false
  /\ classList_contains "tokens-exceeded" (characterCountSpan_classList d) = true.
Proof. vm_compute. repeat split. Qed.

(** Changing only the length selector while the text is empty still
    summarizes, the empty text. *)
Example length_change_alone_summarizes_empty_text :
  calls (page (run [ UserChange length_select "long"; Elapse 1000;
                     SettleCapabilities 1 (answer readily);
                     SettleCreate 2 (Fulfilled 7%N) ] sample_ready)) =
    [ CallCapabilities;
      CallCapabilities;
      CallCreate {| co_type := "key-points"; co_format := "plain-text";
                    co_length := "long"; co_monitor := None |};
      CallSummarize 7%N "" ].
Proof. reflexivity. Qed.

(** ** C4: the contract of [createSummarizationSession] *)

(** C4. [createSummarizationSession] first queries availability.  If the
    answer is [no] it throws [Error "AI Summarization is not supported"]
    without calling [create]; for any other answer it calls [create] with
    [{type, format, length, monitor}], stays suspended until that promise
    settles, and resolves to the session the promise is fulfilled with.
    So, when [create] yields a session, the function throws that error
    if and only if the availability is [no]. *)
Theorem createSummarizationSession_contract
    (type format length : string) (listener : option DownloadProgressListener)
    (h : HostScript) (c : AISummarizerCapabilities) (s : AISummarizer) (p : Page) :
  let options := {| co_type := type; co_format := format; co_length := length;
                    co_monitor := monitor_of listener |} in
  summarizer_defined p = true ->
  script_capabilities h = Fulfilled c ->
  script_create h options = Fulfilled s ->
  (fst (settles h (createSummarizationSession type format length listener) p) =
     Rejected (Error "AI Summarization is not supported")
   <-> available c = no)
  /\ (available c = no ->
      calls (snd (settles h (createSummarizationSession type format length listener) p)) =
        calls p ++ [CallCapabilities])
  /\ (available c <> no ->
      settles h (createSummarizationSession type format length listener) p =
        (Fulfilled s, log_call (CallCreate options) (log_call CallCapabilities p)))
  /\ (exists k,
        createSummarizationSession type format length listener = Await_capabilities k
        /\ (available c = no ->
            k (Fulfilled c) = Throw (Error "AI Summarization is not supported"))
        /\ (available c <> no ->
            exists k', k (Fulfilled c) = Await_create options k'
                       /\ k' (Fulfilled s) = Return s)).
Proof.
  intros options S HC HS. unfold createSummarizationSession.
  fold (monitor_of listener). fold options. cbn.
  rewrite S, HC. cbn.
  destruct c as [[| |]]; cbn; rewrite ?HS; cbn;
    change (summarizer_defined (log_call CallCapabilities p))
      with (summarizer_defined p); rewrite ?S; cbn.
  - split; [split; [discriminate | discriminate] |].
    split; [discriminate |]. split; [reflexivity |].
    eexists. split; [reflexivity |]. split; [discriminate |].
    intros _. eexists. split; reflexivity.
  - split; [split; [discriminate | discriminate] |].
    split; [discriminate |]. split; [reflexivity |].
    eexists. split; [reflexivity |]. split; [discriminate |].
    intros _. eexists. split; reflexivity.
  - split; [split; reflexivity |].
    split; [reflexivity |]. split; [intros H; contradiction |].
    eexists. split; [reflexivity |]. split; [reflexivity |].
    intros H; contradiction.
Qed.

Lemma createSummarizationSession_contract_witness :
  (fst (settles sample_host
          (createSummarizationSession "key-points" "plain-text" "short" None)
          (page sample_ready)) =
     Rejected (Error "AI Summarization is not supported")
   <-> readily = no)
  /\ settles sample_host
       (createSummarizationSession "key-points" "plain-text" "short" None)
       (page sample_ready) =
     (Fulfilled 7%N,
      log_call
        (CallCreate {| co_type := "key-points"; co_format := "plain-text";
                       co_length := "short"; co_monitor := None |})
        (log_call CallCapabilities (page sample_ready))).
Proof.
  destruct (createSummarizationSession_contract "key-points" "plain-text" "short" None
              sample_host {| available := readily |} 7%N (page sample_ready)
              eq_refl eq_refl eq_refl) as (I & _ & F & _).
  split; [exact I | apply F; discriminate].
Defined.

(** ** C2: one event, one summarization *)

(** C2. With availability [readily], the options set to key-points,
    plain-text and short, one input event with the text "Hello world" and
    a quiet period of at least 1000 ms, the host calls made after the
    probe of the page load are, in this order: the availability re-check,
    one [create] with those options, one [summarize] with "Hello world" on
    the session created, and one [destroy] of that session.  The summary
    is displayed and nothing is left pending. *)
Theorem hello_world_summarized_once (t0 : N) (d : DOM) (quiet : N)
    (session : AISummarizer) (summary : string) :
  (1000 <= quiet)%N ->
  summaryTypeSelect_value d = "key-points" ->
  summaryFormatSelect_value d = "plain-text" ->
  summaryLengthSelect_value d = "short" ->
  calls (page (hello_world_run t0 d quiet session summary)) =
    [ CallCapabilities;
      CallCapabilities;
      CallCreate {| co_type := "key-points"; co_format := "plain-text";
                    co_length := "short"; co_monitor := None |};
      CallSummarize session "Hello world";
      CallDestroy session ]
  /\ fired (page (hello_world_run t0 d quiet session summary)) = [1%N]
  /\ output_textContent (dom (page (hello_world_run t0 d quiet session summary))) = summary
  /\ pending (hello_world_run t0 d quiet session summary) = []
  /\ timers (page (hello_world_run t0 d quiet session summary)) = []
  /\ unhandled (hello_world_run t0 d quiet session summary) = [].
Proof.
  intros Q Ht Hf Hl. unfold hello_world_run.
  unfold run. cbn [fold_left].
  set (w1 := step (SettleCapabilities 0 (answer readily)) (boot t0 with_summarizer d)).
  set (w2 := step (UserInput "Hello world") w1).
  assert (E : timers (page w2) =
              [{| timer_id := 1; timer_deadline := (t0 + 1000)%N;
                  timer_callback := summarizeCallback_fn |}]) by reflexivity.
  change (step (Elapse quiet) w2) with (elapse quiet w2).
  rewrite (elapse_due quiet w2 1 (t0 + 1000) E) by (cbn; (lia || reflexivity)).
  cbn. rewrite Ht, Hf, Hl. repeat split.
Qed.

Lemma hello_world_summarized_once_witness :
  calls (page (hello_world_run 0 sample_dom 1000 7%N "A summary.")) =
    [ CallCapabilities;
      CallCapabilities;
      CallCreate {| co_type := "key-points"; co_format := "plain-text";
                    co_length := "short"; co_monitor := None |};
      CallSummarize 7%N "Hello world";
      CallDestroy 7%N ]
  /\ fired (page (hello_world_run 0 sample_dom 1000 7%N "A summary.")) = [1%N]
  /\ output_textContent (dom (page (hello_world_run 0 sample_dom 1000 7%N "A summary."))) =
       "A summary."
  /\ pending (hello_world_run 0 sample_dom 1000 7%N "A summary.") = []
  /\ timers (page (hello_world_run 0 sample_dom 1000 7%N "A summary.")) = []
  /\ unhandled (hello_world_run 0 sample_dom 1000 7%N "A summary.") = [].
Proof.
  apply (hello_world_summarized_once 0 sample_dom 1000 7%N "A summary.").
  - vm_compute. discriminate.
  - reflexivity.
  - reflexivity.
  - reflexivity.
Defined.

(** ** C1: the debounce *)

Lemma same_async_refl (w : World) : same_async w w.
Proof. repeat split. Qed.

Lemma same_async_trans (a b c : World) :
  same_async a b -> same_async b c -> same_async a c.
Proof.
  unfold same_async. intros H1 H2.
  repeat match goal with H : _ /\ _ |- _ => destruct H end.
  repeat split; etransitivity; eassumption.
Qed.

Lemma count_feedback_output (d : DOM) :
  output_textContent (count_feedback d) = output_textContent d.
Proof.
  unfold count_feedback. cbn.
  destruct (MAX_MODEL_CHARS <? js_length (inputTextArea_value d))%N; reflexivity.
Qed.

(** A qualifying event on a wired page: the pending timer, if any, is
    replaced by a new one due 1000 ms later, and nothing else happens. *)
Lemma qualifying_step_wired (q : Qualifying) (w : World) :
  wired w ->
  wired (step (qualifying_event q) w)
  /\ same_async w (step (qualifying_event q) w)
  /\ timers (page (step (qualifying_event q) w)) =
       [{| timer_id := next_handle (page w);
           timer_deadline := (now (page (step (qualifying_event q) w)) + 1000)%N;
           timer_callback := summarizeCallback_fn |}]
  /\ dom (page (step (qualifying_event q) w)) = qualifying_dom q (dom (page w)).
Proof.
  intros W. pose proof W as (L & S & T & P).
  split; [apply wired_step, W |].
  rewrite qualifying_step by assumption.
  split; [| split; reflexivity].
  repeat split. cbn. destruct q as [text | s v]; cbn.
  - rewrite count_feedback_output. reflexivity.
  - destruct s; reflexivity.
Qed.

Lemma short_gap_wired (gap : N) (w : World) (id : N) :
  wired w ->
  timers (page w) =
    [{| timer_id := id; timer_deadline := (now (page w) + 1000)%N;
        timer_callback := summarizeCallback_fn |}] ->
  (gap < 1000)%N ->
  step (Elapse gap) w = tick gap w.
Proof.
  intros W E G. cbn [step]. apply (elapse_early gap w _ E). cbn. lia.
Qed.

(** A burst ends with its last event, handled in a wired world in which
    no callback has run since the burst began. *)
Lemma burst_ends_with_last (rest : list (N * Qualifying)) :
  forall (first : Qualifying) (w : World),
    wired w ->
    Forall (fun gq => (fst gq < 1000)%N) rest ->
    exists before,
      wired before /\ same_async w before
      /\ run (burst first rest) w =
           step (qualifying_event (last_qualifying first rest)) before.
Proof.
  induction rest as [| [gap q] rest IH]; intros first w W F.
  - exists w. split; [exact W |]. split; [apply same_async_refl | reflexivity].
  - inversion F as [| ? ? G F']; subst. cbn in G.
    destruct (qualifying_step_wired first w W) as (W1 & A1 & E1 & _).
    set (w1 := step (qualifying_event first) w) in *.
    pose proof (short_gap_wired gap w1 _ W1 E1 G) as Tk.
    assert (W2 : wired (tick gap w1)).
    { rewrite <- Tk. apply wired_step, W1. }
    destruct (IH q (tick gap w1) W2 F') as (before & Wb & Ab & Eb).
    exists before. split; [exact Wb |]. split.
    + apply (same_async_trans _ w1); [exact A1 |].
      apply (same_async_trans _ (tick gap w1)); [repeat split | exact Ab].
    + change (run (burst first ((gap, q) :: rest)) w)
        with (run (burst q rest) (step (Elapse gap) w1)).
      rewrite Tk. exact Eb.
Qed.

Lemma take_pending_fresh (np : N) (l : list (N * Async unit)) (m : Async unit) :
  Forall (tracked np) l -> take_pending np (l ++ [(np, m)]) = Some (m, l).
Proof.
  induction l as [| [i x] l IH]; intros F; cbn.
  - rewrite N.eqb_refl. reflexivity.
  - inversion F as [| ? ? [_ Lt] F']; subst. cbn in Lt.
    destruct (N.eqb_spec i np); [lia |].
    rewrite IH by exact F'. reflexivity.
Qed.

Lemma qualifying_dom_shows (q : Qualifying) (d : DOM) : shows q (qualifying_dom q d).
Proof.
  destruct q as [text | s v]; cbn.
  - unfold count_feedback. cbn.
    destruct (MAX_MODEL_CHARS <? js_length text)%N; reflexivity.
  - destruct s; reflexivity.
Qed.

Lemma tracked_weaken (np : N) (l : list (N * Async unit)) :
  Forall (tracked np) l -> Forall (tracked (np + 1)) l.
Proof.
  apply Forall_impl. intros im [I L]. split; [exact I | lia].
Qed.

(** C1. Take a reachable world whose listeners are attached, and a burst
    of qualifying events in which each event follows the previous one by
    less than 1000 ms.  During the burst no callback runs and the host is
    not called.  After the last event exactly one timer is pending, due
    1000 ms after it; once at least 1000 ms have passed it has run, once,
    and no timer is left.  The summarization it starts creates the session
    with the option values the document holds at the last event and
    summarizes the text it holds then; the control the last event
    concerned shows what that event put there. *)
Theorem debounce_last_event_wins
    (w : World) (first : Qualifying) (rest : list (N * Qualifying))
    (quiet : N) (c : AISummarizerCapabilities) (s : AISummarizer) :
  reachable w -> ready w ->
  Forall (fun gq => (fst gq < 1000)%N) rest ->
  (1000 <= quiet)%N ->
  available c <> no ->
  let last := run (burst first rest) w in
  let after := step (Elapse quiet) last in
  let p := next_promise w in
  let final :=
    run [SettleCapabilities p (Fulfilled c); SettleCreate (p + 1) (Fulfilled s)] after in
  fired (page last) = fired (page w)
  /\ calls (page last) = calls (page w)
  /\ pending last = pending w
  /\ (exists id,
        timers (page last) =
          [{| timer_id := id; timer_deadline := (now (page last) + 1000)%N;
              timer_callback := summarizeCallback_fn |}]
        /\ fired (page after) = fired (page w) ++ [id])
  /\ timers (page after) = []
  /\ calls (page final) =
       calls (page w) ++
       [ CallCapabilities;
         CallCreate {| co_type := summaryTypeSelect_value (dom (page last));
                       co_format := summaryFormatSelect_value (dom (page last));
                       co_length := summaryLengthSelect_value (dom (page last));
                       co_monitor := None |};
         CallSummarize s (inputTextArea_value (dom (page last))) ]
  /\ shows (last_qualifying first rest) (dom (page last)).
Proof.
  intros R Rd Rapid Q NotNo last after p final.
  pose proof (ready_wired w R Rd) as W.
  destruct (burst_ends_with_last rest first w W Rapid) as (before & Wb & Ab & Eb).
  destruct (qualifying_step_wired (last_qualifying first rest) before Wb)
    as (Wl & Al & El & Dl).
  fold last in Eb. rewrite <- Eb in Wl, Al, El, Dl.
  pose proof (same_async_trans _ _ _ Ab Al) as (Fd & Cs & Pd & Np & _).
  pose proof Wl as (_ & Sl & _ & Tr).
  assert (Ea : after =
               suspend CallCapabilities
                 (at_recheck (summaryTypeSelect_value (dom (page last)))
                             (summaryFormatSelect_value (dom (page last)))
                             (summaryLengthSelect_value (dom (page last))))
                 (with_page
                    (fun q => with_dom (set_output_textContent "Generating summary...")
                                (set_fired (fired q ++ [next_handle (page before)])
                                   (set_timers [] (set_now (now q + quiet)%N q)))) last)).
  { unfold after. cbn [step]. apply (elapse_due quiet last _ _ El); [lia | exact Sl]. }
  set (t := summaryTypeSelect_value (dom (page last))) in *.
  set (f := summaryFormatSelect_value (dom (page last))) in *.
  set (l := summaryLengthSelect_value (dom (page last))) in *.
  assert (T1 : take_pending p (pending after) = Some (at_recheck t f l, pending last)).
  { rewrite Ea. cbn [pending suspend with_page]. unfold p. rewrite <- Np.
    apply take_pending_fresh. exact Tr. }
  assert (S1 : summarizer_defined (page after) = true) by (rewrite Ea; exact Sl).
  assert (E1 : step (SettleCapabilities p (Fulfilled c)) after =
               suspend (CallCreate {| co_type := t; co_format := f; co_length := l;
                                      co_monitor := None |})
                 (at_create t f l) (set_pending (pending last) after)).
  { rewrite (settle_recheck after p t f l _ _ T1 S1).
    destruct c as [[| |]]; cbn; try reflexivity. contradiction NotNo. reflexivity. }
  set (w1 := step (SettleCapabilities p (Fulfilled c)) after) in *.
  assert (T2 : take_pending (p + 1) (pending w1) = Some (at_create t f l, pending last)).
  { rewrite E1. cbn [pending suspend set_pending next_promise].
    rewrite Ea. cbn [next_promise suspend with_page]. unfold p. rewrite <- Np.
    apply take_pending_fresh. apply tracked_weaken. exact Tr. }
  assert (E2 : final =
               suspend (CallSummarize s (inputTextArea_value (dom (page w1))))
                 (at_summarize s (inputTextArea_value (dom (page w1))))
                 (set_pending (pending last) w1)).
  { unfold final, run. cbn [fold_left]. fold w1.
    rewrite (settle_create w1 (p + 1) t f l _ _ T2). reflexivity. }
  split; [exact Fd |]. split; [exact Cs |]. split; [exact Pd |].
  split; [exists (next_handle (page before)); split; [exact El |] |].
  { rewrite Ea. world_simpl. rewrite Fd. reflexivity. }
  split; [rewrite Ea; reflexivity |].
  split; [| rewrite Dl; apply qualifying_dom_shows].
  rewrite E2. world_simpl. rewrite E1. world_simpl. rewrite Ea. world_simpl.
  cbn [inputTextArea_value set_output_textContent].
  rewrite Cs, <- !app_assoc. reflexivity.
Qed.

Lemma debounce_last_event_wins_witness :
  calls (page (run [ UserInput "H"; Elapse 300; UserInput "He"; Elapse 999;
                     UserChange length_select "long"; Elapse 1000;
                     SettleCapabilities 1 (answer readily);
                     SettleCreate 2 (Fulfilled 7%N) ] sample_ready)) =
    [ CallCapabilities;
      CallCapabilities;
      CallCreate {| co_type := "key-points"; co_format := "plain-text";
                    co_length := "long"; co_monitor := None |};
      CallSummarize 7%N "He" ]
  /\ fired (page (run [ UserInput "H"; Elapse 300; UserInput "He"; Elapse 999;
                        UserChange length_select "long"; Elapse 1000 ] sample_ready)) =
       [3%N].
Proof.
  destruct (debounce_last_event_wins sample_ready (TextInput "H")
              [(300%N, TextInput "He"); (999%N, OptionChange length_select "long")]
              1000 {| available := readily |} 7%N)
    as (_ & _ & _ & (id & E & F) & _ & C & _).
  - apply sample_ready_reachable.
  - reflexivity.
  - repeat constructor.
  - vm_compute. discriminate.
  - discriminate.
  - vm_compute in E, F, C. injection E as Eid. subst id.
    vm_compute. split; [exact C | exact F].
Defined.

(** ** C10: the re-check fails *)

(** C10. When a debounce timer runs, the placeholder is displayed and
    the callback waits for the availability re-check.  If that re-check
    answers [no], the error thrown by [createSummarizationSession] is
    handled by nothing and ends up as an unhandled rejection; the page is
    left exactly as it was, so the output still shows the placeholder, no
    session is created and nothing is summarized. *)
Theorem recheck_failure_is_unhandled (w : World) (ms id dl : N) :
  reachable w -> ready w ->
  timers (page w) =
    [{| timer_id := id; timer_deadline := dl; timer_callback := summarizeCallback_fn |}] ->
  (dl <= now (page w) + ms)%N ->
  let started := step (Elapse ms) w in
  let failed := step (SettleCapabilities (next_promise w) (answer no)) started in
  fired (page started) = fired (page w) ++ [id]
  /\ output_textContent (dom (page started)) = "Generating summary..."
  /\ page failed = page started
  /\ output_textContent (dom (page failed)) = "Generating summary..."
  /\ unhandled failed = unhandled w ++ [Error "AI Summarization is not supported"]
  /\ calls (page failed) = calls (page w) ++ [CallCapabilities]
  /\ pending failed = pending w.
Proof.
  intros R Rd E Due started failed.
  destruct (ready_wired w R Rd) as (_ & S & _ & Tr).
  assert (Es : started =
               suspend CallCapabilities
                 (at_recheck (summaryTypeSelect_value (dom (page w)))
                             (summaryFormatSelect_value (dom (page w)))
                             (summaryLengthSelect_value (dom (page w))))
                 (with_page
                    (fun q => with_dom (set_output_textContent "Generating summary...")
                                (set_fired (fired q ++ [id])
                                   (set_timers [] (set_now (now q + ms)%N q)))) w)).
  { unfold started. cbn [step]. apply (elapse_due ms w id dl E Due S). }
  assert (T1 : take_pending (next_promise w) (pending started) =
               Some (at_recheck (summaryTypeSelect_value (dom (page w)))
                                (summaryFormatSelect_value (dom (page w)))
                                (summaryLengthSelect_value (dom (page w))),
                     pending w)).
  { rewrite Es. cbn [pending suspend with_page]. apply take_pending_fresh, Tr. }
  assert (Ef : failed = reject_unhandled not_supported (set_pending (pending w) started)).
  { unfold failed.
    rewrite (settle_recheck started _ _ _ _ _ (answer no) T1) by (rewrite Es; exact S).
    reflexivity. }
  rewrite Ef, Es. repeat split.
Qed.

Lemma recheck_failure_is_unhandled_witness :
  output_textContent
    (dom (page (run [Elapse 1000; SettleCapabilities 1 (answer no)] sample_scheduled))) =
    "Generating summary..."
  /\ unhandled (run [Elapse 1000; SettleCapabilities 1 (answer no)] sample_scheduled) =
       [Error "AI Summarization is not supported"]
  /\ calls (page (run [Elapse 1000; SettleCapabilities 1 (answer no)] sample_scheduled)) =
       [CallCapabilities; CallCapabilities].
Proof.
  destruct (recheck_failure_is_unhandled sample_scheduled 1000 1 1000)
    as (_ & _ & _ & O & U & C & _).
  - apply sample_scheduled_reachable.
  - reflexivity.
  - reflexivity.
  - vm_compute. discriminate.
  - split; [exact O |]. split; [exact U | exact C].
Defined.

(** ** C7: overlapping summarizations *)

(** C7 as stated fails: the first summarization is still waiting for the
    host when the second timer runs; a second session is asked for while
    the first is alive, and two callbacks are suspended at once. *)
Lemma summarizations_overlap :
  calls (page overlapping_run) =
    [ CallCapabilities;
      CallCapabilities;
      CallCreate {| co_type := "key-points"; co_format := "plain-text";
                    co_length := "short"; co_monitor := None |};
      CallSummarize 7%N "a";
      CallCapabilities;
      CallCreate {| co_type := "key-points"; co_format := "plain-text";
                    co_length := "short"; co_monitor := None |} ]
  /\ run overlapping_events sample_ready = overlapping_run
  /\ one_session_at_a_time overlapping_events sample_ready = false
  /\ List.length (pending overlapping_run) = 2%nat
  /\ List.length (timers (page overlapping_run)) = 0%nat.
Proof.
  split; [reflexivity |].
  split; [unfold overlapping_events, overlapping_run; reflexivity |].
  split; [vm_compute; reflexivity |]. split; reflexivity.
Qed.

Lemma at_summarize_session (s s' : AISummarizer) (x x' : string) :
  at_summarize s x = at_summarize s' x' -> s = s'.
Proof. intros H. injection H as Hs _. exact Hs. Qed.

Lemma settle_absent (ev : Event) (w : World) :
  match ev with
  | SettleCapabilities id _ | SettleCreate id _ | SettleSummarize id _ =>
      take_pending id (pending w) = None
  | _ => False
  end ->
  step ev w = w.
Proof.
  destruct ev; try contradiction; intros T; cbn; rewrite T; reflexivity.
Qed.

Lemma take_pending_single (id id' : N) (m : Async unit) :
  take_pending id [(id', m)] = if (id' =? id)%N then Some (m, []) else None.
Proof. cbn. destruct (id' =? id)%N; reflexivity. Qed.

(** What the account of sessions refuses: a second [create] before the
    first has been answered, a [create] while a session is alive, and a
    [summarize] on a session that has been destroyed. *)
Example sessions_refused :
  called (CallCreate (options_of "tl;dr" "markdown" "long"))
         {| being_created := true; alive := [] |} = None
  /\ called (CallCreate (options_of "tl;dr" "markdown" "long"))
            {| being_created := false; alive := [7%N] |} = None
  /\ handed_out (Fulfilled 8%N) {| being_created := true; alive := [7%N] |} = None
  /\ (called (CallDestroy 7%N) {| being_created := false; alive := [7%N] |}
      = Some no_sessions)
  /\ called (CallSummarize 7%N "a") no_sessions = None.
Proof. repeat split. Qed.

Lemma new_calls_none (w w' : World) :
  calls (page w') = calls (page w) -> new_calls w w' = [].
Proof. intros E. unfold new_calls. rewrite E. apply skipn_all. Qed.

Lemma new_calls_one (w w' : World) (c : HostCall) :
  calls (page w') = calls (page w) ++ [c] -> new_calls w w' = [c].
Proof.
  intros E. unfold new_calls. rewrite E, skipn_app, skipn_all, Nat.sub_diag.
  reflexivity.
Qed.

(** A step that makes no call and receives no session keeps the sessions. *)
Lemma sessions_step_quiet (ev : Event) (w : World) (a : Sessions) :
  calls (page (step ev w)) = calls (page w) ->
  match ev with
  | SettleCreate id _ => resumes_create id w = false
  | _ => True
  end ->
  sessions_step ev w (Some a) = Some a.
Proof.
  intros C H. unfold sessions_step. rewrite (new_calls_none _ _ C). cbn.
  destruct ev; try reflexivity. rewrite H. reflexivity.
Qed.

Lemma in_step_idle (w : World) : pending w = [] -> in_step w (Some no_sessions).
Proof. intros P. left. split; [exact P | reflexivity]. Qed.

Lemma in_step_sessions (w : World) (a : option Sessions) :
  in_step w a -> exists b, a = Some b.
Proof.
  intros [[_ ->] | (id & m & _ & [[_ ->] | [[_ ->] | (s & x & _ & ->)]])];
    eexists; reflexivity.
Qed.

Lemma in_step_same (w w' : World) (a : option Sessions) :
  pending w' = pending w -> in_step w a -> in_step w' a.
Proof. unfold in_step. intros ->. exact (fun H => H). Qed.

Lemma in_step_free (w : World) (a : option Sessions) :
  in_step w a -> pending w = [] -> a = Some no_sessions.
Proof.
  intros [[_ E] | (id & m & P & _)] Pw; [exact E |].
  rewrite P in Pw. discriminate.
Qed.

Lemma in_step_at_most_one (w : World) (a : option Sessions) :
  in_step w a -> (List.length (pending w) <= 1)%nat.
Proof. intros [[P _] | (id & m & P & _)]; rewrite P; cbn; lia. Qed.

(** What [in_step] says of the sessions, by the await the callback is at. *)
Lemma in_step_before_create (w : World) (a : option Sessions) (id : N) (m : Async unit) :
  in_step w a -> pending w = [(id, m)] -> awaits_capabilities m = true ->
  a = Some no_sessions.
Proof.
  intros [[P _] | (id' & m' & P & H)] Pw Hm; rewrite P in Pw; [discriminate |].
  injection Pw as _ ->.
  destruct H as [[_ E] | [[Hc _] | (s & x & -> & _)]]; [exact E | |].
  - destruct m; discriminate.
  - discriminate.
Qed.

Lemma in_step_creating (w : World) (a : option Sessions) (id : N) (m : Async unit) :
  in_step w a -> pending w = [(id, m)] -> awaits_create m = true ->
  a = Some {| being_created := true; alive := [] |}.
Proof.
  intros [[P _] | (id' & m' & P & H)] Pw Hm; rewrite P in Pw; [discriminate |].
  injection Pw as _ ->.
  destruct H as [[Hc _] | [[_ E] | (s & x & -> & _)]]; [| exact E |].
  - destruct m; discriminate.
  - discriminate.
Qed.

Lemma in_step_summarizing (w : World) (a : option Sessions) (id : N)
    (s : AISummarizer) (x : string) :
  in_step w a -> pending w = [(id, at_summarize s x)] ->
  a = Some {| being_created := false; alive := [s] |}.
Proof.
  intros [[P _] | (id' & m' & P & H)] Pw; rewrite P in Pw; [discriminate |].
  assert (E : m' = at_summarize s x) by congruence. subst m'.
  destruct H as [[Hc _] | [[Hc _] | (s' & x' & E & ->)]]; try discriminate.
  apply at_summarize_session in E. subst. reflexivity.
Qed.

(** The only suspended callback is the one the promise belongs to. *)
Lemma only_pending (w : World) (a : option Sessions) (id : N) (m : Async unit)
    (rest : list (N * Async unit)) :
  in_step w a -> take_pending id (pending w) = Some (m, rest) ->
  pending w = [(id, m)] /\ rest = [].
Proof.
  intros C TP. destruct (pending w) as [| [i x] [| y tl]] eqn:Pw.
  - discriminate.
  - rewrite take_pending_single in TP. destruct (N.eqb_spec i id); [| discriminate].
    inversion TP; subst. split; reflexivity.
  - apply in_step_at_most_one in C. rewrite Pw in C. cbn in C. lia.
Qed.

Lemma in_step_wired_step (ev : Event) (w : World) (a : option Sessions) :
  wired w -> in_step w a -> admissible ev w = true ->
  in_step (step ev w) (sessions_step ev w a).
Proof.
  intros W C A. pose proof W as (L & S & T & P).
  destruct (in_step_sessions w a C) as [b ->].
  destruct ev as [text | s v | ms | id r | id r | id r].
  - destruct (qualifying_step_wired (TextInput text) w W) as (_ & (_ & Cs & Pd & _) & _).
    rewrite (sessions_step_quiet (UserInput text) w b Cs I).
    exact (in_step_same _ _ _ Pd C).
  - destruct (qualifying_step_wired (OptionChange s v) w W) as (_ & (_ & Cs & Pd & _) & _).
    rewrite (sessions_step_quiet (UserChange s v) w b Cs I).
    exact (in_step_same _ _ _ Pd C).
  - destruct T as [[E | (id & dl & E & TO)] Fresh].
    + assert (St : step (Elapse ms) w = tick ms w) by (apply elapse_no_timer, E).
      rewrite (sessions_step_quiet (Elapse ms) w b) by (rewrite ?St; exact I || reflexivity).
      rewrite St. exact (in_step_same _ _ _ eq_refl C).
    + destruct (N.le_gt_cases dl (now (page w) + ms)) as [Due | Early].
      * unfold admissible, will_fire in A. rewrite E in A. cbn in A. unfold due in A.
        cbn in A. destruct (N.leb_spec dl (now (page w) + ms)); [| lia].
        cbn in A. unfold callback_free in A.
        destruct (pending w) as [| x rest] eqn:Pw; [| discriminate].
        pose proof (in_step_free w _ C Pw) as Eb. injection Eb as ->.
        assert (St : step (Elapse ms) w =
                     suspend CallCapabilities (recheck_of (page w))
                       (with_page (callback_started ms id) w))
          by (cbn [step]; apply (elapse_due ms w id dl E Due S)).
        unfold sessions_step.
        rewrite (new_calls_one w _ CallCapabilities) by (rewrite St; reflexivity).
        rewrite St. right. exists (next_promise w), (recheck_of (page w)).
        split; [world_simpl; rewrite Pw; reflexivity |].
        left. split; reflexivity.
      * assert (St : step (Elapse ms) w = tick ms w)
          by (cbn [step]; apply (elapse_early ms w _ E), Early).
        rewrite (sessions_step_quiet (Elapse ms) w b) by (rewrite ?St; exact I || reflexivity).
        rewrite St. exact (in_step_same _ _ _ eq_refl C).
  - destruct (take_pending id (pending w)) as [[m rest] |] eqn:TP.
    2:{ assert (St : step (SettleCapabilities id r) w = w)
          by (apply (settle_absent (SettleCapabilities id r) w TP)).
        rewrite (sessions_step_quiet _ w b) by (rewrite ?St; exact I || reflexivity).
        rewrite St. exact C. }
    destruct (take_pending_Forall _ _ _ _ _ TP P) as [[Hm _] _]. cbn in Hm.
    destruct (only_pending w _ id m rest C TP) as [Pw ->].
    destruct Hm as [t f l | t f l | s x].
    + pose proof (in_step_before_create w _ id _ C Pw eq_refl) as Eb. injection Eb as ->.
      pose proof (settle_recheck w id t f l [] r TP S) as St.
      destruct r as [c | e]; [destruct (is_no (available c)) |].
      * rewrite (sessions_step_quiet _ w no_sessions) by (rewrite ?St; exact I || reflexivity).
        rewrite St. apply in_step_idle. reflexivity.
      * unfold sessions_step.
        rewrite (new_calls_one w _ (CallCreate (options_of t f l)))
          by (rewrite St; reflexivity).
        rewrite St. right. exists (next_promise w), (at_create t f l).
        split; [reflexivity |]. right; left. split; reflexivity.
      * rewrite (sessions_step_quiet _ w no_sessions) by (rewrite ?St; exact I || reflexivity).
        rewrite St. apply in_step_idle. reflexivity.
    + assert (St : step (SettleCapabilities id r) w = w).
      { apply settle_mismatch. intros m' rest' E. rewrite TP in E. inversion E; subst.
        left. exists t, f, l. reflexivity. }
      rewrite (sessions_step_quiet _ w b) by (rewrite ?St; exact I || reflexivity).
      rewrite St. exact C.
    + assert (St : step (SettleCapabilities id r) w = w).
      { apply settle_mismatch. intros m' rest' E. rewrite TP in E. inversion E; subst.
        right. exists s, x. reflexivity. }
      rewrite (sessions_step_quiet _ w b) by (rewrite ?St; exact I || reflexivity).
      rewrite St. exact C.
  - destruct (take_pending id (pending w)) as [[m rest] |] eqn:TP.
    2:{ assert (St : step (SettleCreate id r) w = w)
          by (apply (settle_absent (SettleCreate id r) w TP)).
        rewrite (sessions_step_quiet _ w b)
          by (rewrite ?St; try reflexivity; unfold resumes_create; rewrite TP; reflexivity).
        rewrite St. exact C. }
    destruct (take_pending_Forall _ _ _ _ _ TP P) as [[Hm _] _]. cbn in Hm.
    destruct (only_pending w _ id m rest C TP) as [Pw ->].
    destruct Hm as [t f l | t f l | s x].
    + assert (St : step (SettleCreate id r) w = w).
      { apply settle_mismatch. intros m' rest' E. rewrite TP in E. inversion E; subst.
        right; left. exists t, f, l. reflexivity. }
      rewrite (sessions_step_quiet _ w b)
        by (rewrite ?St; try reflexivity; unfold resumes_create; rewrite TP; reflexivity).
      rewrite St. exact C.
    + pose proof (in_step_creating w _ id _ C Pw eq_refl) as Eb. injection Eb as ->.
      pose proof (settle_create w id t f l [] r TP) as St.
      assert (Rc : resumes_create id w = true)
        by (unfold resumes_create; rewrite TP; reflexivity).
      unfold sessions_step. rewrite Rc.
      destruct r as [s | e].
      * rewrite (new_calls_one w _ (CallSummarize s (inputTextArea_value (dom (page w)))))
          by (rewrite St; reflexivity).
        rewrite St. cbn [handed_out alive fold_left called existsb].
        rewrite N.eqb_refl. cbn [orb].
        right. exists (next_promise w), (at_summarize s (inputTextArea_value (dom (page w)))).
        split; [reflexivity |]. right; right. exists s, (inputTextArea_value (dom (page w))).
        split; reflexivity.
      * rewrite (new_calls_none w _) by (rewrite St; reflexivity).
        rewrite St. apply in_step_idle. reflexivity.
    + assert (St : step (SettleCreate id r) w = w).
      { apply settle_mismatch. intros m' rest' E. rewrite TP in E. inversion E; subst.
        right; right. exists s, x. reflexivity. }
      rewrite (sessions_step_quiet _ w b)
        by (rewrite ?St; try reflexivity; unfold resumes_create; rewrite TP; reflexivity).
      rewrite St. exact C.
  - destruct (take_pending id (pending w)) as [[m rest] |] eqn:TP.
    2:{ assert (St : step (SettleSummarize id r) w = w)
          by (apply (settle_absent (SettleSummarize id r) w TP)).
        rewrite (sessions_step_quiet _ w b) by (rewrite ?St; exact I || reflexivity).
        rewrite St. exact C. }
    destruct (take_pending_Forall _ _ _ _ _ TP P) as [[Hm _] _]. cbn in Hm.
    destruct (only_pending w _ id m rest C TP) as [Pw ->].
    destruct Hm as [t f l | t f l | s x].
    + assert (St : step (SettleSummarize id r) w = w).
      { apply settle_mismatch. intros m' rest' E. rewrite TP in E. inversion E; subst.
        right; left. exists t, f, l. reflexivity. }
      rewrite (sessions_step_quiet _ w b) by (rewrite ?St; exact I || reflexivity).
      rewrite St. exact C.
    + assert (St : step (SettleSummarize id r) w = w).
      { apply settle_mismatch. intros m' rest' E. rewrite TP in E. inversion E; subst.
        right; right. exists t, f, l. reflexivity. }
      rewrite (sessions_step_quiet _ w b) by (rewrite ?St; exact I || reflexivity).
      rewrite St. exact C.
    + pose proof (in_step_summarizing w _ id s x C Pw) as Eb. injection Eb as ->.
      pose proof (settle_summarize w id s x [] r TP) as St.
      destruct r as [summary | e]; [| discriminate A].
      unfold sessions_step.
      rewrite (new_calls_one w _ (CallDestroy s)) by (rewrite St; reflexivity).
      rewrite St. cbn [fold_left called alive being_created filter].
      rewrite N.eqb_refl. cbn [negb]. apply in_step_idle. reflexivity.
Qed.

Lemma in_step_step (ev : Event) (w : World) (a : option Sessions) :
  Inv w -> in_step w a -> admissible ev w = true ->
  in_step (step ev w) (sessions_step ev w a).
Proof.
  intros [[H | [H | H]] _] C A.
  - destruct (in_step_sessions w a C) as [b ->].
    pose proof H as (Pw & _).
    destruct (halted_step ev w H) as [_ (Pd & _ & _ & _ & _ & _ & Cs & _)].
    rewrite (sessions_step_quiet ev w b Cs).
    + exact (in_step_same _ _ _ Pd C).
    + destruct ev; try exact I. unfold resumes_create. rewrite Pw. reflexivity.
  - pose proof H as ([id Pw] & _).
    pose proof (in_step_before_create w _ id _ C Pw eq_refl) as ->.
    assert (Q : match ev with
                | SettleCreate id' _ => resumes_create id' w = false
                | _ => True
                end).
    { destruct ev; try exact I. unfold resumes_create. rewrite Pw, take_pending_single.
      destruct (id =? promise)%N; reflexivity. }
    destruct (probing_step ev w H)
      as [[_ F] | [((Pd & _) & Cs & _) | (_ & Pd & _ & _ & Cs & _)]].
    + destruct F as (Pd & _ & _ & _ & _ & _ & Cs & _).
      rewrite (sessions_step_quiet ev w no_sessions Cs Q).
      exact (in_step_same _ _ _ Pd C).
    + rewrite (sessions_step_quiet ev w no_sessions Cs Q). apply in_step_idle, Pd.
    + rewrite (sessions_step_quiet ev w no_sessions Cs Q). apply in_step_idle, Pd.
  - apply in_step_wired_step; assumption.
Qed.

Lemma in_step_boot (t0 : N) (ai : option AI) (d : DOM) :
  in_step (boot t0 ai d) (Some no_sessions).
Proof.
  destruct ai as [[[|]] |].
  - right. exists 0%N, probeAndWire. split; [reflexivity |]. left. split; reflexivity.
  - apply in_step_idle. reflexivity.
  - apply in_step_idle. reflexivity.
Qed.

Lemma in_step_run (evs : list Event) :
  forall (w : World) (a : option Sessions),
    Inv w -> in_step w a -> orderly evs w = true ->
    in_step (run evs w) (sessions_run evs w a).
Proof.
  induction evs as [| ev evs IH]; intros w a I C O; [exact C |].
  cbn in O. apply andb_prop in O as [A O].
  change (run (ev :: evs) w) with (run evs (step ev w)). cbn [sessions_run].
  apply IH; [apply Inv_step, I | apply in_step_step; assumption | exact O].
Qed.

(** C7, as the code has it.  The debounce keeps one timer, not one
    summarization: nothing holds the next timer back while a callback is
    suspended.  In a run where a timer runs only when no callback is
    suspended, and where [summarize] is never rejected, every session has
    been destroyed when the next one is asked for and when the next one
    comes to exist; at most one callback is suspended at any time; and
    whenever no callback is suspended, no session is alive or being
    created. *)
Theorem orderly_runs_never_overlap
    (t0 : N) (ai : option AI) (d : DOM) (evs : list Event) :
  orderly evs (boot t0 ai d) = true ->
  one_session_at_a_time evs (boot t0 ai d) = true
  /\ (List.length (pending (run evs (boot t0 ai d))) <= 1)%nat
  /\ (pending (run evs (boot t0 ai d)) = [] ->
      sessions_run evs (boot t0 ai d) (Some no_sessions) = Some no_sessions).
Proof.
  intros O.
  pose proof (in_step_run evs _ _ (Inv_boot t0 ai d) (in_step_boot t0 ai d) O) as C.
  split; [| split; [apply (in_step_at_most_one _ _ C) | apply (in_step_free _ _ C)]].
  unfold one_session_at_a_time.
  destruct (in_step_sessions _ _ C) as [b ->]. reflexivity.
Qed.

Lemma orderly_runs_never_overlap_witness :
  one_session_at_a_time
    [ SettleCapabilities 0 (answer readily);
      UserInput "a"; Elapse 1000;
      SettleCapabilities 1 (answer readily);
      SettleCreate 2 (Fulfilled 7%N);
      UserInput "ab";
      SettleSummarize 3 (Fulfilled "A.");
      Elapse 1000;
      SettleCapabilities 4 (answer readily);
      SettleCreate 5 (Fulfilled 8%N);
      SettleSummarize 6 (Fulfilled "A b.") ]
    (boot 0 with_summarizer sample_dom) = true
  /\ (List.length
        (pending (run [ SettleCapabilities 0 (answer readily);
                        UserInput "a"; Elapse 1000;
                        SettleCapabilities 1 (answer readily);
                        SettleCreate 2 (Fulfilled 7%N);
                        UserInput "ab";
                        SettleSummarize 3 (Fulfilled "A.");
                        Elapse 1000;
                        SettleCapabilities 4 (answer readily);
                        SettleCreate 5 (Fulfilled 8%N);
                        SettleSummarize 6 (Fulfilled "A b.") ]
                      (boot 0 with_summarizer sample_dom))) <= 1)%nat
  /\ (pending (run [ SettleCapabilities 0 (answer readily);
                     UserInput "a"; Elapse 1000;
                     SettleCapabilities 1 (answer readily);
                     SettleCreate 2 (Fulfilled 7%N);
                     UserInput "ab";
                     SettleSummarize 3 (Fulfilled "A.");
                     Elapse 1000;
                     SettleCapabilities 4 (answer readily);
                     SettleCreate 5 (Fulfilled 8%N);
                     SettleSummarize 6 (Fulfilled "A b.") ]
                   (boot 0 with_summarizer sample_dom)) = [] ->
      sessions_run [ SettleCapabilities 0 (answer readily);
                     UserInput "a"; Elapse 1000;
                     SettleCapabilities 1 (answer readily);
                     SettleCreate 2 (Fulfilled 7%N);
                     UserInput "ab";
                     SettleSummarize 3 (Fulfilled "A.");
                     Elapse 1000;
                     SettleCapabilities 4 (answer readily);
                     SettleCreate 5 (Fulfilled 8%N);
                     SettleSummarize 6 (Fulfilled "A b.") ]
        (boot 0 with_summarizer sample_dom) (Some no_sessions) = Some no_sessions).
Proof.
  apply (orderly_runs_never_overlap 0 with_summarizer sample_dom).
  vm_compute. reflexivity.
Defined.

(** * Further properties of the script *)

(** ** Every step of a reachable world is a transition *)

Lemma transition_step (ev : Event) (w : World) :
  Inv w -> transition ev w (step ev w).
Proof.
  intros [[H | [H | H]] _].
  - destruct H as (P & L & T & F).
    pose proof (step_unwired_user ev w L T) as U.
    destruct ev as [text | s v | ms | id r | id r | id r];
      try (rewrite U); try (cbn; rewrite P; cbn; apply tr_stay; reflexivity).
    + apply tr_unwired_input, L.
    + apply tr_unwired_change, L.
    + apply tr_tick. rewrite T. intros t [].
  - destruct H as ([id P] & L & T & F & S).
    pose proof (step_unwired_user ev w L T) as U.
    destruct ev as [text | s v | ms | id' r | id' r | id' r]; try (rewrite U).
    + apply tr_unwired_input, L.
    + apply tr_unwired_change, L.
    + apply tr_tick. rewrite T. intros t [].
    + cbn. rewrite P. cbn. destruct (N.eqb_spec id id') as [<- | Hne].
      * destruct r as [c | e]; cbn.
        -- destruct (is_no (available c)) eqn:No; cbn.
           ++ apply (tr_probe_no id c w P L No).
           ++ apply (tr_probe_ok id c w P L No).
        -- apply (tr_probe_rejected id e w P L).
      * apply tr_stay. reflexivity.
    + cbn. rewrite P. cbn. destruct (id =? id')%N; apply tr_stay; reflexivity.
    + cbn. rewrite P. cbn. destruct (id =? id')%N; apply tr_stay; reflexivity.
  - pose proof H as (L & S & T & P).
    destruct ev as [text | s v | ms | id r | id r | id r].
    + change (UserInput text) with (qualifying_event (TextInput text)).
      rewrite qualifying_step by assumption. apply tr_qualifying, H.
    + change (UserChange s v) with (qualifying_event (OptionChange s v)).
      rewrite qualifying_step by assumption. apply tr_qualifying, H.
    + cbn [step]. destruct T as [[E | (id & dl & E & TO)] Fresh].
      * rewrite elapse_no_timer by exact E. apply tr_tick. rewrite E. intros t [].
      * destruct (N.le_gt_cases dl (now (page w) + ms)) as [Due | Early].
        -- rewrite (elapse_due ms w id dl E Due S). apply (tr_fire ms id dl w H E Due).
        -- rewrite (elapse_early ms w _ E) by exact Early.
           apply tr_tick. rewrite E. intros t [<- | []]. exact Early.
    + destruct (take_pending id (pending w)) as [[m rest] |] eqn:TP.
      2:{ rewrite (settle_absent (SettleCapabilities id r) w TP).
          apply tr_stay. reflexivity. }
      destruct (take_pending_Forall _ _ _ _ _ TP P) as [[Hm _] _]. cbn in Hm.
      destruct Hm as [t f l | t f l | s x].
      * rewrite (settle_recheck w id t f l rest r TP S).
        destruct r as [c | e]; [destruct (is_no (available c)) eqn:No |].
        -- apply (tr_recheck_no id t f l rest c w H TP No).
        -- apply (tr_recheck_ok id t f l rest c w H TP No).
        -- apply (tr_recheck_rejected id t f l rest e w H TP).
      * cbn. rewrite TP. cbn. apply tr_stay. reflexivity.
      * cbn. rewrite TP. cbn. apply tr_stay. reflexivity.
    + destruct (take_pending id (pending w)) as [[m rest] |] eqn:TP.
      2:{ rewrite (settle_absent (SettleCreate id r) w TP).
          apply tr_stay. reflexivity. }
      destruct (take_pending_Forall _ _ _ _ _ TP P) as [[Hm _] _]. cbn in Hm.
      destruct Hm as [t f l | t f l | s x].
      * cbn. rewrite TP. cbn. apply tr_stay. reflexivity.
      * rewrite (settle_create w id t f l rest r TP).
        destruct r as [s | e].
        -- apply (tr_create_ok id t f l rest s w H TP).
        -- apply (tr_create_rejected id t f l rest e w H TP).
      * cbn. rewrite TP. cbn. apply tr_stay. reflexivity.
    + destruct (take_pending id (pending w)) as [[m rest] |] eqn:TP.
      2:{ rewrite (settle_absent (SettleSummarize id r) w TP).
          apply tr_stay. reflexivity. }
      destruct (take_pending_Forall _ _ _ _ _ TP P) as [[Hm _] _]. cbn in Hm.
      destruct Hm as [t f l | t f l | s x].
      * cbn. rewrite TP. cbn. apply tr_stay. reflexivity.
      * cbn. rewrite TP. cbn. apply tr_stay. reflexivity.
      * rewrite (settle_summarize w id s x rest r TP).
        destruct r as [summary | e].
        -- apply (tr_summarize_ok id s x rest summary w H TP).
        -- apply (tr_summarize_rejected id s x rest e w H TP).
Qed.

(** A property that holds when the page loads and that every transition
    keeps holds in every world a run leads to. *)
Lemma run_invariant (P : World -> Prop) :
  (forall ev w w', Inv w -> P w -> transition ev w w' -> P w') ->
  forall evs w, Inv w -> P w -> P (run evs w).
Proof.
  intros Step evs. induction evs as [| ev evs IH]; intros w I H; cbn; [exact H |].
  apply IH; [apply Inv_step, I |].
  apply (Step ev w _ I H). apply transition_step, I.
Qed.

(** ** The trace of host calls *)

Lemma count_calls_app (f : HostCall -> bool) (l : list HostCall) (c : HostCall) :
  count_calls f (l ++ [c]) = (count_calls f l + if f c then 1 else 0)%nat.
Proof.
  unfold count_calls. rewrite filter_app, length_app. cbn.
  destruct (f c); reflexivity.
Qed.

Lemma awaiting_app (f : Async unit -> bool) (l : list (N * Async unit))
    (id : N) (m : Async unit) :
  awaiting f (l ++ [(id, m)]) = (awaiting f l + if f m then 1 else 0)%nat.
Proof.
  unfold awaiting. rewrite filter_app, length_app. cbn.
  destruct (f m); reflexivity.
Qed.

Lemma take_pending_awaiting (f : Async unit -> bool) (id : N)
    (l : list (N * Async unit)) (m : Async unit) (rest : list (N * Async unit)) :
  take_pending id l = Some (m, rest) ->
  awaiting f l = (awaiting f rest + if f m then 1 else 0)%nat.
Proof.
  revert rest. induction l as [| [i x] l IH]; intros rest T; [discriminate |].
  cbn in T. destruct (i =? id)%N.
  - inversion T; subst. unfold awaiting. cbn. destruct (f m); cbn; lia.
  - destruct (take_pending id l) as [[m' r'] |]; [| discriminate].
    inversion T; subst. specialize (IH r' eq_refl).
    unfold awaiting in *. cbn. destruct (f x); cbn; lia.
Qed.

Lemma accounted_same (w w' : World) :
  listeners (page w') = listeners (page w) ->
  fired (page w') = fired (page w) ->
  calls (page w') = calls (page w) ->
  pending w' = pending w ->
  accounted w -> accounted w'.
Proof. unfold accounted. intros -> -> -> ->. exact (fun H => H). Qed.

Lemma accounted_transition (ev : Event) (w w' : World) :
  Inv w -> accounted w -> transition ev w w' -> accounted w'.
Proof.
  intros _ A T.
  destruct T as
    [ text w L | s v w L | q w W | ms w Early | ms id dl w W E Due | ev w St
    | id c w P L No | id c w P L No | id e w P L
    | id t f l rest c w W TP No | id t f l rest c w W TP No | id t f l rest e w W TP
    | id t f l rest s w W TP | id t f l rest e w W TP
    | id s x rest summary w W TP | id s x rest e w W TP ];
    try (apply (accounted_same w); [reflexivity .. | exact A]).
  - destruct A as [(L & _) | (L & A1 & A2 & A3)]; [wired_not_unwired |].
    right. step_simpl. rewrite !count_calls_app, length_app, !awaiting_app. cbn.
    split; [exact L |]. repeat split; lia.
  - destruct A as [(_ & F & A1 & A2 & A3) | (L' & _)];
      [| rewrite L' in L; discriminate L].
    left. step_simpl. repeat split; assumption.
  - destruct A as [(_ & F & A1 & A2 & A3) | (L' & _)];
      [| rewrite L' in L; discriminate L].
    right. step_simpl. rewrite L, F, A1, A2, A3. cbn.
    split; [reflexivity |]. repeat split; lia.
  - destruct A as [(_ & F & A1 & A2 & A3) | (L' & _)];
      [| rewrite L' in L; discriminate L].
    left. step_simpl. repeat split; assumption.
  - destruct A as [(L & _) | (L & A1 & A2 & A3)]; [wired_not_unwired |].
    right. step_simpl.
    rewrite (take_pending_awaiting awaits_capabilities _ _ _ _ TP) in A1.
    rewrite (take_pending_awaiting awaits_create _ _ _ _ TP) in A2.
    rewrite (take_pending_awaiting awaits_summarize _ _ _ _ TP) in A3.
    cbn in A1, A2, A3. split; [exact L |]. repeat split; lia.
  - destruct A as [(L & _) | (L & A1 & A2 & A3)]; [wired_not_unwired |].
    right. step_simpl. rewrite !count_calls_app, !awaiting_app.
    rewrite (take_pending_awaiting awaits_capabilities _ _ _ _ TP) in A1.
    rewrite (take_pending_awaiting awaits_create _ _ _ _ TP) in A2.
    rewrite (take_pending_awaiting awaits_summarize _ _ _ _ TP) in A3.
    cbn in A1, A2, A3 |- *. split; [exact L |]. repeat split; lia.
  - destruct A as [(L & _) | (L & A1 & A2 & A3)]; [wired_not_unwired |].
    right. step_simpl.
    rewrite (take_pending_awaiting awaits_capabilities _ _ _ _ TP) in A1.
    rewrite (take_pending_awaiting awaits_create _ _ _ _ TP) in A2.
    rewrite (take_pending_awaiting awaits_summarize _ _ _ _ TP) in A3.
    cbn in A1, A2, A3. split; [exact L |]. repeat split; lia.
  - destruct A as [(L & _) | (L & A1 & A2 & A3)]; [wired_not_unwired |].
    right. step_simpl. rewrite !count_calls_app, !awaiting_app.
    rewrite (take_pending_awaiting awaits_capabilities _ _ _ _ TP) in A1.
    rewrite (take_pending_awaiting awaits_create _ _ _ _ TP) in A2.
    rewrite (take_pending_awaiting awaits_summarize _ _ _ _ TP) in A3.
    cbn in A1, A2, A3 |- *. split; [exact L |]. repeat split; lia.
  - destruct A as [(L & _) | (L & A1 & A2 & A3)]; [wired_not_unwired |].
    right. step_simpl.
    rewrite (take_pending_awaiting awaits_capabilities _ _ _ _ TP) in A1.
    rewrite (take_pending_awaiting awaits_create _ _ _ _ TP) in A2.
    rewrite (take_pending_awaiting awaits_summarize _ _ _ _ TP) in A3.
    cbn in A1, A2, A3. split; [exact L |]. repeat split; lia.
  - destruct A as [(L & _) | (L & A1 & A2 & A3)]; [wired_not_unwired |].
    right. step_simpl. rewrite !count_calls_app.
    rewrite (take_pending_awaiting awaits_capabilities _ _ _ _ TP) in A1.
    rewrite (take_pending_awaiting awaits_create _ _ _ _ TP) in A2.
    rewrite (take_pending_awaiting awaits_summarize _ _ _ _ TP) in A3.
    cbn in A1, A2, A3 |- *. split; [exact L |]. repeat split; lia.
  - destruct A as [(L & _) | (L & A1 & A2 & A3)]; [wired_not_unwired |].
    right. step_simpl.
    rewrite (take_pending_awaiting awaits_capabilities _ _ _ _ TP) in A1.
    rewrite (take_pending_awaiting awaits_create _ _ _ _ TP) in A2.
    rewrite (take_pending_awaiting awaits_summarize _ _ _ _ TP) in A3.
    cbn in A1, A2, A3. split; [exact L |]. repeat split; lia.
Qed.

Lemma accounted_boot (t0 : N) (ai : option AI) (d : DOM) : accounted (boot t0 ai d).
Proof. left. destruct ai as [[[|]] |]; repeat split. Qed.

(** X1. In every world reachable from the page load, the host has been
    asked to create at most as many sessions as timers have run, to
    summarize at most as often as it was asked to create, and to destroy
    at most as often as it was asked to summarize. *)
Theorem session_calls_follow_firings
    (t0 : N) (ai : option AI) (d : DOM) (evs : list Event) :
  (count_calls is_destroy (calls (page (run evs (boot t0 ai d))))
   <= count_calls is_summarize (calls (page (run evs (boot t0 ai d)))))%nat
  /\ (count_calls is_summarize (calls (page (run evs (boot t0 ai d))))
      <= count_calls is_create (calls (page (run evs (boot t0 ai d)))))%nat
  /\ (count_calls is_create (calls (page (run evs (boot t0 ai d))))
      <= List.length (fired (page (run evs (boot t0 ai d)))))%nat.
Proof.
  pose proof (run_invariant accounted accounted_transition evs _
                (Inv_boot t0 ai d) (accounted_boot t0 ai d)) as A.
  destruct A as [(_ & F & A1 & A2 & A3) | (_ & A1 & A2 & A3)].
  - rewrite A1, A2, A3. repeat split; lia.
  - repeat split; lia.
Qed.

Lemma unmonitored_transition (ev : Event) (w w' : World) :
  Inv w -> Forall unmonitored (calls (page w)) -> transition ev w w' ->
  Forall unmonitored (calls (page w')).
Proof.
  intros _ A T.
  destruct T; step_simpl; try exact A;
    (apply Forall_app; split; [exact A | constructor; [exact I || reflexivity | constructor]]).
Qed.

(** X2. The script never asks for download progress: in every world
    reachable from the page load, every [create] call was made without a
    monitor, because line 80 supplies no listener. *)
Theorem sessions_created_without_monitor
    (t0 : N) (ai : option AI) (d : DOM) (evs : list Event) (o : AISummarizerCreateOptions) :
  In (CallCreate o) (calls (page (run evs (boot t0 ai d)))) -> co_monitor o = None.
Proof.
  intros H.
  assert (B : Forall unmonitored (calls (page (boot t0 ai d))))
    by (destruct ai as [[[|]] |]; repeat constructor).
  pose proof (run_invariant (fun w => Forall unmonitored (calls (page w)))
                unmonitored_transition evs _ (Inv_boot t0 ai d) B) as A.
  rewrite Forall_forall in A. exact (A _ H).
Qed.

Lemma sessions_created_without_monitor_witness :
  co_monitor {| co_type := "key-points"; co_format := "plain-text";
                co_length := "short"; co_monitor := None |} = None.
Proof.
  apply (sessions_created_without_monitor 0 with_summarizer sample_dom
           [ SettleCapabilities 0 (answer readily); UserInput "a"; Elapse 1000;
             SettleCapabilities 1 (answer readily) ]).
  vm_compute. right. right. left. reflexivity.
Defined.

(** ** Unhandled rejections *)

Lemma unhandled_transition (ev : Event) (w w' : World) :
  transition ev w w' ->
  unhandled w' = unhandled w
  \/ exists e, unhandled w' = unhandled w ++ [e] /\ causes ev e.
Proof.
  intros T. destruct T; try (left; reflexivity); right.
  - exists e. split; [reflexivity | left; reflexivity].
  - exists not_supported. split; [reflexivity |]. right. split; [reflexivity |].
    exists id, c. split; [reflexivity |].
    destruct c as [[| |]]; try discriminate. reflexivity.
  - exists e. split; [reflexivity | left; reflexivity].
  - exists e. split; [reflexivity | left; reflexivity].
  - exists e. split; [reflexivity | left; reflexivity].
Qed.

Lemma unhandled_run (evs : list Event) :
  forall (w : World) (e : Exn),
    Inv w -> In e (unhandled (run evs w)) ->
    In e (unhandled w) \/ exists ev, In ev evs /\ causes ev e.
Proof.
  induction evs as [| ev evs IH]; intros w e I H; cbn in H; [left; exact H |].
  destruct (IH _ e (Inv_step ev w I) H) as [H1 | (ev' & In' & C)].
  - destruct (unhandled_transition ev w _ (transition_step ev w I)) as [E | (e' & E & C)].
    + left. rewrite <- E. exact H1.
    + rewrite E in H1. apply in_app_or in H1 as [H1 | [<- | []]].
      * left. exact H1.
      * right. exists ev. split; [left; reflexivity | exact C].
  - right. exists ev'. split; [right; exact In' | exact C].
Qed.

(** X3. Every unhandled rejection of a run is caused by an answer of
    the host: either the host rejected a promise with that very reason,
    or it answered [no] to an availability query and the rejection is the
    error of line 41.  The script raises nothing else: in particular the
    non-null assertions on [window.ai.summarizer] never fail. *)
Theorem rejections_come_from_the_host
    (t0 : N) (ai : option AI) (d : DOM) (evs : list Event) (e : Exn) :
  In e (unhandled (run evs (boot t0 ai d))) ->
  exists ev, In ev evs /\ causes ev e.
Proof.
  intros H. destruct (unhandled_run evs _ e (Inv_boot t0 ai d) H) as [B | C]; [| exact C].
  exfalso. destruct ai as [[[|]] |]; exact B.
Qed.

Lemma rejections_come_from_the_host_witness :
  exists ev,
    In ev [ SettleCapabilities 0 (answer readily); UserInput "a"; Elapse 1000;
            SettleCapabilities 1 (answer no) ]
    /\ causes ev not_supported.
Proof.
  apply (rejections_come_from_the_host 0 with_summarizer sample_dom).
  vm_compute. left. reflexivity.
Defined.

(** ** The dialogs *)

Lemma count_feedback_dialogs (d : DOM) :
  summarizationUnsupportedDialog_display (count_feedback d) =
    summarizationUnsupportedDialog_display d
  /\ summarizationUnavailableDialog_display (count_feedback d) =
       summarizationUnavailableDialog_display d.
Proof.
  unfold count_feedback. cbn.
  destruct (MAX_MODEL_CHARS <? js_length (inputTextArea_value d))%N; split; reflexivity.
Qed.

Lemma dialogs_kept_transition (d : DOM) (ev : Event) (w w' : World) :
  Inv w -> dialogs_kept d w -> transition ev w w' -> dialogs_kept d w'.
Proof.
  intros _ [[P L] | D] T.
  - destruct T; try (left; split; assumption); try wired_not_unwired;
      try (rewrite P in *; discriminate).
  - destruct T; try (right; exact D).
    + right. destruct s; exact D.
    + right. destruct q as [text | s v]; cbn.
      * unfold dialogs_as. cbn. rewrite (proj1 (count_feedback_dialogs _)), (proj2 (count_feedback_dialogs _)). exact D.
      * destruct s; exact D.
    + left. split; [reflexivity | assumption].
Qed.

(** X4. Once the listeners are attached the script never shows a
    dialog: both dialogs are displayed as the document had them at load,
    also after a later availability re-check has answered [no]. *)
Theorem no_dialog_after_wiring
    (t0 : N) (ai : option AI) (d : DOM) (evs : list Event) :
  ready (run evs (boot t0 ai d)) ->
  summarizationUnsupportedDialog_display (dom (page (run evs (boot t0 ai d)))) =
    summarizationUnsupportedDialog_display d
  /\ summarizationUnavailableDialog_display (dom (page (run evs (boot t0 ai d)))) =
       summarizationUnavailableDialog_display d.
Proof.
  intros R.
  assert (B : dialogs_kept d (boot t0 ai d)).
  { destruct ai as [[[|]] |].
    - right. split; reflexivity.
    - left. split; reflexivity.
    - left. split; reflexivity. }
  destruct (run_invariant (dialogs_kept d) (dialogs_kept_transition d) evs _
              (Inv_boot t0 ai d) B) as [[_ L] | D]; [| exact D].
  unfold ready in R. rewrite L in R. discriminate R.
Qed.

Lemma no_dialog_after_wiring_witness :
  summarizationUnsupportedDialog_display
    (dom (page (run [ SettleCapabilities 0 (answer readily); UserInput "a"; Elapse 1000;
                      SettleCapabilities 1 (answer no) ]
                  (boot 0 with_summarizer sample_dom)))) = "none"
  /\ summarizationUnavailableDialog_display
       (dom (page (run [ SettleCapabilities 0 (answer readily); UserInput "a"; Elapse 1000;
                         SettleCapabilities 1 (answer no) ]
                     (boot 0 with_summarizer sample_dom)))) = "none".
Proof.
  apply (no_dialog_after_wiring 0 with_summarizer sample_dom
           [ SettleCapabilities 0 (answer readily); UserInput "a"; Elapse 1000;
             SettleCapabilities 1 (answer no) ]).
  reflexivity.
Defined.

(** ** The answer to the probe *)

Lemma frozen_displays (w w' : World) (d : DOM) :
  frozen w w' -> displays_as d w -> displays_as d w'.
Proof.
  unfold frozen, displays_as. intros F D.
  repeat match goal with H : _ /\ _ |- _ => destruct H end.
  repeat match goal with H : _ (dom (page w')) = _ |- _ => rewrite H end.
  repeat split; assumption.
Qed.

(** The world in which the probe is about to be settled. *)
Lemma before_probe_settles (t0 : N) (d : DOM) (before : list Event) :
  forallb user_or_time before = true ->
  pending (run before (boot t0 with_summarizer d)) = [(0%N, probeAndWire)]
  /\ frozen (boot t0 with_summarizer d) (run before (boot t0 with_summarizer d)).
Proof.
  intros U.
  assert (P0 : probing (boot t0 with_summarizer d))
    by (apply (probing_intro _ 0%N); reflexivity).
  destruct (probing_user_run before _ U P0) as [_ F].
  split; [| exact F]. destruct F as (E & _). rewrite E. reflexivity.
Qed.

(** X5. When the probe answers anything but [no] ([readily] or
    [after-download]), initialization attaches the four listeners and
    does nothing else: no dialog is shown, no timer is scheduled, the
    host is not called again.  What the user typed while the probe was
    outstanding is neither counted nor scheduled for summarization: the
    counter and its marks are as the document had them at load. *)
Theorem probe_success_wires
    (t0 : N) (d : DOM) (before : list Event) (a : AICapabilityAvailability) :
  forallb user_or_time before = true ->
  a <> no ->
  listeners (page (probed_world t0 d before (answer a))) = wired_listeners
  /\ timeout (page (probed_world t0 d before (answer a))) = None
  /\ timers (page (probed_world t0 d before (answer a))) = []
  /\ fired (page (probed_world t0 d before (answer a))) = []
  /\ pending (probed_world t0 d before (answer a)) = []
  /\ unhandled (probed_world t0 d before (answer a)) = []
  /\ calls (page (probed_world t0 d before (answer a))) = [CallCapabilities]
  /\ displays_as d (probed_world t0 d before (answer a)).
Proof.
  intros U NotNo. unfold probed_world. rewrite run_app.
  destruct (before_probe_settles t0 d before U) as [E F].
  set (w1 := run before (boot t0 with_summarizer d)) in *.
  assert (W : run [SettleCapabilities 0 (answer a)] w1 = with_page wire (set_pending [] w1)).
  { cbn. rewrite E. cbn. destruct a; try reflexivity. contradiction NotNo. reflexivity. }
  rewrite W.
  assert (D : displays_as d w1) by (apply (frozen_displays _ _ _ F); repeat split).
  destruct F as (_ & Un & L & T & _ & Fd & C & _).
  unfold wire. world_simpl. rewrite L, T, Fd, C, Un.
  repeat (split; [reflexivity |]). exact D.
Qed.

Lemma probe_success_wires_witness :
  listeners (page (probed_world 0 sample_dom [UserInput "early"] (answer after_download))) =
    wired_listeners
  /\ timers (page (probed_world 0 sample_dom [UserInput "early"] (answer after_download))) = []
  /\ characterCountSpan_textContent
       (dom (page (probed_world 0 sample_dom [UserInput "early"] (answer after_download)))) =
       "0".
Proof.
  destruct (probe_success_wires 0 sample_dom [UserInput "early"] after_download)
    as (L & _ & T & _ & _ & _ & _ & (D & _)).
  - reflexivity.
  - discriminate.
  - split; [exact L |]. split; [exact T | exact D].
Defined.

(** X6. When the probe is rejected, nothing handles the rejection and
    initialization ends there: no dialog is shown and no listener is
    attached.  Whatever happens afterwards, the page stays so: no
    listener, no timer, no further host call, and what the script displays
    is as the document had it at load. *)
Theorem probe_rejection_halts
    (t0 : N) (d : DOM) (before after : list Event) (e : Exn) :
  forallb user_or_time before = true ->
  unhandled (run after (probed_world t0 d before (Rejected e))) = [e]
  /\ listeners (page (run after (probed_world t0 d before (Rejected e)))) = []
  /\ timers (page (run after (probed_world t0 d before (Rejected e)))) = []
  /\ fired (page (run after (probed_world t0 d before (Rejected e)))) = []
  /\ pending (run after (probed_world t0 d before (Rejected e))) = []
  /\ calls (page (run after (probed_world t0 d before (Rejected e)))) = [CallCapabilities]
  /\ displays_as d (run after (probed_world t0 d before (Rejected e))).
Proof.
  intros U. unfold probed_world. rewrite run_app.
  destruct (before_probe_settles t0 d before U) as [E F].
  set (w1 := run before (boot t0 with_summarizer d)) in *.
  assert (W : run [SettleCapabilities 0 (Rejected e)] w1 =
              reject_unhandled e (set_pending [] w1)).
  { cbn. rewrite E. reflexivity. }
  rewrite W.
  assert (D : displays_as d w1) by (apply (frozen_displays _ _ _ F); repeat split).
  destruct F as (_ & Un & L & T & _ & Fd & C & _).
  assert (H : halted (reject_unhandled e (set_pending [] w1)))
    by (apply halted_intro; assumption || reflexivity).
  destruct (halted_run after _ H) as [(P3 & L3 & T3 & F3) Fz].
  pose proof (frozen_displays _ _ d Fz D) as D3.
  destruct Fz as (_ & Un3 & _ & _ & _ & _ & C3 & _).
  rewrite Un3, C3. world_simpl. rewrite Un, C.
  repeat (split; [assumption || reflexivity |]). exact D3.
Qed.

Lemma probe_rejection_halts_witness :
  unhandled (run [UserInput "later"; Elapse 5000]
               (probed_world 0 sample_dom [UserInput "early"]
                  (Rejected (DOMException "UnknownError" "probe failed")))) =
    [DOMException "UnknownError" "probe failed"]
  /\ calls (page (run [UserInput "later"; Elapse 5000]
                    (probed_world 0 sample_dom [UserInput "early"]
                       (Rejected (DOMException "UnknownError" "probe failed"))))) =
       [CallCapabilities].
Proof.
  destruct (probe_rejection_halts 0 sample_dom [UserInput "early"]
              [UserInput "later"; Elapse 5000]
              (DOMException "UnknownError" "probe failed"))
    as (Un & _ & _ & _ & _ & C & _).
  - reflexivity.
  - split; [exact Un | exact C].
Defined.

(** ** One summarization, step by step *)

Lemma typing_wired (qs : list Qualifying) :
  forall w, wired w -> wired (run (typing qs) w) /\ same_async w (run (typing qs) w).
Proof.
  induction qs as [| q qs IH]; intros w W; cbn.
  - split; [exact W | apply same_async_refl].
  - destruct (qualifying_step_wired q w W) as (W1 & A1 & _).
    destruct (IH _ W1) as [W2 A2].
    split; [exact W2 | exact (same_async_trans _ _ _ A1 A2)].
Qed.

(** The world in which [create] is about to be settled: the callback
    waits for it with the options read when the timer ran. *)
Lemma creating_world_closed (w : World) (ms id dl : N) (qs1 qs2 : list Qualifying)
    (c : AISummarizerCapabilities) :
  wired w ->
  timers (page w) =
    [{| timer_id := id; timer_deadline := dl; timer_callback := summarizeCallback_fn |}] ->
  (dl <= now (page w) + ms)%N ->
  available c <> no ->
  wired (creating_world w ms qs1 c qs2)
  /\ pending (creating_world w ms qs1 c qs2) =
       pending w ++
       [((next_promise w + 1)%N,
         at_create (summaryTypeSelect_value (dom (page w)))
                   (summaryFormatSelect_value (dom (page w)))
                   (summaryLengthSelect_value (dom (page w))))]
  /\ next_promise (creating_world w ms qs1 c qs2) = (next_promise w + 1 + 1)%N
  /\ calls (page (creating_world w ms qs1 c qs2)) =
       calls (page w) ++
       [ CallCapabilities;
         CallCreate (options_of (summaryTypeSelect_value (dom (page w)))
                                (summaryFormatSelect_value (dom (page w)))
                                (summaryLengthSelect_value (dom (page w)))) ]
  /\ fired (page (creating_world w ms qs1 c qs2)) = fired (page w) ++ [id]
  /\ unhandled (creating_world w ms qs1 c qs2) = unhandled w
  /\ output_textContent (dom (page (creating_world w ms qs1 c qs2))) =
       "Generating summary...".
Proof.
  intros W E Due NotNo. unfold creating_world.
  pose proof W as (_ & S & _ & Tr).
  set (t := summaryTypeSelect_value (dom (page w))).
  set (f := summaryFormatSelect_value (dom (page w))).
  set (l := summaryLengthSelect_value (dom (page w))).
  set (p := next_promise w).
  (* the timer runs *)
  assert (E0 : step (Elapse ms) w =
               suspend CallCapabilities (at_recheck t f l)
                 (with_page (callback_started ms id) w))
    by (cbn [step]; apply (elapse_due ms w id dl E Due S)).
  assert (W0 : wired (step (Elapse ms) w)) by apply wired_step, W.
  set (w0 := step (Elapse ms) w) in *.
  (* the user goes on *)
  destruct (typing_wired qs1 w0 W0) as (W1 & F1 & C1 & P1 & N1 & U1 & O1).
  set (w1 := run (typing qs1) w0) in *.
  pose proof W1 as (_ & S1 & _).
  (* the re-check resolves *)
  assert (T1 : take_pending p (pending w1) = Some (at_recheck t f l, pending w)).
  { rewrite P1, E0. cbn [pending suspend with_page]. apply take_pending_fresh, Tr. }
  assert (E2 : step (SettleCapabilities p (Fulfilled c)) w1 =
               suspend (CallCreate (options_of t f l)) (at_create t f l)
                 (set_pending (pending w) w1)).
  { rewrite (settle_recheck w1 p t f l _ _ T1 S1).
    destruct c as [[| |]]; cbn; try reflexivity. contradiction NotNo. reflexivity. }
  assert (W2 : wired (step (SettleCapabilities p (Fulfilled c)) w1)) by apply wired_step, W1.
  set (w2 := step (SettleCapabilities p (Fulfilled c)) w1) in *.
  (* the user goes on *)
  destruct (typing_wired qs2 w2 W2) as (W3 & F3 & C3 & P3 & N3 & U3 & O3).
  split; [exact W3 |].
  rewrite P3, N3, C3, F3, U3, O3, E2. world_simpl.
  rewrite N1, C1, F1, U1, O1, E0. unfold callback_started. world_simpl.
  rewrite <- app_assoc. repeat split.
Qed.

(** The world in which [summarize] is about to be settled: the callback
    waits for it, with the text read when [create] resolved. *)
Lemma summarizing_world_closed (w : World) (ms id dl : N) (qs1 qs2 : list Qualifying)
    (c : AISummarizerCapabilities) (s : AISummarizer) :
  wired w ->
  timers (page w) =
    [{| timer_id := id; timer_deadline := dl; timer_callback := summarizeCallback_fn |}] ->
  (dl <= now (page w) + ms)%N ->
  available c <> no ->
  take_pending (next_promise w + 1 + 1) (pending (summarizing_world w ms qs1 c qs2 s)) =
    Some (at_summarize s (inputTextArea_value (dom (page (creating_world w ms qs1 c qs2)))),
          pending w)
  /\ page (summarizing_world w ms qs1 c qs2 s) =
       log_call
         (CallSummarize s (inputTextArea_value (dom (page (creating_world w ms qs1 c qs2)))))
         (page (creating_world w ms qs1 c qs2))
  /\ unhandled (summarizing_world w ms qs1 c qs2 s) = unhandled w.
Proof.
  intros W E Due NotNo.
  destruct (creating_world_closed w ms id dl qs1 qs2 c W E Due NotNo)
    as (Wc & Pc & Nc & Cc & Fc & Uc & Oc).
  pose proof W as (_ & _ & _ & Tr).
  unfold summarizing_world.
  set (wc := creating_world w ms qs1 c qs2) in *.
  assert (T : take_pending (next_promise w + 1) (pending wc) =
              Some (at_create (summaryTypeSelect_value (dom (page w)))
                              (summaryFormatSelect_value (dom (page w)))
                              (summaryLengthSelect_value (dom (page w))),
                    pending w)).
  { rewrite Pc. apply take_pending_fresh, tracked_weaken, Tr. }
  rewrite (settle_create wc _ _ _ _ _ (Fulfilled s) T).
  world_simpl. rewrite Nc, Uc.
  split; [| split; reflexivity].
  apply take_pending_fresh, tracked_weaken, tracked_weaken, Tr.
Qed.

(** ** C3: the counter, the indicator, and the summarization of any text *)

(** With no event in between, the text the callback reads when [create]
    resolves is the text of the world in which the timer ran. *)
Lemma creating_world_text (w : World) (ms id dl : N) (c : AISummarizerCapabilities) :
  wired w ->
  timers (page w) =
    [{| timer_id := id; timer_deadline := dl; timer_callback := summarizeCallback_fn |}] ->
  (dl <= now (page w) + ms)%N ->
  available c <> no ->
  inputTextArea_value (dom (page (creating_world w ms [] c []))) =
    inputTextArea_value (dom (page w)).
Proof.
  intros W E Due NotNo. pose proof W as (_ & S & _ & Tr).
  unfold creating_world, typing. cbn [map run fold_left].
  assert (E0 : step (Elapse ms) w =
               suspend CallCapabilities (recheck_of (page w))
                 (with_page (callback_started ms id) w))
    by (cbn [step]; apply (elapse_due ms w id dl E Due S)).
  assert (T1 : take_pending (next_promise w) (pending (step (Elapse ms) w)) =
               Some (recheck_of (page w), pending w)).
  { rewrite E0. cbn [pending suspend with_page]. apply take_pending_fresh, Tr. }
  rewrite (settle_recheck _ _ _ _ _ _ (Fulfilled c) T1) by (rewrite E0; exact S).
  destruct c as [[| |]]; cbn [is_no available];
    try (exfalso; apply NotNo; reflexivity);
    rewrite E0; reflexivity.
Qed.

(** C3. On an input event of a page whose listeners are attached, the
    counter shows the length of the text in decimal, the over-limit
    indicator is hidden exactly when that length is at most 4000 (and the
    counter is marked exactly when it is greater).  Whatever the length,
    the summarization is attempted: one timer is scheduled, due 1000 ms
    later; when it runs it queries availability, and once the host has
    answered anything but [no] and created the session, the whole text is
    passed to [summarize]. *)
Theorem character_count_feedback (w : World) (text : string) :
  reachable w -> ready w ->
  characterCountSpan_textContent (dom (page (step (UserInput text) w))) =
    toFixed (js_length text)
  /\ read_decimal (characterCountSpan_textContent (dom (page (step (UserInput text) w)))) =
       Some (js_length text)
  /\ (In "hidden"
        (characterCountExceededSpan_classList (dom (page (step (UserInput text) w))))
      <-> (js_length text <= 4000)%N)
  /\ (In "tokens-exceeded"
        (characterCountSpan_classList (dom (page (step (UserInput text) w))))
      <-> (4000 < js_length text)%N)
  /\ timers (page (step (UserInput text) w)) =
       [{| timer_id := next_handle (page w);
           timer_deadline := (now (page w) + 1000)%N;
           timer_callback := summarizeCallback_fn |}]
  /\ fired (page (step (Elapse 1000) (step (UserInput text) w))) =
       fired (page w) ++ [next_handle (page w)]
  /\ calls (page (step (Elapse 1000) (step (UserInput text) w))) =
       calls (page w) ++ [CallCapabilities]
  /\ (forall (c : AISummarizerCapabilities) (s : AISummarizer),
        available c <> no ->
        calls (page (run [ Elapse 1000;
                           SettleCapabilities (next_promise w) (Fulfilled c);
                           SettleCreate (next_promise w + 1) (Fulfilled s) ]
                       (step (UserInput text) w))) =
          calls (page w) ++
          [ CallCapabilities;
            CallCreate {| co_type := summaryTypeSelect_value (dom (page w));
                          co_format := summaryFormatSelect_value (dom (page w));
                          co_length := summaryLengthSelect_value (dom (page w));
                          co_monitor := None |};
            CallSummarize s text ]).
Proof.
  intros R Rd. pose proof (ready_wired w R Rd) as W.
  pose proof W as (L & S & T & _).
  destruct (qualifying_step_wired (TextInput text) w W) as (W' & A' & E' & D').
  cbn [qualifying_event] in W', A', E', D'.
  assert (Sum : forall (c : AISummarizerCapabilities) (s : AISummarizer),
             available c <> no ->
             calls (page (run [ Elapse 1000;
                                SettleCapabilities (next_promise w) (Fulfilled c);
                                SettleCreate (next_promise w + 1) (Fulfilled s) ]
                            (step (UserInput text) w))) =
               calls (page w) ++
               [ CallCapabilities;
                 CallCreate {| co_type := summaryTypeSelect_value (dom (page w));
                               co_format := summaryFormatSelect_value (dom (page w));
                               co_length := summaryLengthSelect_value (dom (page w));
                               co_monitor := None |};
                 CallSummarize s text ]).
  { intros c s NotNo.
    destruct A' as (_ & Cs & _ & Np & _).
    set (w' := step (UserInput text) w) in *.
    assert (Due : (now (page w') + 1000 <= now (page w') + 1000)%N) by lia.
    change (run [ Elapse 1000;
                  SettleCapabilities (next_promise w) (Fulfilled c);
                  SettleCreate (next_promise w + 1) (Fulfilled s) ] w')
      with (step (SettleCreate (next_promise w + 1) (Fulfilled s))
              (step (SettleCapabilities (next_promise w) (Fulfilled c))
                 (step (Elapse 1000) w'))).
    rewrite <- Np.
    change (step (SettleCreate (next_promise w' + 1) (Fulfilled s))
              (step (SettleCapabilities (next_promise w') (Fulfilled c))
                 (step (Elapse 1000) w')))
      with (summarizing_world w' 1000 [] c [] s).
    destruct (summarizing_world_closed w' 1000 _ _ [] [] c s W' E' Due NotNo) as (_ & P & _).
    destruct (creating_world_closed w' 1000 _ _ [] [] c W' E' Due NotNo)
      as (_ & _ & _ & Cc & _).
    rewrite P. cbn [calls log_call].
    rewrite (creating_world_text w' 1000 _ _ c W' E' Due NotNo), Cc, Cs, D'.
    assert (V : inputTextArea_value (qualifying_dom (TextInput text) (dom (page w))) = text)
      by exact (qualifying_dom_shows (TextInput text) (dom (page w))).
    rewrite V. unfold options_of. cbn [qualifying_dom].
    unfold count_feedback.
    cbn [inputTextArea_value set_inputTextArea_value set_characterCountSpan_textContent].
    rewrite <- app_assoc.
    destruct (MAX_MODEL_CHARS <? js_length text)%N; reflexivity. }
  repeat match goal with |- _ /\ _ => split end; try exact Sum;
    change (UserInput text) with (qualifying_event (TextInput text));
    rewrite qualifying_step by assumption;
    set (w' := with_page _ w);
    assert (D : dom (page w') = count_feedback (set_inputTextArea_value text (dom (page w))))
      by reflexivity;
    assert (E : timers (page w') =
                [{| timer_id := next_handle (page w);
                    timer_deadline := (now (page w) + 1000)%N;
                    timer_callback := summarizeCallback_fn |}]) by reflexivity;
    try (cbn [step]; rewrite (elapse_due 1000 w' _ _ E) by (cbn; (lia || exact S)));
    try rewrite D; try reflexivity;
    unfold count_feedback;
    cbn [inputTextArea_value set_inputTextArea_value set_characterCountSpan_textContent];
    unfold MAX_MODEL_CHARS;
    destruct (N.ltb_spec 4000 (js_length text)) as [Over | Within]; cbn;
    try reflexivity; try apply read_decimal_toFixed;
    try (split; [intros H; apply classList_remove_not_In in H; contradiction | lia]);
    try (split; [intros _; assumption | intros _; apply classList_add_In]).
Qed.

(** A text over the limit is counted, marked, and summarized whole. *)
Lemma character_count_feedback_witness :
  characterCountSpan_textContent
    (dom (page (step (UserInput (text_of_length 4001)) sample_ready))) = "4001"
  /\ (In "hidden"
        (characterCountExceededSpan_classList
           (dom (page (step (UserInput (text_of_length 4001)) sample_ready))))
      <-> (js_length (text_of_length 4001) <= 4000)%N)
  /\ calls (page (run [ Elapse 1000;
                        SettleCapabilities 1 (answer readily);
                        SettleCreate 2 (Fulfilled 7%N) ]
                    (step (UserInput (text_of_length 4001)) sample_ready))) =
       [ CallCapabilities;
         CallCapabilities;
         CallCreate {| co_type := "key-points"; co_format := "plain-text";
                       co_length := "short"; co_monitor := None |};
         CallSummarize 7%N (text_of_length 4001) ].
Proof.
  destruct (character_count_feedback sample_ready (text_of_length 4001))
    as (T & _ & H & _ & _ & _ & _ & Sum).
  - apply sample_ready_reachable.
  - reflexivity.
  - split; [rewrite T; vm_compute; reflexivity |]. split; [exact H |].
    apply (Sum {| available := readily |} 7%N). discriminate.
Defined.

(** X7. The options of a summarization are read when its timer runs and
    its text when [create] resolves.  Whatever the user types or selects
    after the timer has run, the session is created with the options the
    document had when it ran; the text summarized is the text the document
    holds at the moment [create] resolves, later input included. *)
Theorem options_read_at_firing_text_at_creation
    (w : World) (ms id dl : N) (qs1 qs2 : list Qualifying)
    (c : AISummarizerCapabilities) (s : AISummarizer) :
  reachable w -> ready w ->
  timers (page w) =
    [{| timer_id := id; timer_deadline := dl; timer_callback := summarizeCallback_fn |}] ->
  (dl <= now (page w) + ms)%N ->
  available c <> no ->
  calls (page (summarizing_world w ms qs1 c qs2 s)) =
    calls (page w) ++
    [ CallCapabilities;
      CallCreate (options_of (summaryTypeSelect_value (dom (page w)))
                             (summaryFormatSelect_value (dom (page w)))
                             (summaryLengthSelect_value (dom (page w))));
      CallSummarize s (inputTextArea_value (dom (page (creating_world w ms qs1 c qs2)))) ].
Proof.
  intros R Rd E Due NotNo. pose proof (ready_wired w R Rd) as W.
  destruct (summarizing_world_closed w ms id dl qs1 qs2 c s W E Due NotNo) as (_ & P & _).
  destruct (creating_world_closed w ms id dl qs1 qs2 c W E Due NotNo)
    as (_ & _ & _ & Cc & _).
  rewrite P. cbn [calls log_call]. rewrite Cc, <- app_assoc. reflexivity.
Qed.

Lemma options_read_at_firing_text_at_creation_witness :
  calls (page (summarizing_world sample_scheduled 1000
                 [OptionChange length_select "long"] {| available := readily |}
                 [TextInput "Hello world, again"] 7%N)) =
    [ CallCapabilities;
      CallCapabilities;
      CallCreate (options_of "key-points" "plain-text" "short");
      CallSummarize 7%N "Hello world, again" ].
Proof.
  apply (options_read_at_firing_text_at_creation sample_scheduled 1000 1 1000
           [OptionChange length_select "long"] [TextInput "Hello world, again"]
           {| available := readily |} 7%N).
  - apply sample_scheduled_reachable.
  - reflexivity.
  - reflexivity.
  - vm_compute. discriminate.
  - discriminate.
Defined.

(** X8. When [create] is rejected, nothing handles the rejection: the
    callback ends there, the page is left as it was (the output still
    shows the placeholder), nothing is summarized or destroyed, and the
    reason is an unhandled rejection. *)
Theorem create_rejection_is_unhandled
    (w : World) (ms id dl : N) (qs1 qs2 : list Qualifying)
    (c : AISummarizerCapabilities) (e : Exn) :
  reachable w -> ready w ->
  timers (page w) =
    [{| timer_id := id; timer_deadline := dl; timer_callback := summarizeCallback_fn |}] ->
  (dl <= now (page w) + ms)%N ->
  available c <> no ->
  page (step (SettleCreate (next_promise w + 1) (Rejected e))
          (creating_world w ms qs1 c qs2)) =
    page (creating_world w ms qs1 c qs2)
  /\ output_textContent
       (dom (page (step (SettleCreate (next_promise w + 1) (Rejected e))
                     (creating_world w ms qs1 c qs2)))) = "Generating summary..."
  /\ calls (page (step (SettleCreate (next_promise w + 1) (Rejected e))
                    (creating_world w ms qs1 c qs2))) =
       calls (page w) ++
       [ CallCapabilities;
         CallCreate (options_of (summaryTypeSelect_value (dom (page w)))
                                (summaryFormatSelect_value (dom (page w)))
                                (summaryLengthSelect_value (dom (page w)))) ]
  /\ unhandled (step (SettleCreate (next_promise w + 1) (Rejected e))
                  (creating_world w ms qs1 c qs2)) = unhandled w ++ [e]
  /\ pending (step (SettleCreate (next_promise w + 1) (Rejected e))
                (creating_world w ms qs1 c qs2)) = pending w.
Proof.
  intros R Rd E Due NotNo. pose proof (ready_wired w R Rd) as W.
  destruct (creating_world_closed w ms id dl qs1 qs2 c W E Due NotNo)
    as (Wc & Pc & Nc & Cc & Fc & Uc & Oc).
  pose proof W as (_ & _ & _ & Tr).
  set (wc := creating_world w ms qs1 c qs2) in *.
  assert (T : take_pending (next_promise w + 1) (pending wc) =
              Some (at_create (summaryTypeSelect_value (dom (page w)))
                              (summaryFormatSelect_value (dom (page w)))
                              (summaryLengthSelect_value (dom (page w))),
                    pending w)).
  { rewrite Pc. apply take_pending_fresh, tracked_weaken, Tr. }
  rewrite (settle_create wc _ _ _ _ _ (Rejected e) T). world_simpl.
  rewrite Oc, Cc, Uc. repeat split.
Qed.

Lemma create_rejection_is_unhandled_witness :
  output_textContent
    (dom (page (step (SettleCreate 2 (Rejected (DOMException "NotSupportedError" "no model")))
                  (creating_world sample_scheduled 1000 [] {| available := readily |} [])))) =
    "Generating summary..."
  /\ unhandled (step (SettleCreate 2 (Rejected (DOMException "NotSupportedError" "no model")))
                  (creating_world sample_scheduled 1000 [] {| available := readily |} [])) =
       [DOMException "NotSupportedError" "no model"].
Proof.
  destruct (create_rejection_is_unhandled sample_scheduled 1000 1 1000 [] []
              {| available := readily |} (DOMException "NotSupportedError" "no model"))
    as (_ & O & _ & U & _).
  - apply sample_scheduled_reachable.
  - reflexivity.
  - reflexivity.
  - vm_compute. discriminate.
  - discriminate.
  - split; [exact O | exact U].
Defined.

(** X9. When [summarize] is rejected, nothing handles the rejection and
    the session is not destroyed: the callback ends before line 86, the
    page is left as it was (the output still shows the placeholder), and
    the trace of this summarization is the re-check, [create] and
    [summarize], with no [destroy]. *)
Theorem summarize_rejection_leaks_session
    (w : World) (ms id dl : N) (qs1 qs2 : list Qualifying)
    (c : AISummarizerCapabilities) (s : AISummarizer) (e : Exn) :
  reachable w -> ready w ->
  timers (page w) =
    [{| timer_id := id; timer_deadline := dl; timer_callback := summarizeCallback_fn |}] ->
  (dl <= now (page w) + ms)%N ->
  available c <> no ->
  page (step (SettleSummarize (next_promise w + 1 + 1) (Rejected e))
          (summarizing_world w ms qs1 c qs2 s)) =
    page (summarizing_world w ms qs1 c qs2 s)
  /\ output_textContent
       (dom (page (step (SettleSummarize (next_promise w + 1 + 1) (Rejected e))
                     (summarizing_world w ms qs1 c qs2 s)))) = "Generating summary..."
  /\ calls (page (step (SettleSummarize (next_promise w + 1 + 1) (Rejected e))
                    (summarizing_world w ms qs1 c qs2 s))) =
       calls (page w) ++
       [ CallCapabilities;
         CallCreate (options_of (summaryTypeSelect_value (dom (page w)))
                                (summaryFormatSelect_value (dom (page w)))
                                (summaryLengthSelect_value (dom (page w))));
         CallSummarize s (inputTextArea_value (dom (page (creating_world w ms qs1 c qs2)))) ]
  /\ unhandled (step (SettleSummarize (next_promise w + 1 + 1) (Rejected e))
                  (summarizing_world w ms qs1 c qs2 s)) = unhandled w ++ [e]
  /\ pending (step (SettleSummarize (next_promise w + 1 + 1) (Rejected e))
                (summarizing_world w ms qs1 c qs2 s)) = pending w.
Proof.
  intros R Rd E Due NotNo. pose proof (ready_wired w R Rd) as W.
  destruct (summarizing_world_closed w ms id dl qs1 qs2 c s W E Due NotNo) as (T & P & U).
  destruct (creating_world_closed w ms id dl qs1 qs2 c W E Due NotNo)
    as (_ & _ & _ & Cc & _ & _ & Oc).
  rewrite (settle_summarize _ _ _ _ _ (Rejected e) T). world_simpl.
  rewrite U, P. cbn [calls log_call dom]. rewrite Cc, Oc, <- app_assoc.
  repeat split.
Qed.

Lemma summarize_rejection_leaks_session_witness :
  calls (page (step (SettleSummarize 3 (Rejected (DOMException "UnknownError" "failed")))
                 (summarizing_world sample_scheduled 1000 [] {| available := readily |} []
                    7%N))) =
    [ CallCapabilities;
      CallCapabilities;
      CallCreate (options_of "key-points" "plain-text" "short");
      CallSummarize 7%N "Hello world" ]
  /\ unhandled (step (SettleSummarize 3 (Rejected (DOMException "UnknownError" "failed")))
                  (summarizing_world sample_scheduled 1000 [] {| available := readily |} []
                     7%N)) =
       [DOMException "UnknownError" "failed"].
Proof.
  destruct (summarize_rejection_leaks_session sample_scheduled 1000 1 1000 [] []
              {| available := readily |} 7%N (DOMException "UnknownError" "failed"))
    as (_ & _ & C & U & _).
  - apply sample_scheduled_reachable.
  - reflexivity.
  - reflexivity.
  - vm_compute. discriminate.
  - discriminate.
  - split; [exact C | exact U].
Defined.

(** X10. When the host answers all three calls, the summarization ends
    by destroying its session and then displaying the summary: its trace
    is the re-check, [create], [summarize] and [destroy] of the session
    created, the output shows the summary, nothing is rejected, and the
    callback is no longer suspended. *)
Theorem summarization_completes
    (w : World) (ms id dl : N) (qs1 qs2 : list Qualifying)
    (c : AISummarizerCapabilities) (s : AISummarizer) (summary : string) :
  reachable w -> ready w ->
  timers (page w) =
    [{| timer_id := id; timer_deadline := dl; timer_callback := summarizeCallback_fn |}] ->
  (dl <= now (page w) + ms)%N ->
  available c <> no ->
  calls (page (step (SettleSummarize (next_promise w + 1 + 1) (Fulfilled summary))
                 (summarizing_world w ms qs1 c qs2 s))) =
    calls (page w) ++
    [ CallCapabilities;
      CallCreate (options_of (summaryTypeSelect_value (dom (page w)))
                             (summaryFormatSelect_value (dom (page w)))
                             (summaryLengthSelect_value (dom (page w))));
      CallSummarize s (inputTextArea_value (dom (page (creating_world w ms qs1 c qs2))));
      CallDestroy s ]
  /\ output_textContent
       (dom (page (step (SettleSummarize (next_promise w + 1 + 1) (Fulfilled summary))
                     (summarizing_world w ms qs1 c qs2 s)))) = summary
  /\ unhandled (step (SettleSummarize (next_promise w + 1 + 1) (Fulfilled summary))
                  (summarizing_world w ms qs1 c qs2 s)) = unhandled w
  /\ pending (step (SettleSummarize (next_promise w + 1 + 1) (Fulfilled summary))
                (summarizing_world w ms qs1 c qs2 s)) = pending w.
Proof.
  intros R Rd E Due NotNo. pose proof (ready_wired w R Rd) as W.
  destruct (summarizing_world_closed w ms id dl qs1 qs2 c s W E Due NotNo) as (T & P & U).
  destruct (creating_world_closed w ms id dl qs1 qs2 c W E Due NotNo)
    as (_ & _ & _ & Cc & _).
  rewrite (settle_summarize _ _ _ _ _ (Fulfilled summary) T). world_simpl.
  rewrite U, P. cbn [calls log_call dom output_textContent set_output_textContent].
  rewrite Cc, <- !app_assoc. repeat split.
Qed.

Lemma summarization_completes_witness :
  calls (page (step (SettleSummarize 3 (Fulfilled "A summary."))
                 (summarizing_world sample_scheduled 1000 [] {| available := after_download |}
                    [TextInput "Hello"] 7%N))) =
    [ CallCapabilities;
      CallCapabilities;
      CallCreate (options_of "key-points" "plain-text" "short");
      CallSummarize 7%N "Hello";
      CallDestroy 7%N ]
  /\ output_textContent
       (dom (page (step (SettleSummarize 3 (Fulfilled "A summary."))
                     (summarizing_world sample_scheduled 1000 []
                        {| available := after_download |} [TextInput "Hello"] 7%N)))) =
       "A summary.".
Proof.
  destruct (summarization_completes sample_scheduled 1000 1 1000 [] [TextInput "Hello"]
              {| available := after_download |} 7%N "A summary.")
    as (C & O & _).
  - apply sample_scheduled_reachable.
  - reflexivity.
  - reflexivity.
  - vm_compute. discriminate.
  - discriminate.
  - split; [exact C | exact O].
Defined.

(** ** Two summarizations at once *)

Lemma NoDup_snoc (x : N) (l : list N) : NoDup l -> ~ In x l -> NoDup (l ++ [x]).
Proof.
  induction 1 as [| y l Hy ND IH]; intros Hx; cbn.
  - constructor; [intros [] | constructor].
  - constructor.
    + intros H. apply in_app_or in H as [H | [<- | []]]; [exact (Hy H) |].
      apply Hx. left. reflexivity.
    + apply IH. intros H. apply Hx. right. exact H.
Qed.

Lemma take_pending_In (id : N) (l : list (N * Async unit)) (m : Async unit)
    (rest : list (N * Async unit)) :
  take_pending id l = Some (m, rest) -> forall x, In x rest -> In x l.
Proof.
  revert rest. induction l as [| [i y] l IH]; intros rest T x Hx; [discriminate |].
  cbn in T. destruct (i =? id)%N.
  - inversion T; subst. right. exact Hx.
  - destruct (take_pending id l) as [[m' r'] |]; [| discriminate].
    inversion T; subst. destruct Hx as [<- | Hx]; [left; reflexivity |].
    right. exact (IH r' eq_refl x Hx).
Qed.

Lemma take_pending_NoDup (id : N) (l : list (N * Async unit)) (m : Async unit)
    (rest : list (N * Async unit)) :
  take_pending id l = Some (m, rest) ->
  NoDup (map fst l) -> NoDup (map fst rest).
Proof.
  revert rest. induction l as [| [i y] l IH]; intros rest T ND; [discriminate |].
  cbn in T. inversion ND as [| ? ? Hi ND']; subst. destruct (i =? id)%N.
  - inversion T; subst. exact ND'.
  - destruct (take_pending id l) as [[m' r'] |] eqn:T'; [| discriminate].
    inversion T; subst. cbn. constructor; [| exact (IH r' eq_refl ND')].
    intros H. apply Hi. apply in_map_iff in H as ([j z] & <- & Hz).
    apply in_map_iff. exists (j, z). split; [reflexivity |].
    exact (take_pending_In _ _ _ _ T' _ Hz).
Qed.

(** With distinct identifiers, a suspended function is found by the
    promise it waits for, and the others stay suspended. *)
Lemma take_pending_found (id : N) (m : Async unit) (l : list (N * Async unit)) :
  NoDup (map fst l) -> In (id, m) l ->
  exists rest,
    take_pending id l = Some (m, rest)
    /\ forall j m', j <> id -> In (j, m') l -> In (j, m') rest.
Proof.
  induction l as [| [i y] l IH]; intros ND H; [destruct H |].
  inversion ND as [| ? ? Hi ND']; subst. cbn.
  destruct (N.eqb_spec i id) as [-> | Hne].
  - destruct H as [H | H].
    + inversion H; subst. exists l. split; [reflexivity |].
      intros j m' Hj [E | Hin]; [inversion E; subst; contradiction | exact Hin].
    + exfalso. apply Hi. apply in_map_iff. exists (id, m). split; [reflexivity | exact H].
  - destruct H as [H | H]; [inversion H; subst; contradiction |].
    destruct (IH ND' H) as (rest & T & Keep). rewrite T.
    exists ((i, y) :: rest). split; [reflexivity |].
    intros j m' Hj [E | Hin]; [left; exact E | right; exact (Keep j m' Hj Hin)].
Qed.

Lemma suspended_fresh (np : N) (m : Async unit) (l : list (N * Async unit)) :
  NoDup (map fst l) -> Forall (tracked np) l -> NoDup (map fst (l ++ [(np, m)])).
Proof.
  intros ND F. rewrite map_app. apply NoDup_snoc; [exact ND |].
  intros H. apply in_map_iff in H as ([j z] & E & Hz). cbn in E. subst j.
  rewrite Forall_forall in F. destruct (F _ Hz) as [_ Lt]. cbn in Lt. lia.
Qed.

Lemma pending_ids_transition (ev : Event) (w w' : World) :
  Inv w -> NoDup (map fst (pending w)) -> transition ev w w' ->
  NoDup (map fst (pending w')).
Proof.
  intros _ ND T.
  destruct T as
    [ text w L | s v w L | q w W | ms w Early | ms id dl w W E Due | ev w St
    | id c w P L No | id c w P L No | id e w P L
    | id t f l rest c w W TP No | id t f l rest c w W TP No | id t f l rest e w W TP
    | id t f l rest s w W TP | id t f l rest e w W TP
    | id s x rest summary w W TP | id s x rest e w W TP ];
    world_simpl; try exact ND; try constructor;
    try (exact (take_pending_NoDup _ _ _ _ TP ND)).
  - destruct W as (_ & _ & _ & Tr). apply suspended_fresh; assumption.
  - destruct W as (_ & _ & _ & Tr).
    apply suspended_fresh; [exact (take_pending_NoDup _ _ _ _ TP ND) |].
    exact (proj2 (take_pending_Forall _ _ _ _ _ TP Tr)).
  - destruct W as (_ & _ & _ & Tr).
    apply suspended_fresh; [exact (take_pending_NoDup _ _ _ _ TP ND) |].
    exact (proj2 (take_pending_Forall _ _ _ _ _ TP Tr)).
Qed.

Lemma pending_ids_distinct (w : World) : reachable w -> NoDup (map fst (pending w)).
Proof.
  intros (t0 & ai & d & evs & ->).
  apply (run_invariant (fun w => NoDup (map fst (pending w))) pending_ids_transition);
    [apply Inv_boot |].
  destruct ai as [[[|]] |]; cbn; repeat constructor. intros [].
Qed.

Lemma settle_two (w : World) (i j : N) (s1 s2 : AISummarizer) (x1 x2 a b : string) :
  NoDup (map fst (pending w)) ->
  In (i, at_summarize s1 x1) (pending w) ->
  In (j, at_summarize s2 x2) (pending w) ->
  i <> j ->
  output_textContent (dom (page (both_settled w i a j b))) = b
  /\ calls (page (both_settled w i a j b)) =
       calls (page w) ++ [CallDestroy s1; CallDestroy s2].
Proof.
  intros ND H1 H2 Hij.
  destruct (take_pending_found i _ _ ND H1) as (rest1 & T1 & Keep).
  pose proof (take_pending_NoDup _ _ _ _ T1 ND) as ND1.
  assert (H2' : In (j, at_summarize s2 x2) rest1)
    by (apply Keep; [intros E; apply Hij; symmetry; exact E | exact H2]).
  destruct (take_pending_found j _ _ ND1 H2') as (rest2 & T2 & _).
  unfold both_settled, run. cbn [fold_left].
  rewrite (settle_summarize w i s1 x1 rest1 (Fulfilled a) T1).
  set (w1 := with_page _ (set_pending rest1 w)).
  assert (T2' : take_pending j (pending w1) = Some (at_summarize s2 x2, rest2)) by exact T2.
  rewrite (settle_summarize w1 j s2 x2 rest2 (Fulfilled b) T2').
  unfold w1. world_simpl. cbn [output_textContent set_output_textContent].
  rewrite <- app_assoc. split; reflexivity.
Qed.

(** X11. When two summarizations wait for their summaries at once, the
    output ends up showing the summary that arrives last, whichever of the
    two it belongs to, and each session is destroyed when its own summary
    arrives. *)
Theorem last_settled_summary_is_displayed
    (w : World) (i j : N) (s1 s2 : AISummarizer) (x1 x2 a b : string) :
  reachable w ->
  In (i, at_summarize s1 x1) (pending w) ->
  In (j, at_summarize s2 x2) (pending w) ->
  i <> j ->
  output_textContent (dom (page (both_settled w i a j b))) = b
  /\ calls (page (both_settled w i a j b)) =
       calls (page w) ++ [CallDestroy s1; CallDestroy s2]
  /\ output_textContent (dom (page (both_settled w j b i a))) = a
  /\ calls (page (both_settled w j b i a)) =
       calls (page w) ++ [CallDestroy s2; CallDestroy s1].
Proof.
  intros R H1 H2 Hij. pose proof (pending_ids_distinct w R) as ND.
  destruct (settle_two w i j s1 s2 x1 x2 a b ND H1 H2 Hij) as [O1 C1].
  destruct (settle_two w j i s2 s1 x2 x1 b a ND H2 H1) as [O2 C2].
  - intros E. apply Hij. symmetry. exact E.
  - repeat split; assumption.
Qed.

Lemma reachable_after (evs : list Event) (w : World) :
  reachable w -> reachable (run evs w).
Proof.
  intros (t0 & ai & d & evs0 & ->).
  exists t0, ai, d, (evs0 ++ evs). symmetry. apply run_app.
Defined.

Lemma two_summarizing_reachable : reachable two_summarizing.
Proof.
  apply reachable_after, reachable_after, sample_ready_reachable.
Defined.

Lemma last_settled_summary_is_displayed_witness :
  output_textContent
    (dom (page (both_settled two_summarizing 6 "Summary of ab" 3 "Summary of a"))) =
    "Summary of a"
  /\ output_textContent
       (dom (page (both_settled two_summarizing 3 "Summary of a" 6 "Summary of ab"))) =
       "Summary of ab".
Proof.
  destruct (last_settled_summary_is_displayed two_summarizing 3 6 7%N 8%N "a" "ab"
              "Summary of a" "Summary of ab")
    as (O1 & _ & O2 & _).
  - apply two_summarizing_reachable.
  - vm_compute. left. reflexivity.
  - vm_compute. right. left. reflexivity.
  - discriminate.
  - split; [exact O2 | exact O1].
Defined.

(** ** What user events leave alone *)

Lemma classList_add_other (c c' : string) (l : list string) :
  c' <> c -> (In c' (classList_add c l) <-> In c' l).
Proof.
  intros Hne. unfold classList_add. destruct (classList_contains c l); [reflexivity |].
  split; intros H.
  - apply in_app_or in H as [H | [E | []]]; [exact H | subst; contradiction].
  - apply in_or_app. left. exact H.
Qed.

Lemma classList_remove_other (c c' : string) (l : list string) :
  c' <> c -> (In c' (classList_remove c l) <-> In c' l).
Proof.
  intros Hne. unfold classList_remove. rewrite filter_In. split.
  - intros [H _]. exact H.
  - intros H. split; [exact H |].
    destruct (String.eqb_spec c c'); [subst; contradiction | reflexivity].
Qed.

(** X12. The [input] listener touches nothing but the counter's text,
    the mark [tokens-exceeded] on the counter and the mark [hidden] on the
    indicator: every other class of the two elements is kept, and the
    selectors, the dialogs and the output are as they were. *)
Theorem input_listener_touches_only_its_marks (w : World) (text : string) :
  reachable w -> ready w ->
  (forall c, c <> "hidden" ->
     (In c (characterCountExceededSpan_classList (dom (page (step (UserInput text) w))))
      <-> In c (characterCountExceededSpan_classList (dom (page w)))))
  /\ (forall c, c <> "tokens-exceeded" ->
        (In c (characterCountSpan_classList (dom (page (step (UserInput text) w))))
         <-> In c (characterCountSpan_classList (dom (page w)))))
  /\ inputTextArea_value (dom (page (step (UserInput text) w))) = text
  /\ summaryTypeSelect_value (dom (page (step (UserInput text) w))) =
       summaryTypeSelect_value (dom (page w))
  /\ summaryFormatSelect_value (dom (page (step (UserInput text) w))) =
       summaryFormatSelect_value (dom (page w))
  /\ summaryLengthSelect_value (dom (page (step (UserInput text) w))) =
       summaryLengthSelect_value (dom (page w))
  /\ summarizationUnsupportedDialog_display (dom (page (step (UserInput text) w))) =
       summarizationUnsupportedDialog_display (dom (page w))
  /\ summarizationUnavailableDialog_display (dom (page (step (UserInput text) w))) =
       summarizationUnavailableDialog_display (dom (page w))
  /\ output_textContent (dom (page (step (UserInput text) w))) =
       output_textContent (dom (page w)).
Proof.
  intros R Rd. pose proof (ready_wired w R Rd) as W.
  destruct (qualifying_step_wired (TextInput text) w W) as (_ & _ & _ & D).
  cbn [qualifying_event] in D. rewrite D. cbn [qualifying_dom].
  unfold count_feedback.
  cbn [inputTextArea_value set_inputTextArea_value set_characterCountSpan_textContent].
  destruct (MAX_MODEL_CHARS <? js_length text)%N;
    cbn [inputTextArea_value summaryTypeSelect_value summaryFormatSelect_value
         summaryLengthSelect_value characterCountSpan_textContent
         characterCountSpan_classList characterCountExceededSpan_classList
         summarizationUnsupportedDialog_display summarizationUnavailableDialog_display
         output_textContent set_inputTextArea_value set_characterCountSpan_textContent
         upd_characterCountSpan_classList upd_characterCountExceededSpan_classList].
  - split; [intros c Hc; apply classList_remove_other, Hc |].
    split; [intros c Hc; apply classList_add_other, Hc |]. repeat split.
  - split; [intros c Hc; apply classList_add_other, Hc |].
    split; [intros c Hc; apply classList_remove_other, Hc |]. repeat split.
Qed.

Lemma input_listener_touches_only_its_marks_witness :
  inputTextArea_value (dom (page (step (UserInput "Hello") sample_ready))) = "Hello"
  /\ output_textContent (dom (page (step (UserInput "Hello") sample_ready))) =
       output_textContent (dom (page sample_ready)).
Proof.
  destruct (input_listener_touches_only_its_marks sample_ready "Hello")
    as (_ & _ & V & _ & _ & _ & _ & _ & O).
  - apply sample_ready_reachable.
  - reflexivity.
  - split; [exact V | exact O].
Defined.

(** X13. A qualifying event never cancels, restarts or answers a
    summarization that is under way: in every reachable world it leaves
    the suspended callbacks, the trace of host calls, the timers that have
    run, the unhandled rejections and the output as they were.  Only the
    pending timer is replaced. *)
Theorem qualifying_event_leaves_summarizations (w : World) (q : Qualifying) :
  reachable w ->
  pending (step (qualifying_event q) w) = pending w
  /\ calls (page (step (qualifying_event q) w)) = calls (page w)
  /\ fired (page (step (qualifying_event q) w)) = fired (page w)
  /\ unhandled (step (qualifying_event q) w) = unhandled w
  /\ output_textContent (dom (page (step (qualifying_event q) w))) =
       output_textContent (dom (page w)).
Proof.
  intros R. destruct (reachable_Inv w R) as [[H | [H | H]] _].
  - destruct (halted_step (qualifying_event q) w H)
      as [_ (P & U & _ & _ & _ & F & C & _ & _ & _ & _ & _ & _ & O)].
    repeat split; assumption.
  - destruct (probing_user_run [qualifying_event q] w) as [_ Fz];
      [destruct q; reflexivity | exact H |].
    destruct Fz as (P & U & _ & _ & _ & F & C & _ & _ & _ & _ & _ & _ & O).
    repeat split; assumption.
  - destruct (qualifying_step_wired q w H) as (_ & (F & C & P & _ & U & O) & _).
    repeat split; assumption.
Qed.

Lemma qualifying_event_leaves_summarizations_witness :
  pending (step (UserInput "more") two_summarizing) = pending two_summarizing
  /\ output_textContent (dom (page (step (UserInput "more") two_summarizing))) =
       output_textContent (dom (page two_summarizing)).
Proof.
  destruct (qualifying_event_leaves_summarizations two_summarizing (TextInput "more"))
    as (P & _ & _ & _ & O).
  - apply two_summarizing_reachable.
  - split; [exact P | exact O].
Defined.

(** ** What a run can lead to *)

Lemma firings_transition (ev : Event) (w w' : World) :
  Inv w -> transition ev w w' ->
  (List.length (fired (page w')) + List.length (timers (page w'))
   <= List.length (fired (page w)) + List.length (timers (page w)) + user_events [ev])%nat.
Proof.
  intros _ T.
  destruct T as
    [ text w L | s v w L | q w W | ms w Early | ms id dl w W E Due | ev w St
    | id c w P L No | id c w P L No | id e w P L
    | id t f l rest c w W TP No | id t f l rest c w W TP No | id t f l rest e w W TP
    | id t f l rest s w W TP | id t f l rest e w W TP
    | id s x rest summary w W TP | id s x rest e w W TP ];
    step_simpl; try (cbn; lia).
  - destruct q; cbn; lia.
  - rewrite E, length_app. cbn. lia.
Qed.

(** X14. Summarizations start only in answer to the user: in every
    world reachable from the page load, the timers that have run and the
    timer still pending are together at most as many as the user's input
    and change events. *)
Theorem firings_bounded_by_user_events
    (t0 : N) (ai : option AI) (d : DOM) (evs : list Event) :
  (List.length (fired (page (run evs (boot t0 ai d))))
   + List.length (timers (page (run evs (boot t0 ai d))))
   <= user_events evs)%nat.
Proof.
  assert (G : forall evs w, Inv w ->
            (List.length (fired (page (run evs w))) + List.length (timers (page (run evs w)))
             <= List.length (fired (page w)) + List.length (timers (page w))
                + user_events evs)%nat).
  { clear. intros evs. induction evs as [| ev evs IH]; intros w I.
    - cbn. lia.
    - change (run (ev :: evs) w) with (run evs (step ev w)).
      specialize (IH (step ev w) (Inv_step ev w I)).
      pose proof (firings_transition ev w _ I (transition_step ev w I)) as S.
      change (user_events (ev :: evs)) with (user_events ([ev] ++ evs)).
      unfold user_events in *. rewrite filter_app, length_app. lia. }
  specialize (G evs _ (Inv_boot t0 ai d)).
  assert (F : fired (page (boot t0 ai d)) = [] /\ timers (page (boot t0 ai d)) = [])
    by (destruct ai as [[[|]] |]; split; reflexivity).
  destruct F as [F T]. rewrite F, T in G. cbn [List.length] in G. lia.
Qed.

Lemma output_transition (ev : Event) (w w' : World) :
  transition ev w w' ->
  output_textContent (dom (page w')) = output_textContent (dom (page w))
  \/ output_textContent (dom (page w')) = "Generating summary..."
  \/ summary_of [ev] (output_textContent (dom (page w'))).
Proof.
  intros T. destruct T; try (left; reflexivity).
  - left. destruct s; reflexivity.
  - left. destruct q as [text | s v]; cbn.
    + rewrite count_feedback_output. reflexivity.
    + destruct s; reflexivity.
  - right; left. reflexivity.
  - right; right. exists id. left. reflexivity.
Qed.

Lemma output_run (evs : list Event) :
  forall w, Inv w ->
    output_textContent (dom (page (run evs w))) = output_textContent (dom (page w))
    \/ output_textContent (dom (page (run evs w))) = "Generating summary..."
    \/ summary_of evs (output_textContent (dom (page (run evs w)))).
Proof.
  induction evs as [| ev evs IH]; intros w I; [left; reflexivity |].
  change (run (ev :: evs) w) with (run evs (step ev w)).
  destruct (IH _ (Inv_step ev w I)) as [E | [E | (id & H)]].
  - rewrite E.
    destruct (output_transition ev w _ (transition_step ev w I)) as [O | [O | (id & H)]].
    + left. exact O.
    + right; left. exact O.
    + right; right. exists id. destruct H as [H | []]. left. exact H.
  - right; left. exact E.
  - right; right. exists id. right. exact H.
Qed.

(** X15. The output never shows an error: in every world reachable
    from the page load it shows what the document had at load, or the
    placeholder, or a summary the host has returned. *)
Theorem output_shows_only_summaries
    (t0 : N) (ai : option AI) (d : DOM) (evs : list Event) :
  output_textContent (dom (page (run evs (boot t0 ai d)))) = output_textContent d
  \/ output_textContent (dom (page (run evs (boot t0 ai d)))) = "Generating summary..."
  \/ summary_of evs (output_textContent (dom (page (run evs (boot t0 ai d))))).
Proof.
  destruct (output_run evs _ (Inv_boot t0 ai d)) as [E | H]; [| right; exact H].
  left. rewrite E. destruct ai as [[[|]] |]; reflexivity.
Qed.
